(** * fmus-fintech: transaction lifecycle and contract-call dispatch

    A shallow embedding of the Python sources of fmus-fintech
    (utils/validation.py, core/transaction.py, core/contract.py,
    chains/ethereum.py, chains/ethereum_contract.py, chains/erc20.py)
    together with the properties its specification states about them.

    Python objects are records, [None] is [option], raised exceptions are
    an explicit result type, dictionaries are finite maps, and the node
    behind the provider is an arbitrary state machine. *)

From Stdlib Require Import ZArith String Ascii List Bool Lia.
From Stdlib Require Import Numbers.DecimalString.
From Stdlib Require Import Floats.SpecFloat.
From stdpp Require Import base option countable gmap strings list.

Local Open Scope string_scope.
Local Open Scope Z_scope.

(** ** Python exceptions and results *)

(** The exception classes the sources raise or catch.  All of them derive
    from [Exception]; the payload is the message, [str(e)]. *)
Inductive exn : Type :=
| ValueError (msg : string)
| TypeError (msg : string)
| KeyError (key : string)
| AttributeError (msg : string)
| TimeoutError (msg : string)
| OverflowError (msg : string)
| ZeroDivisionError (msg : string)
| Exception (msg : string).

(** [str(e)]: the message; a [KeyError] prints the repr of its key. *)
Definition exn_str (e : exn) : string :=
  match e with
  | ValueError m | TypeError m | AttributeError m | TimeoutError m
  | OverflowError m | ZeroDivisionError m | Exception m => m
  | KeyError k => "'" +:+ k +:+ "'"
  end.

Inductive res (A : Type) : Type :=
| Ret (a : A)
| Raise (e : exn).
Arguments Ret {A} a.
Arguments Raise {A} e.

Definition is_ret {A} (x : res A) : bool :=
  match x with Ret _ => true | Raise _ => false end.

Definition res_bind {A B} (x : res A) (k : A -> res B) : res B :=
  match x with Ret a => k a | Raise e => Raise e end.

(** ** Python strings *)

Module PyStr.

(** [s[n:]] *)
Fixpoint drop (n : nat) (s : string) : string :=
  match n, s with
  | O, _ => s
  | S _, EmptyString => EmptyString
  | S n', String _ s' => drop n' s'
  end.

(** [s.startswith(p)] *)
Fixpoint startswith (s p : string) {struct p} : bool :=
  match p, s with
  | EmptyString, _ => true
  | String _ _, EmptyString => false
  | String b p', String a s' => Ascii.eqb a b && startswith s' p'
  end.

(** [c in s] for a one-character [c] *)
Fixpoint contains_char (c : ascii) (s : string) : bool :=
  match s with
  | EmptyString => false
  | String d s' => Ascii.eqb c d || contains_char c s'
  end.

(** [all(p(c) for c in s)] *)
Fixpoint all (p : ascii -> bool) (s : string) : bool :=
  match s with
  | EmptyString => true
  | String c s' => p c && all p s'
  end.

(** [s * n] *)
Fixpoint times (s : string) (n : nat) : string :=
  match n with
  | O => EmptyString
  | S n' => s +:+ times s n'
  end.

(** [sep.join(l)] *)
Fixpoint join (sep : string) (l : list string) : string :=
  match l with
  | [] => EmptyString
  | [x] => x
  | x :: l' => x +:+ sep +:+ join sep l'
  end.

(** [s.lower()] on ASCII letters; the chain names it is compared with
    are ASCII, and no other character lowers to an ASCII letter within
    the 8-bit range strings have here. *)
Definition lower_char (c : ascii) : ascii :=
  let n := nat_of_ascii c in
  if Nat.leb 65 n && Nat.leb n 90 then ascii_of_nat (n + 32) else c.

Fixpoint lower (s : string) : string :=
  match s with
  | EmptyString => EmptyString
  | String c s' => String (lower_char c) (lower s')
  end.

(** [str(n)] for an integer *)
Definition of_Z (n : Z) : string := NilZero.string_of_int (Z.to_int n).

End PyStr.

(** ** utils/validation.py *)

Module Validation.

Definition hex_alphabet : string := "0123456789abcdefABCDEF".

(** [is_hex(value, length)]; the [isinstance] guard is the type of
    [value]. *)
Definition is_hex (value : string) (length : option Z) : bool :=
  let value :=
    if PyStr.startswith value "0x" then PyStr.drop 2 value else value in
  if negb (PyStr.all (fun c => PyStr.contains_char c hex_alphabet) value)
  then false
  else match length with
       | Some length =>
           let expected_chars := length * 2 in
           Z.eqb (Z.of_nat (String.length value)) expected_chars
       | None => true
       end.

(** [is_eth_address(address)] *)
Definition is_eth_address (address : string) : bool :=
  PyStr.startswith address "0x" && is_hex (PyStr.drop 2 address) (Some 20).

(** The Bitcoin pattern [^(bc1|[13])[a-zA-HJ-NP-Z0-9]{25,59}$] under
    [re.match]: [$] also matches before a final newline. *)
Definition btc_class (c : ascii) : bool :=
  PyStr.contains_char c
    "abcdefghijklmnopqrstuvwxyzABCDEFGHJKLMNPQRSTUVWXYZ0123456789".

Definition btc_body (s : string) : bool :=
  let n := String.length s in
  PyStr.all btc_class s && Nat.leb 25 n && Nat.leb n 59.

Fixpoint strip_final_newline (s : string) : string :=
  match s with
  | EmptyString => EmptyString
  | String c EmptyString =>
      if Ascii.eqb c "010"%char then EmptyString else s
  | String c s' => String c (strip_final_newline s')
  end.

Definition btc_match (address : string) : bool :=
  let try_body (rest : string) :=
    btc_body rest || btc_body (strip_final_newline rest) in
  (PyStr.startswith address "bc1" && try_body (PyStr.drop 3 address))
  || ((PyStr.startswith address "1" || PyStr.startswith address "3")
      && try_body (PyStr.drop 1 address)).

Definition one_of (s : string) (l : list string) : bool :=
  existsb (String.eqb s) l.

(** [validate_address(address, chain)] *)
Definition validate_address (address : string) (chain : string) : bool :=
  let chain := PyStr.lower chain in
  if one_of chain ["ethereum"; "eth"; "evm"] then is_eth_address address
  else if one_of chain ["solana"; "sol"] then
    Nat.eqb (String.length address) 44
  else if one_of chain ["bitcoin"; "btc"] then btc_match address
  else false.

End Validation.

(** ** Python values *)

(** What the provider hands back (parsed JSON), what contract calls take
    and return, and what the transaction fields hold.  Numbers are
    integers; dictionaries have string keys and are looked up at their
    first entry for a key. *)
#[local] Unset Elimination Schemes.
Inductive pyval : Type :=
| PNone
| PBool (b : bool)
| PInt (n : Z)
| PStr (s : string)
| PBytes (b : string)
| PList (l : list pyval)
| PTuple (l : list pyval)
| PDict (kv : list (string * pyval)).

(** Dictionary keys: the hashable values, with [True == 1] and
    [False == 0] identified as Python's dictionaries do. *)
Inductive pykey : Type :=
| KNone
| KInt (n : Z)
| KStr (s : string)
| KBytes (b : string)
| KTuple (l : list pykey).
#[local] Set Elimination Schemes.

(** [x is None] *)
Definition is_none (x : pyval) : bool :=
  match x with PNone => true | _ => false end.

(** Truthiness, as [if x], [x or y] and [not x] use it. *)
Definition truthy (x : pyval) : bool :=
  match x with
  | PNone => false
  | PBool b => b
  | PInt n => negb (Z.eqb n 0)
  | PStr s | PBytes s => negb (String.eqb s "")
  | PList l | PTuple l => match l with [] => false | _ => true end
  | PDict kv => match kv with [] => false | _ => true end
  end.

(** [x or y] *)
Definition py_or (x y : pyval) : pyval := if truthy x then x else y.

(** [d.get(k)] on the entries of a dictionary *)
Fixpoint dict_get {A} (kv : list (string * A)) (k : string) : option A :=
  match kv with
  | [] => None
  | (k', v) :: kv' => if String.eqb k k' then Some v else dict_get kv' k
  end.

(** the entries left by [d.pop(k)] *)
Fixpoint dict_remove {A} (kv : list (string * A)) (k : string)
  : list (string * A) :=
  match kv with
  | [] => []
  | (k', v) :: kv' =>
      if String.eqb k k' then dict_remove kv' k
      else (k', v) :: dict_remove kv' k
  end.

(** [x[k]] for a string key: a [KeyError] on a dictionary without the key,
    a [TypeError] on anything that is not a dictionary. *)
Definition getitem (x : pyval) (k : string) : res pyval :=
  match x with
  | PDict kv =>
      match dict_get kv k with
      | Some v => Ret v
      | None => Raise (KeyError k)
      end
  | PNone => Raise (TypeError "'NoneType' object is not subscriptable")
  | PBool _ => Raise (TypeError "'bool' object is not subscriptable")
  | PInt _ => Raise (TypeError "'int' object is not subscriptable")
  | PStr _ => Raise (TypeError "string indices must be integers")
  | PBytes _ => Raise (TypeError "byte indices must be integers or slices, not str")
  | PList _ => Raise (TypeError "list indices must be integers or slices, not str")
  | PTuple _ => Raise (TypeError "tuple indices must be integers or slices, not str")
  end.

(** [x == s] and [x != s] for a string [s] *)
Definition eq_str (x : pyval) (s : string) : bool :=
  match x with PStr t => String.eqb t s | _ => false end.

(** [hash(x)], as storing under the key [x] needs it: lists and
    dictionaries are unhashable. *)
Fixpoint hash_key (x : pyval) : res pykey :=
  match x with
  | PNone => Ret KNone
  | PBool b => Ret (KInt (if b then 1 else 0))
  | PInt n => Ret (KInt n)
  | PStr s => Ret (KStr s)
  | PBytes b => Ret (KBytes b)
  | PTuple l =>
      res_bind
        (fold_right
           (fun y acc =>
              res_bind (hash_key y) (fun k =>
              res_bind acc (fun ks => Ret (k :: ks))))
           (Ret []) l)
        (fun ks => Ret (KTuple ks))
  | PList _ => Raise (TypeError "unhashable type: 'list'")
  | PDict _ => Raise (TypeError "unhashable type: 'dict'")
  end.

(** Keys are countable, so that they index a finite map. *)
Section pykey_countable.

Fixpoint pykey_enc (k : pykey) : gen_tree (Z + string) :=
  match k with
  | KNone => GenNode 0 []
  | KInt n => GenLeaf (inl n)
  | KStr s => GenLeaf (inr s)
  | KBytes b => GenNode 1 [GenLeaf (inr b)]
  | KTuple l => GenNode 2 (map pykey_enc l)
  end.

Fixpoint pykey_dec (t : gen_tree (Z + string)) : pykey :=
  match t with
  | GenLeaf (inl n) => KInt n
  | GenLeaf (inr s) => KStr s
  | GenNode 1 [GenLeaf (inr b)] => KBytes b
  | GenNode 2 ts => KTuple (map pykey_dec ts)
  | GenNode _ _ => KNone
  end.

Fixpoint pykey_ind (P : pykey -> Prop)
    (HNone : P KNone) (HInt : forall n, P (KInt n))
    (HStr : forall s, P (KStr s)) (HBytes : forall b, P (KBytes b))
    (HTuple : forall l, Forall P l -> P (KTuple l))
    (k : pykey) {struct k} : P k :=
  match k with
  | KNone => HNone
  | KInt n => HInt n
  | KStr s => HStr s
  | KBytes b => HBytes b
  | KTuple l =>
      HTuple l
        ((fix go (l : list pykey) : Forall P l :=
            match l with
            | [] => List.Forall_nil P
            | k' :: l' =>
                @List.Forall_cons _ P k' l'
                  (pykey_ind P HNone HInt HStr HBytes HTuple k') (go l')
            end) l)
  end.

Lemma pykey_dec_enc (k : pykey) : pykey_dec (pykey_enc k) = k.
Proof.
  induction k as [| n | s | b | l IH] using pykey_ind; simpl; try reflexivity.
  f_equal. induction IH as [| k l Hk _ IHl]; simpl; [reflexivity |].
  now rewrite Hk, IHl.
Qed.

#[global] Instance pykey_eq_dec : EqDecision pykey.
Proof.
  intros x y.
  destruct (decide (pykey_enc x = pykey_enc y)) as [E | N].
  - left. rewrite <- (pykey_dec_enc x), <- (pykey_dec_enc y). now rewrite E.
  - right. intros ->. now apply N.
Defined.

#[global] Instance pykey_countable : Countable pykey :=
  inj_countable' pykey_enc pykey_dec pykey_dec_enc.

End pykey_countable.

(** ** core/transaction.py and chains/ethereum.py: transactions *)

Module TransactionStatus.

Inductive t : Type := PENDING | CONFIRMED | FAILED | UNKNOWN.

(** the value of the enumeration member *)
Definition value (st : t) : string :=
  match st with
  | PENDING => "pending"
  | CONFIRMED => "confirmed"
  | FAILED => "failed"
  | UNKNOWN => "unknown"
  end.

End TransactionStatus.

Module TransactionReceipt.

Record t : Type := mk {
  transaction_hash : pyval;
  block_number : Z;
  block_hash : pyval;
  status : bool;
  gas_used : Z;
  logs : pyval
}.

(** [TransactionReceipt.__init__]: [self.logs = logs or []] *)
Definition init (transaction_hash : pyval) (block_number : Z)
    (block_hash : pyval) (status : bool) (gas_used : Z) (logs : pyval) : t :=
  mk transaction_hash block_number block_hash status gas_used
     (py_or logs (PList [])).

End TransactionReceipt.

Module EthereumTransaction.

Record t : Type := mk {
  to : pyval;
  value : pyval;
  gas_price : pyval;
  gas_limit : pyval;
  data : pyval;
  nonce : pyval;
  chain_id : Z;
  v : option Z;
  r : option Z;
  s : option Z;
  _hash : option string
}.

(** [EthereumTransaction.__init__]: [self.data = data or b''], the
    signature fields and the hash start as [None]. *)
Definition init (to value gas_price gas_limit data nonce : pyval)
    (chain_id : Z) : t :=
  mk to value gas_price gas_limit (py_or data (PBytes "")) nonce chain_id
     None None None None.

(** [int.from_bytes(bs, byteorder="big")] *)
Definition int_from_bytes_big (bs : list Z) : Z :=
  fold_left (fun acc b => acc * 256 + b) bs 0.

(** [bytes.fromhex("11" * 32)] and [bytes.fromhex("22" * 32)] *)
Definition sig_r_bytes : list Z := repeat 17 32.
Definition sig_s_bytes : list Z := repeat 34 32.

(** [sign(private_key)]: fills the three signature fields and the hash,
    whatever the key. *)
Definition sign (private_key : string) (self : t) : t :=
  mk (to self) (value self) (gas_price self) (gas_limit self) (data self)
     (nonce self) (chain_id self)
     (Some (27 + chain_id self * 2))
     (Some (int_from_bytes_big sig_r_bytes))
     (Some (int_from_bytes_big sig_s_bytes))
     (Some ("0x" +:+ PyStr.times "33" 32)).

Definition not_signed : exn := ValueError "Transaction is not signed".

(** [serialize()] *)
Definition serialize (self : t) : res string :=
  match v self, r self, s self with
  | Some _, Some _, Some _ => Ret ("0x" +:+ PyStr.times "ff" 256)
  | _, _, _ => Raise not_signed
  end.

(** [get_hash()] *)
Definition get_hash (self : t) : res string :=
  match _hash self with
  | None => Raise not_signed
  | Some h => Ret h
  end.

(** all three signature fields are populated *)
Definition signature_populated (self : t) : bool :=
  match v self, r self, s self with
  | Some _, Some _, Some _ => true
  | _, _, _ => false
  end.

(** The transactions the public API produces: constructed, then signed
    any number of times.  The flag records whether [sign] was called. *)
Inductive history : bool -> t -> Prop :=
| history_init to value gas_price gas_limit data nonce chain_id :
    history false (init to value gas_price gas_limit data nonce chain_id)
| history_sign signed tx private_key :
    history signed tx -> history true (sign private_key tx).

End EthereumTransaction.

Module EthereumTransactionBuilder.

(** [TransactionBuilder] and its subclass [EthereumTransactionBuilder] as
    one record: the fields of the base class, then those the subclass
    adds. *)
Record t : Type := mk {
  _chain_id : Z;
  _to : pyval;
  _value : pyval;
  _data : pyval;
  _fee : pyval;
  _nonce : pyval;
  _gas_price : pyval;
  _gas_limit : pyval;
  _max_fee_per_gas : pyval;
  _max_priority_fee_per_gas : pyval;
  _type : Z
}.

(** [EthereumTransactionBuilder.__init__(chain_id)] *)
Definition init (chain_id : Z) : t :=
  mk chain_id PNone (PInt 0) PNone PNone PNone PNone PNone PNone PNone 0.

Definition to (address : pyval) (self : t) : t :=
  mk (_chain_id self) address (_value self) (_data self) (_fee self)
     (_nonce self) (_gas_price self) (_gas_limit self)
     (_max_fee_per_gas self) (_max_priority_fee_per_gas self) (_type self).

Definition value (amount : pyval) (self : t) : t :=
  mk (_chain_id self) (_to self) amount (_data self) (_fee self)
     (_nonce self) (_gas_price self) (_gas_limit self)
     (_max_fee_per_gas self) (_max_priority_fee_per_gas self) (_type self).

Definition data (data : pyval) (self : t) : t :=
  mk (_chain_id self) (_to self) (_value self) data (_fee self)
     (_nonce self) (_gas_price self) (_gas_limit self)
     (_max_fee_per_gas self) (_max_priority_fee_per_gas self) (_type self).

Definition fee (fee : pyval) (self : t) : t :=
  mk (_chain_id self) (_to self) (_value self) (_data self) fee
     (_nonce self) (_gas_price self) (_gas_limit self)
     (_max_fee_per_gas self) (_max_priority_fee_per_gas self) (_type self).

Definition nonce (nonce : pyval) (self : t) : t :=
  mk (_chain_id self) (_to self) (_value self) (_data self) (_fee self)
     nonce (_gas_price self) (_gas_limit self)
     (_max_fee_per_gas self) (_max_priority_fee_per_gas self) (_type self).

Definition gas_price (price : pyval) (self : t) : t :=
  mk (_chain_id self) (_to self) (_value self) (_data self) (_fee self)
     (_nonce self) price (_gas_limit self)
     (_max_fee_per_gas self) (_max_priority_fee_per_gas self) (_type self).

Definition gas_limit (limit : pyval) (self : t) : t :=
  mk (_chain_id self) (_to self) (_value self) (_data self) (_fee self)
     (_nonce self) (_gas_price self) limit
     (_max_fee_per_gas self) (_max_priority_fee_per_gas self) (_type self).

Definition eip1559_fee (max_fee_per_gas max_priority_fee_per_gas : pyval)
    (self : t) : t :=
  mk (_chain_id self) (_to self) (_value self) (_data self) (_fee self)
     (_nonce self) (_gas_price self) (_gas_limit self)
     max_fee_per_gas max_priority_fee_per_gas 2.

Definition recipient_required : exn :=
  ValueError "Recipient address (to) is required".
Definition gas_price_required : exn :=
  ValueError "Gas price is required for legacy transactions".

(** [build()] *)
Definition build (self : t) : res EthereumTransaction.t :=
  if is_none (_to self) then Raise recipient_required
  else if Z.eqb (_type self) 0 then
    if is_none (_gas_price self) then Raise gas_price_required
    else
      Ret (EthereumTransaction.init (_to self) (_value self)
             (_gas_price self) (_gas_limit self) (_data self)
             (_nonce self) (_chain_id self))
  else
    Ret (EthereumTransaction.init (_to self) (_value self)
           (_gas_price self) (_gas_limit self) (_data self)
           (_nonce self) (_chain_id self)).






End EthereumTransactionBuilder.

(** ** Effects: the node, the clock and raised exceptions *)

(** What the sources reach outside themselves for.  [W] is the state of
    the world: the node behind the provider and the wall clock.
    - [request method params w] is [provider.request(method, params)]: it
      returns the parsed response or raises;
    - [is_connected w] is [provider.is_connected()];
    - [now w] is [time.time()], counted in clock ticks, [hz] of them to
      the second;
    - [sleep seconds w] is [time.sleep(seconds)];
    - [int16 x] is the built-in [int(x, 16)] and [str x] the built-in
      [str(x)]. *)
Class Node (W : Type) : Type := {
  request : string -> option (list pyval) -> W -> res pyval * W;
  is_connected : W -> res bool * W;
  now : W -> Z;
  hz : Z;
  sleep : Z -> W -> res unit * W;
  int16 : pyval -> res Z;
  str : pyval -> string
}.

(** What an execution did to the world, in order: kept beside the state
    to state what was requested and when the caller slept. *)
Inductive event : Type :=
| EvRequest (method : string) (params : option (list pyval))
| EvSleep (seconds : Z).

(** [ev] is a request of [method] *)
Definition requested (method : string) (ev : event) : bool :=
  match ev with
  | EvRequest m _ => String.eqb m method
  | EvSleep _ => false
  end.

(** A computation over a state [S] that returns or raises; the state
    reached when an exception is raised is kept, as in Python. *)
Definition M (S A : Type) : Type := S -> res A * S.

Definition m_ret {S A} (a : A) : M S A := fun st => (Ret a, st).

Definition m_raise {S A} (e : exn) : M S A := fun st => (Raise e, st).

Definition m_lift {S A} (x : res A) : M S A := fun st => (x, st).

Definition m_bind {S A B} (m : M S A) (k : A -> M S B) : M S B :=
  fun st =>
    match m st with
    | (Ret a, st') => k a st'
    | (Raise e, st') => (Raise e, st')
    end.

(** [try: m  except Exception as e: h e] *)
Definition m_try {S A} (m : M S A) (h : exn -> M S A) : M S A :=
  fun st =>
    match m st with
    | (Ret a, st') => (Ret a, st')
    | (Raise e, st') => h e st'
    end.

Notation "'do' x <- c ; k" := (m_bind c (fun x => k))
  (at level 10, x name, c at level 100, k at level 200, only parsing).

Notation "'do_' c ; k" := (m_bind c (fun _ => k))
  (at level 10, c at level 100, k at level 200, only parsing).

(** ** core/wallet.py, as far as the transaction path uses it *)

Module Wallet.

Record t : Type := mk {
  _private_key : option string;
  _mnemonic : option string
}.

(** [export_private_key(chain)]: the stored key when it is non-empty,
    else a derived placeholder. *)
Definition export_private_key (chain : string) (self : t) : string :=
  match _private_key self with
  | Some k => if String.eqb k "" then "derived_private_key_for_" +:+ chain
              else k
  | None => "derived_private_key_for_" +:+ chain
  end.

End Wallet.

(** ** chains/ethereum.py: the network object and its transaction manager *)

Module Ethereum.

(** The [Ethereum] object with what it owns: the provider (in the world
    [provider]) and the transaction manager, whose only field is the
    pending-transaction map. *)
Record t (W : Type) : Type := mk {
  _wallet : option Wallet.t;
  _network : string;
  _connected : bool;
  provider : W;
  _pending_transactions : gmap pykey EthereumTransaction.t;
  trace : list event
}.
Arguments mk {W}.
Arguments _wallet {W}.
Arguments _network {W}.
Arguments _connected {W}.
Arguments provider {W}.
Arguments _pending_transactions {W}.
Arguments trace {W}.

Definition NETWORKS : list (string * Z) :=
  [("mainnet", 1); ("ropsten", 3); ("rinkeby", 4); ("goerli", 5);
   ("sepolia", 11155111)].

Section WithNode.
Context {W : Type} `{Node W}.

Definition set_connected (b : bool) (self : t W) : t W :=
  mk (_wallet self) (_network self) b (provider self)
     (_pending_transactions self) (trace self).

Definition set_pending (m : gmap pykey EthereumTransaction.t) (self : t W)
  : t W :=
  mk (_wallet self) (_network self) (_connected self) (provider self) m
     (trace self).

(** [self._provider.request(method, params)] *)
Definition provider_request (method : string) (params : option (list pyval))
  : M (t W) pyval :=
  fun self =>
    let '(out, w) := request method params (provider self) in
    (out, mk (_wallet self) (_network self) (_connected self) w
              (_pending_transactions self)
              (trace self ++ [EvRequest method params])%list).

(** [self._provider.is_connected()] *)
Definition provider_is_connected : M (t W) bool :=
  fun self =>
    let '(out, w) := is_connected (provider self) in
    (out, mk (_wallet self) (_network self) (_connected self) w
              (_pending_transactions self) (trace self)).

(** [time.sleep(seconds)] *)
Definition time_sleep (seconds : Z) : M (t W) unit :=
  fun self =>
    let '(out, w) := sleep seconds (provider self) in
    (out, mk (_wallet self) (_network self) (_connected self) w
              (_pending_transactions self)
              (trace self ++ [EvSleep seconds])%list).

(** [Ethereum.connect()]; the constructor always sets a provider, so the
    guard for a missing one is never taken. *)
Definition connect : M (t W) bool :=
  m_try
    (do c <- provider_is_connected;
     fun self => (Ret c, set_connected c self))
    (fun _ self => (Ret false, set_connected false self)).

(** [Ethereum.get_chain_id()] *)
Definition get_chain_id : M (t W) Z :=
  do_ (fun self =>
         if _connected self then (Ret false, self) else connect self);
  fun self =>
    match dict_get NETWORKS (_network self) with
    | Some id => (Ret id, self)
    | None =>
        m_try
          (do response <- provider_request "eth_chainId" None;
           do result <- m_lift (getitem response "result");
           m_lift (int16 result))
          (fun e => m_raise (Exception ("Failed to get chain ID: " +:+ exn_str e)))
          self
    end.

End WithNode.

End Ethereum.

Module EthereumTransactionManager.

Section WithNode.
Context {W : Type} `{Node W}.

(** [create_transaction()] *)
Definition create_transaction : M (Ethereum.t W) EthereumTransactionBuilder.t :=
  do chain_id <- Ethereum.get_chain_id;
  m_ret (EthereumTransactionBuilder.init chain_id).

(** [self._pending_transactions[tx_hash] = transaction] *)
Definition store_pending (tx_hash : pyval) (transaction : EthereumTransaction.t)
  : M (Ethereum.t W) unit :=
  do key <- m_lift (hash_key tx_hash);
  fun self =>
    (Ret tt,
     Ethereum.set_pending
       (<[key := transaction]> (Ethereum._pending_transactions self)) self).

(** [broadcast(transaction)] *)
Definition broadcast (transaction : EthereumTransaction.t)
  : M (Ethereum.t W) pyval :=
  m_try
    (do serialized <- m_lift (EthereumTransaction.serialize transaction);
     do response <-
       Ethereum.provider_request "eth_sendRawTransaction"
         (Some [PStr serialized]);
     do tx_hash <- m_lift (getitem response "result");
     do_ store_pending tx_hash transaction;
     m_ret tx_hash)
    (fun e =>
       m_raise (Exception ("Failed to broadcast transaction: " +:+ exn_str e))).

(** [get_receipt(tx_hash)] *)
Definition get_receipt (tx_hash : pyval)
  : M (Ethereum.t W) (option TransactionReceipt.t) :=
  m_try
    (do response <-
       Ethereum.provider_request "eth_getTransactionReceipt"
         (Some [tx_hash]);
     do result <- m_lift (getitem response "result");
     if is_none result then m_ret None
     else
       do transaction_hash <- m_lift (getitem result "transactionHash");
       do block_number_hex <- m_lift (getitem result "blockNumber");
       do block_number <- m_lift (int16 block_number_hex);
       do block_hash <- m_lift (getitem result "blockHash");
       do status <- m_lift (getitem result "status");
       do gas_used_hex <- m_lift (getitem result "gasUsed");
       do gas_used <- m_lift (int16 gas_used_hex);
       do logs <- m_lift (getitem result "logs");
       m_ret (Some (TransactionReceipt.init transaction_hash block_number
                      block_hash (eq_str status "0x1") gas_used logs)))
    (fun e => m_raise (Exception ("Failed to get receipt: " +:+ exn_str e))).

(** [get_status(tx_hash)] *)
Definition get_status (tx_hash : pyval)
  : M (Ethereum.t W) TransactionStatus.t :=
  m_try
    (do receipt <- get_receipt tx_hash;
     match receipt with
     | None => m_ret TransactionStatus.PENDING
     | Some receipt =>
         if TransactionReceipt.status receipt
         then m_ret TransactionStatus.CONFIRMED
         else m_ret TransactionStatus.FAILED
     end)
    (fun _ => m_ret TransactionStatus.UNKNOWN).

Definition not_mined (tx_hash : pyval) (timeout : Z) : exn :=
  TimeoutError
    ("Transaction " +:+ str tx_hash +:+ " not mined within "
     +:+ PyStr.of_Z timeout +:+ " seconds").

(** The [while] loop of [wait_for_receipt], unrolled at most [fuel]
    times; [None] when the fuel does not reach the end of the loop.  The
    guard [time.time() - start_time < timeout] compares seconds, here in
    ticks. *)
Fixpoint wait_loop (fuel : nat) (tx_hash : pyval)
    (timeout poll_interval start_time : Z) (self : Ethereum.t W)
  : option (res TransactionReceipt.t * Ethereum.t W) :=
  match fuel with
  | O => None
  | S fuel' =>
      if now (Ethereum.provider self) - start_time <? timeout * hz then
        match get_receipt tx_hash self with
        | (Raise e, self') => Some (Raise e, self')
        | (Ret (Some receipt), self') => Some (Ret receipt, self')
        | (Ret None, self') =>
            match Ethereum.time_sleep poll_interval self' with
            | (Raise e, self'') => Some (Raise e, self'')
            | (Ret _, self'') =>
                wait_loop fuel' tx_hash timeout poll_interval start_time self''
            end
        end
      else Some (Raise (not_mined tx_hash timeout), self)
  end.



(** [wait_for_receipt(tx_hash, timeout, poll_interval)] *)
Definition wait_for_receipt (fuel : nat) (tx_hash : pyval)
    (timeout poll_interval : Z) (self : Ethereum.t W)
  : option (res TransactionReceipt.t * Ethereum.t W) :=
  let start_time := now (Ethereum.provider self) in
  wait_loop fuel tx_hash timeout poll_interval start_time self.

End WithNode.

End EthereumTransactionManager.

(** ** core/contract.py: bound functions and the read/write facades *)

(** A dictionary with string values: one input or output of an ABI
    entry. *)
Abbreviation abi_param := (list (string * string)).

(** One entry of the ABI; a field is [None] when the dictionary has no
    such key. *)
Record abi_item : Type := mk_abi_item {
  item_type : option string;
  item_name : option string;
  item_constant : option bool;
  item_stateMutability : option string;
  item_inputs : option (list abi_param);
  item_outputs : option (list abi_param)
}.

(** [item.get("type") == "function" and item.get("name") == name] *)
Definition is_function_named (name : string) (item : abi_item) : bool :=
  match item_type item, item_name item with
  | Some ty, Some n => String.eqb ty "function" && String.eqb n name
  | _, _ => false
  end.

(** [item.get("constant", False) or
     item.get("stateMutability") in ["view", "pure"]] *)
Definition abi_is_constant (item : abi_item) : bool :=
  match item_constant item with Some c => c | None => false end
  || match item_stateMutability item with
     | Some m => Validation.one_of m ["view"; "pure"]
     | None => false
     end.

Module ContractFunction.

Record t : Type := mk {
  name : string;
  inputs : list abi_param;
  outputs : list abi_param;
  constant : bool
}.

Definition tx_option_keys : list string :=
  ["gas"; "gas_price"; "value"; "nonce"].

(** The first loop of [__call__]: the transaction options are popped from
    the keyword arguments.  Returns the options and what is left. *)
Definition extract_tx_options (kwargs : list (string * pyval))
  : list (string * pyval) * list (string * pyval) :=
  fold_left
    (fun '(tx_options, kwargs) key =>
       match dict_get kwargs key with
       | Some v => ((tx_options ++ [(key, v)])%list, dict_remove kwargs key)
       | None => (tx_options, kwargs)
       end)
    tx_option_keys ([], kwargs).

Definition both_ways (name : string) : exn :=
  ValueError
    ("Argument '" +:+ name
     +:+ "' provided as both positional and keyword argument").

(** The loop over [enumerate(self.inputs)] from index [i] on: a keyword
    argument named as an input is appended to [combined_args]. *)
Fixpoint map_keywords (i : nat) (inputs : list abi_param) (n_args : nat)
    (kwargs : list (string * pyval)) (combined_args : list pyval)
  : res (list pyval) :=
  match inputs with
  | [] => Ret combined_args
  | input_def :: inputs' =>
      match dict_get input_def "name" with
      | None => Raise (KeyError "name")
      | Some name =>
          match dict_get kwargs name with
          | Some v =>
              if (i <? n_args)%nat then Raise (both_ways name)
              else map_keywords (S i) inputs' n_args kwargs
                     (combined_args ++ [v])%list
          | None => map_keywords (S i) inputs' n_args kwargs combined_args
          end
      end
  end.

(** [[input_def["name"] for input_def in l]] *)
Fixpoint names_of (l : list abi_param) : res (list string) :=
  match l with
  | [] => Ret []
  | input_def :: l' =>
      match dict_get input_def "name" with
      | None => Raise (KeyError "name")
      | Some name => res_bind (names_of l') (fun ns => Ret (name :: ns))
      end
  end.

Definition missing_arguments (missing : list string) : exn :=
  ValueError ("Missing required arguments: " +:+ PyStr.join ", " missing).

(** [__call__] up to the dispatch: the positional arguments the call is
    made with, and the transaction options. *)
Definition bind_arguments (self : t) (args : list pyval)
    (kwargs : list (string * pyval))
  : res (list pyval * list (string * pyval)) :=
  let '(tx_options, kwargs) := extract_tx_options kwargs in
  if (length (inputs self) <? length args + length kwargs)%nat
  then Raise (ValueError "Too many arguments provided")
  else
    res_bind (map_keywords 0 (inputs self) (length args) kwargs args)
      (fun combined_args =>
         if (length combined_args <? length (inputs self))%nat then
           res_bind (names_of (drop (length combined_args) (inputs self)))
             (fun missing => Raise (missing_arguments missing))
         else Ret (combined_args, tx_options)).

End ContractFunction.

Module ContractFunctionGroup.

Record t : Type := mk {
  is_write : bool;
  _functions : gmap string ContractFunction.t
}.

(** [ContractFunctionGroup.__init__(contract, is_write)] *)
Definition init (is_write : bool) : t := mk is_write ∅.

Definition no_function (name : string) : exn :=
  AttributeError ("Contract has no function '" +:+ name +:+ "'").

(** The loop of [__getattr__] over the ABI: the function built from the
    first entry of that name whose mutability fits the group. *)
Fixpoint find_function (abi : list abi_item) (is_write : bool)
    (name : string) : option ContractFunction.t :=
  match abi with
  | [] => None
  | item :: abi' =>
      if is_function_named name item
         && negb (Bool.eqb (abi_is_constant item) is_write)
      then
        Some (ContractFunction.mk name
                (default [] (item_inputs item))
                (default [] (item_outputs item))
                (abi_is_constant item))
      else find_function abi' is_write name
  end.

(** [__getattr__(name)]: the cached function, else the one found in the
    ABI, which is cached. *)
Definition getattr (abi : list abi_item) (name : string) (self : t)
  : res ContractFunction.t * t :=
  match _functions self !! name with
  | Some function => (Ret function, self)
  | None =>
      match find_function abi (is_write self) name with
      | Some function =>
          (Ret function,
           mk (is_write self) (<[name := function]> (_functions self)))
      | None => (Raise (no_function name), self)
      end
  end.

(** The cache holds what [__getattr__] put there: under a name, the
    function the ABI gives for it in this group. *)
Definition resolves (abi : list abi_item) (self : t) : Prop :=
  forall name function,
    _functions self !! name = Some function ->
    find_function abi (is_write self) name = Some function.

End ContractFunctionGroup.

(** ** chains/ethereum_contract.py *)

Module EthereumContract.

(** The contract with what it reaches: its two facades and the [Ethereum]
    object, whose provider is the one [self.provider] names. *)
Record t (W : Type) : Type := mk {
  address : string;
  abi : list abi_item;
  ethereum : Ethereum.t W;
  bytecode : option string;
  read : ContractFunctionGroup.t;
  write : ContractFunctionGroup.t
}.
Arguments mk {W}.
Arguments address {W}.
Arguments abi {W}.
Arguments ethereum {W}.
Arguments bytecode {W}.
Arguments read {W}.
Arguments write {W}.

Section WithNode.
Context {W : Type} `{Node W}.

(** [EthereumContract.__init__], the ABI given as a list *)
Definition init (address : string) (abi : list abi_item)
    (ethereum : Ethereum.t W) (bytecode : option string) : res (t W) :=
  if negb (Validation.is_eth_address address)
  then Raise (ValueError ("Invalid Ethereum address: " +:+ address))
  else Ret (mk address abi ethereum bytecode
              (ContractFunctionGroup.init false)
              (ContractFunctionGroup.init true)).

(** The facades are those of this contract: the read group reads, the
    write group writes, and their caches hold what the ABI gives. *)
Definition consistent (self : t W) : Prop :=
  ContractFunctionGroup.is_write (read self) = false
  /\ ContractFunctionGroup.is_write (write self) = true
  /\ ContractFunctionGroup.resolves (abi self) (read self)
  /\ ContractFunctionGroup.resolves (abi self) (write self).

(** an operation of the [Ethereum] object, run from the contract *)
Definition on_ethereum {A} (m : M (Ethereum.t W) A) : M (t W) A :=
  fun self =>
    let '(out, eth) := m (ethereum self) in
    (out, mk (address self) (abi self) eth (bytecode self) (read self)
             (write self)).

(** What [contract.read.<name>] and [contract.write.<name>] evaluate to:
    a function of the contract, made by [__getattr__], or an attribute
    the group has of its own, which Python's lookup finds first and for
    which [__getattr__] is not called. *)
Inductive attribute : Type :=
| Function (function : ContractFunction.t)
| Own (name : string).

(** the attributes [ContractFunctionGroup.__init__] sets *)
Definition instance_attributes : list string :=
  ["contract"; "is_write"; "_functions"].

(** Which names the class of the group and [object] define depends on
    the interpreter; all of them begin with two underscores. *)
Variable class_attribute : string -> bool.

Definition found_by_lookup (name : string) : bool :=
  Validation.one_of name instance_attributes
  || (PyStr.startswith name "__" && class_attribute name).

(** [contract.read.<name>] *)
Definition read_getattr (name : string) : M (t W) attribute :=
  fun self =>
    if found_by_lookup name then (Ret (Own name), self)
    else
      let '(out, g) :=
        ContractFunctionGroup.getattr (abi self) name (read self) in
      (res_bind out (fun function => Ret (Function function)),
       mk (address self) (abi self) (ethereum self) (bytecode self) g
          (write self)).

(** [contract.write.<name>] *)
Definition write_getattr (name : string) : M (t W) attribute :=
  fun self =>
    if found_by_lookup name then (Ret (Own name), self)
    else
      let '(out, g) :=
        ContractFunctionGroup.getattr (abi self) name (write self) in
      (res_bind out (fun function => Ret (Function function)),
       mk (address self) (abi self) (ethereum self) (bytecode self)
          (read self) g).

Definition not_in_abi (function_name : string) : exn :=
  ValueError ("Function " +:+ function_name +:+ " not found in ABI").

(** the loop that looks [function_name] up in the ABI *)
Definition find_abi (abi : list abi_item) (function_name : string)
  : option abi_item :=
  List.find (is_function_named function_name) abi.

(** [function_selector + "".join(encoded_args)] *)
Definition call_data (function_name : string) (function_abi : abi_item)
    (args : list pyval) : string :=
  let input_types :=
    map (fun inp : abi_param => default "" (dict_get inp "type"))
        (default [] (item_inputs function_abi)) in
  let function_signature :=
    function_name +:+ "(" +:+ PyStr.join "," input_types +:+ ")" in
  let function_selector := function_signature in
  let encoded_args := map str args in
  function_selector +:+ PyStr.join "" encoded_args.

(** [s.rjust(width, "0")] *)
Definition rjust0 (width : nat) (s : string) : string :=
  PyStr.times "0" (width - String.length s) +:+ s.

(** the decoding of [result] that ends [_call_function] *)
Definition decode_result (outputs : list abi_param) (result : pyval)
  : res pyval :=
  match outputs with
  | [] => Ret PNone
  | [output] =>
      match dict_get output "type" with
      | None => Raise (KeyError "type")
      | Some output_type =>
          if PyStr.startswith output_type "uint" then
            if negb (eq_str result "0x")
            then res_bind (int16 result) (fun n => Ret (PInt n))
            else Ret (PInt 0)
          else if String.eqb output_type "string" then Ret result
          else if String.eqb output_type "bool" then
            Ret (PBool (negb (eq_str result "0x") && negb (eq_str result "0x0")))
          else if String.eqb output_type "address" then
            match result with
            | PStr r => Ret (PStr ("0x" +:+ rjust0 40 (PyStr.drop 2 r)))
            | PList _ | PTuple _ =>
                Raise (AttributeError "object has no attribute 'rjust'")
            | PBytes _ =>
                Raise (TypeError "rjust() argument 2 must be a byte string of length 1")
            | _ => Raise (TypeError "object is not subscriptable")
            end
          else Ret result
      end
  | _ => Ret (PTuple (map (fun _ => result) outputs))
  end.

(** [_call_function(function_name, args, outputs)]: the read path *)
Definition _call_function (function_name : string) (args : list pyval)
    (outputs : list abi_param) : M (t W) pyval :=
  fun self =>
    match find_abi (abi self) function_name with
    | None => (Raise (not_in_abi function_name), self)
    | Some function_abi =>
        let call_object :=
          PDict [("to", PStr (address self));
                 ("data", PStr (call_data function_name function_abi args))] in
        m_try
          (do response <-
             on_ethereum
               (Ethereum.provider_request "eth_call"
                  (Some [call_object; PStr "latest"]));
           do result <- m_lift (getitem response "result");
           m_lift (decode_result outputs result))
          (fun e =>
             m_raise
               (Exception
                  ("Failed to call function " +:+ function_name +:+ ": "
                   +:+ exn_str e)))
          self
    end.

(** [if key in tx_options: tx_builder.setter(tx_options[key])] *)
Definition set_if_given (tx_options : list (string * pyval)) (key : string)
    (setter : pyval -> EthereumTransactionBuilder.t -> EthereumTransactionBuilder.t)
    (tx_builder : EthereumTransactionBuilder.t) : EthereumTransactionBuilder.t :=
  match dict_get tx_options key with
  | Some v => setter v tx_builder
  | None => tx_builder
  end.

(** [_transact_function(function_name, args, tx_options)]: the write
    path.  The sender address it computes is not used. *)
Definition _transact_function (function_name : string) (args : list pyval)
    (tx_options : list (string * pyval)) : M (t W) pyval :=
  fun self =>
    match Ethereum._wallet (ethereum self) with
    | None => (Raise (ValueError "No wallet set"), self)
    | Some wallet =>
        match find_abi (abi self) function_name with
        | None => (Raise (not_in_abi function_name), self)
        | Some function_abi =>
            let data := call_data function_name function_abi args in
            (do tx_builder <-
               on_ethereum EthereumTransactionManager.create_transaction;
             let tx_builder :=
               EthereumTransactionBuilder.data (PStr data)
                 (EthereumTransactionBuilder.to (PStr (address self))
                    tx_builder) in
             let tx_builder :=
               set_if_given tx_options "value"
                 EthereumTransactionBuilder.value tx_builder in
             let tx_builder :=
               set_if_given tx_options "gas"
                 EthereumTransactionBuilder.gas_limit tx_builder in
             let tx_builder :=
               set_if_given tx_options "gas_price"
                 EthereumTransactionBuilder.gas_price tx_builder in
             let tx_builder :=
               set_if_given tx_options "nonce"
                 EthereumTransactionBuilder.nonce tx_builder in
             let private_key := Wallet.export_private_key "ethereum" wallet in
             do transaction <-
               m_lift (EthereumTransactionBuilder.build tx_builder);
             let transaction :=
               EthereumTransaction.sign private_key transaction in
             on_ethereum (EthereumTransactionManager.broadcast transaction))
            self
        end
    end.

(** [ContractFunction.__call__] with positional and keyword arguments,
    on a function of this contract *)
Definition call (function : ContractFunction.t) (args : list pyval)
    (kwargs : list (string * pyval)) : M (t W) pyval :=
  do bound <- m_lift (ContractFunction.bind_arguments function args kwargs);
  if ContractFunction.constant function then
    _call_function (ContractFunction.name function) (fst bound)
      (ContractFunction.outputs function)
  else
    _transact_function (ContractFunction.name function) (fst bound)
      (snd bound).

(** Calling one of the instance attributes of a group: none of the three
    is callable. *)
Definition not_callable (name : string) : exn :=
  TypeError
    ("'" +:+ (if String.eqb name "is_write" then "bool"
              else if String.eqb name "_functions" then "dict"
              else "EthereumContract")
     +:+ "' object is not callable").

(** What calling an attribute of the class does, an interpreter's
    method such as [__dir__] or [__init__]. *)
Variable call_class_attribute :
  string -> list pyval -> list (string * pyval) -> M (t W) pyval.

(** the call of what a facade gave, with positional and keyword
    arguments *)
Definition invoke (a : attribute) (args : list pyval)
    (kwargs : list (string * pyval)) : M (t W) pyval :=
  match a with
  | Function function => call function args kwargs
  | Own name =>
      if Validation.one_of name instance_attributes
      then m_raise (not_callable name)
      else call_class_attribute name args kwargs
  end.

(** the builder [deploy] hands to [build]: the bytecode as data, the
    options given, and no recipient *)
Definition deploy_builder (bytecode : string) (kwargs : list (string * pyval))
    (tx_builder : EthereumTransactionBuilder.t) : EthereumTransactionBuilder.t :=
  let tx_builder := EthereumTransactionBuilder.data (PStr bytecode) tx_builder in
  let tx_builder :=
    set_if_given kwargs "gas" EthereumTransactionBuilder.gas_limit tx_builder in
  let tx_builder :=
    set_if_given kwargs "gas_price" EthereumTransactionBuilder.gas_price
      tx_builder in
  set_if_given kwargs "nonce" EthereumTransactionBuilder.nonce tx_builder.

(** [EthereumContract.deploy(abi, bytecode, ethereum, ...)], the ABI given
    as a list; [fuel] bounds the wait for the receipt.  The constructor
    entry and the sender address it looks up are not used. *)
Definition deploy (fuel : nat) (abi : list abi_item) (bytecode : string)
    (args : list pyval) (kwargs : list (string * pyval))
    (ethereum : Ethereum.t W) : option (res (t W) * Ethereum.t W) :=
  match Ethereum._wallet ethereum with
  | None => Some (Raise (ValueError "No wallet set"), ethereum)
  | Some wallet =>
      match EthereumTransactionManager.create_transaction ethereum with
      | (Raise e, ethereum) => Some (Raise e, ethereum)
      | (Ret tx_builder, ethereum) =>
          let tx_builder := deploy_builder bytecode kwargs tx_builder in
          let private_key := Wallet.export_private_key "ethereum" wallet in
          match EthereumTransactionBuilder.build tx_builder with
          | Raise e => Some (Raise e, ethereum)
          | Ret transaction =>
              let transaction :=
                EthereumTransaction.sign private_key transaction in
              match EthereumTransactionManager.broadcast transaction ethereum with
              | (Raise e, ethereum) => Some (Raise e, ethereum)
              | (Ret tx_hash, ethereum) =>
                  match EthereumTransactionManager.wait_for_receipt fuel
                          tx_hash 120 1 ethereum with
                  | None => None
                  | Some (Raise e, ethereum) => Some (Raise e, ethereum)
                  | Some (Ret receipt, ethereum) =>
                      if negb (TransactionReceipt.status receipt) then
                        Some (Raise (Exception "Contract deployment failed"),
                              ethereum)
                      else
                        let contract_address := "0x" +:+ PyStr.times "0" 40 in
                        Some (init contract_address abi ethereum (Some bytecode),
                              ethereum)
                  end
              end
          end
      end
  end.

End WithNode.

End EthereumContract.

(** ** Python floats and the arithmetic of chains/erc20.py *)

Module PyFloat.

(** A Python float is an IEEE 754 binary64 number. *)
Definition prec : Z := 53.
Definition emax : Z := 1024.

(** [float(n)] for an integer, as an operation between a float and an
    integer converts it: rounded to nearest even, an [OverflowError]
    beyond the range. *)
Definition of_int (n : Z) : res spec_float :=
  match binary_normalize prec emax n 0 false with
  | S754_infinity _ => Raise (OverflowError "int too large to convert to float")
  | f => Ret f
  end.

(** [x * n] for a float [x] and an integer [n] *)
Definition mul_int (x : spec_float) (n : Z) : res spec_float :=
  res_bind (of_int n) (fun y => Ret (SFmul prec emax x y)).

(** [int(x)]: truncation toward zero *)
Definition to_int (x : spec_float) : res Z :=
  match x with
  | S754_zero _ => Ret 0
  | S754_infinity _ =>
      Raise (OverflowError "cannot convert float infinity to integer")
  | S754_nan => Raise (ValueError "cannot convert float NaN to integer")
  | S754_finite s m e =>
      Ret (cond_Zopp s
             (if 0 <=? e then Z.pos m * 2 ^ e else Z.pos m / 2 ^ (- e)))
  end.

(** [a / b] for integers: the quotient rounded once, to nearest even.
    The quotient is taken with at least 55 bits and a sticky bit for the
    remainder, which rounds as the exact quotient does. *)
Definition int_truediv (a b : Z) : res spec_float :=
  if b =? 0 then Raise (ZeroDivisionError "division by zero")
  else if a =? 0 then Ret (S754_zero (b <? 0))
  else
    let negative := xorb (a <? 0) (b <? 0) in
    let a' := Z.abs a in
    let b' := Z.abs b in
    let k := Z.max 0 (55 + Z.log2 b' - Z.log2 a') in
    let q := (a' * 2 ^ k) / b' in
    let sticky := if (a' * 2 ^ k) mod b' =? 0 then 0 else 1 in
    match binary_normalize prec emax (cond_Zopp negative (2 * q + sticky))
            (- k - 1) false with
    | S754_infinity _ =>
        Raise (OverflowError "integer division result too large for a float")
    | f => Ret f
    end.


End PyFloat.

(** ** core/wallet.py: construction and chain addresses *)

Module WalletAddresses.

(** [a or b] on two optional strings: [a] unless it is [None] or empty *)
Definition or_str (a b : option string) : option string :=
  match a with
  | Some s => if String.eqb s "" then b else a
  | None => b
  end.

(** [s[:n]] *)
Fixpoint take (n : nat) (s : string) : string :=
  match n, s with
  | O, _ => EmptyString
  | S _, EmptyString => EmptyString
  | S n', String c s' => String c (take n' s')
  end.

(** [Wallet.__init__(private_key, mnemonic)] *)
Definition init (private_key mnemonic : option string) : res Wallet.t :=
  match or_str private_key mnemonic with
  | None | Some EmptyString =>
      Raise (ValueError "Either private_key or mnemonic must be provided")
  | Some _ => Ret (Wallet.mk private_key mnemonic)
  end.

(** the characters of a [hexdigest()] *)
Definition lower_hex (c : ascii) : bool :=
  PyStr.contains_char c "0123456789abcdef".

Section WithDigest.

(** [hashlib.sha256(s.encode()).hexdigest()] *)
Variable sha256_hexdigest : string -> string.

(** [(self._mnemonic or self._private_key).encode()], hashed *)
Definition digest (self : Wallet.t) : res string :=
  match or_str (Wallet._mnemonic self) (Wallet._private_key self) with
  | Some seed => Ret (sha256_hexdigest seed)
  | None =>
      Raise (AttributeError "'NoneType' object has no attribute 'encode'")
  end.

(** [get_address_for_chain(chain)] *)
Definition get_address_for_chain (chain : string) (self : Wallet.t)
  : res string :=
  if Validation.one_of (PyStr.lower chain) ["ethereum"; "eth"] then
    res_bind (digest self) (fun d => Ret ("0x" +:+ take 40 d))
  else if Validation.one_of (PyStr.lower chain) ["solana"; "sol"] then
    digest self
  else if Validation.one_of (PyStr.lower chain) ["bitcoin"; "btc"] then
    res_bind (digest self) (fun d => Ret ("bc1" +:+ take 32 d))
  else Raise (ValueError ("Chain " +:+ chain +:+ " not supported")).

End WithDigest.

End WalletAddresses.

(** ** chains/erc20.py *)

Module ERC20Token.

(** An amount handed to [transfer], [approve] or [transfer_from]. *)
Inductive amount : Type :=
| AmountInt (n : Z)
| AmountFloat (x : spec_float).

(** The token with its contract and the three caches of its metadata,
    [None] until the property of that name is first read. *)
Record t (W : Type) : Type := mk {
  address : string;
  contract : EthereumContract.t W;
  _name : pyval;
  _symbol : pyval;
  _decimals : pyval
}.
Arguments mk {W}.
Arguments address {W}.
Arguments contract {W}.
Arguments _name {W}.
Arguments _symbol {W}.
Arguments _decimals {W}.

(** [int(amount * (10 ** decimals))] for a natural number of decimals *)
Definition units_of_float (x : spec_float) (decimals : N) : res Z :=
  res_bind (PyFloat.mul_int x (10 ^ Z.of_N decimals)) PyFloat.to_int.

(** [balance / (10 ** decimals)] for a natural number of decimals *)
Definition format_units (balance : pyval) (decimals : N) : res spec_float :=
  match balance with
  | PInt n => PyFloat.int_truediv n (10 ^ Z.of_N decimals)
  | PBool b => PyFloat.int_truediv (if b then 1 else 0) (10 ^ Z.of_N decimals)
  | _ => Raise (TypeError "unsupported operand type(s) for /")
  end.

(** the options [transfer] and [approve] pass on *)
Definition gas_options (gas_limit gas_price : option pyval)
  : list (string * pyval) :=
  (match gas_limit with Some g => [("gas", g)] | None => [] end
   ++ match gas_price with Some p => [("gas_price", p)] | None => [] end)%list.

(** [type(x).__name__] *)
Definition type_name (x : pyval) : string :=
  match x with
  | PNone => "NoneType"
  | PBool _ => "bool"
  | PInt _ => "int"
  | PStr _ => "str"
  | PBytes _ => "bytes"
  | PList _ => "list"
  | PTuple _ => "tuple"
  | PDict _ => "dict"
  end.

(** [10 ** decimals] on something that is no number *)
Definition no_power (decimals : pyval) : exn :=
  TypeError ("unsupported operand type(s) for ** or pow(): 'int' and '"
             +:+ type_name decimals +:+ "'").

Section WithNode.
Context {W : Type} `{Node W}.

(** the names the interpreter defines on a group, and what calling one
    does: see [EthereumContract.read_getattr] and [EthereumContract.invoke] *)
Variable class_attribute : string -> bool.
Variable call_class_attribute :
  string -> list pyval -> list (string * pyval)
  -> M (EthereumContract.t W) pyval.

(** [10 ** n] for a negative integer [n], which is a float *)
Variable pow10_negative : Z -> spec_float.

(** [hashlib.sha256(s.encode()).hexdigest()] *)
Variable sha256_hexdigest : string -> string.

(** [int(amount * (10 ** decimals))] for a float [amount] and the value
    [self.decimals] gave *)
Definition float_to_units (x : spec_float) (decimals : pyval) : res Z :=
  match decimals with
  | PInt n =>
      if 0 <=? n then units_of_float x (Z.to_N n)
      else PyFloat.to_int
             (SFmul PyFloat.prec PyFloat.emax x (pow10_negative n))
  | PBool b => units_of_float x (if b then 1 else 0)
  | _ => Raise (no_power decimals)
  end.


(** an operation of the contract, run from the token *)
Definition on_contract {A} (m : M (EthereumContract.t W) A) : M (t W) A :=
  fun self =>
    let '(out, c) := m (contract self) in
    (out, mk (address self) c (_name self) (_symbol self) (_decimals self)).

(** [self.contract.read.<name>(args)] and
    [self.contract.write.<name>(args, options)] *)
Definition read_call (name : string) (args : list pyval) : M (t W) pyval :=
  on_contract
    (do function <- EthereumContract.read_getattr class_attribute name;
     EthereumContract.invoke call_class_attribute function args []).

Definition write_call (name : string) (args : list pyval)
    (tx_options : list (string * pyval)) : M (t W) pyval :=
  on_contract
    (do function <- EthereumContract.write_getattr class_attribute name;
     EthereumContract.invoke call_class_attribute function args tx_options).

(** the property [decimals]: read from the contract when the cache holds
    [None], and cached *)
Definition decimals : M (t W) pyval :=
  fun self =>
    if is_none (_decimals self) then
      (do value <- read_call "decimals" [];
       fun self =>
         (Ret value,
          mk (address self) (contract self) (_name self) (_symbol self)
             value))
        self
    else (Ret (_decimals self), self).

(** [if isinstance(amount, float):
       amount = int(amount * (10 ** self.decimals))] *)
Definition to_units (a : amount) : M (t W) Z :=
  match a with
  | AmountInt n => m_ret n
  | AmountFloat x =>
      do value <- decimals;
      m_lift (float_to_units x value)
  end.

Definition invalid_address (a : string) : exn :=
  ValueError ("Invalid Ethereum address: " +:+ a).

(** [transfer(to, amount, gas_limit, gas_price)] *)
Definition transfer (to : string) (a : amount)
    (gas_limit gas_price : option pyval) : M (t W) pyval :=
  fun self =>
    if negb (Validation.is_eth_address to)
    then (Raise (invalid_address to), self)
    else
      (do units <- to_units a;
       let tx_options := gas_options gas_limit gas_price in
       write_call "transfer" [PStr to; PInt units] tx_options)
      self.

(** [approve(spender, amount, gas_limit, gas_price)] *)
Definition approve (spender : string) (a : amount)
    (gas_limit gas_price : option pyval) : M (t W) pyval :=
  fun self =>
    if negb (Validation.is_eth_address spender)
    then (Raise (invalid_address spender), self)
    else
      (do units <- to_units a;
       let tx_options := gas_options gas_limit gas_price in
       write_call "approve" [PStr spender; PInt units] tx_options)
      self.



End WithNode.

End ERC20Token.

(** ** A scripted node *)

(** A node for running the definitions: it answers the requests from a
    script, one reply a request, as the mocked providers of the tests do,
    and keeps a clock of 1000 ticks a second on which a request takes one
    tick and a sleep its length. *)
Module ScriptedNode.

Record world : Type := mk {
  replies : list (res pyval);
  clock : Z
}.

Definition scripted_request (method : string) (params : option (list pyval))
    (w : world) : res pyval * world :=
  match replies w with
  | [] => (Raise (Exception "no reply left"), mk [] (clock w + 1))
  | reply :: rest => (reply, mk rest (clock w + 1))
  end.

Definition scripted_sleep (seconds : Z) (w : world) : res unit * world :=
  if seconds <? 0
  then (Raise (ValueError "sleep length must be non-negative"), w)
  else (Ret tt, mk (replies w) (clock w + seconds * 1000)).

Definition hex_digit (c : ascii) : option Z :=
  let n := Z.of_nat (nat_of_ascii c) in
  if (48 <=? n) && (n <=? 57) then Some (n - 48)
  else if (97 <=? n) && (n <=? 102) then Some (n - 87)
  else if (65 <=? n) && (n <=? 70) then Some (n - 55)
  else None.

Fixpoint hex_value (acc : Z) (s : string) : option Z :=
  match s with
  | EmptyString => Some acc
  | String c s' =>
      match hex_digit c with
      | Some d => hex_value (acc * 16 + d) s'
      | None => None
      end
  end.

(** [int(x, 16)] on the strings nodes send: hexadecimal digits after an
    optional "0x" *)
Definition scripted_int16 (x : pyval) : res Z :=
  match x with
  | PStr s =>
      let digits := if PyStr.startswith s "0x" then PyStr.drop 2 s else s in
      match digits, hex_value 0 digits with
      | String _ _, Some n => Ret n
      | _, _ => Raise (ValueError "invalid literal for int() with base 16")
      end
  | _ => Raise (TypeError "int() can't convert non-string with explicit base")
  end.

(** [str(x)] on scalars *)
Definition scripted_str (x : pyval) : string :=
  match x with
  | PNone => "None"
  | PBool b => if b then "True" else "False"
  | PInt n => PyStr.of_Z n
  | PStr s => s
  | _ => "<object>"
  end.

#[global] Instance node : Node world := {
  request := scripted_request;
  is_connected w := (Ret true, w);
  now := clock;
  hz := 1000;
  sleep := scripted_sleep;
  int16 := scripted_int16;
  str := scripted_str
}.

(** an [Ethereum] object on mainnet over a scripted node *)
Definition ethereum (wallet : option Wallet.t) (script : list (res pyval))
  : Ethereum.t world :=
  Ethereum.mk wallet "mainnet" false (mk script 0) ∅ [].

(** the response carrying [result] *)
Definition response (result : pyval) : res pyval :=
  Ret (PDict [("result", result); ("id", PInt 1)]).

(** the receipt of a transaction that succeeded, as a node sends it *)
Definition receipt_json (status : string) : pyval :=
  PDict [("transactionHash", PStr "0xabc"); ("blockNumber", PStr "0x10");
         ("blockHash", PStr "0xdef"); ("status", PStr status);
         ("gasUsed", PStr "0x5208"); ("logs", PList [])].

End ScriptedNode.

(** ** [ERC20_ABI] of chains/erc20.py *)

(** The standard ABI, entry by entry.  Of an input or output the keys
    "name" and "type" are kept, which are the ones the code reads; the
    "indexed" flags of the event inputs are left out. *)
Definition abi_function (name : string) (constant : bool)
    (inputs outputs : list abi_param) : abi_item :=
  mk_abi_item (Some "function") (Some name) (Some constant) None
    (Some inputs) (Some outputs).

Definition abi_event (name : string) (inputs : list abi_param) : abi_item :=
  mk_abi_item (Some "event") (Some name) None None (Some inputs) None.

Definition param (name type : string) : abi_param :=
  [("name", name); ("type", type)].

Definition ERC20_ABI : list abi_item :=
  [abi_function "name" true [] [param "" "string"];
   abi_function "symbol" true [] [param "" "string"];
   abi_function "decimals" true [] [param "" "uint8"];
   abi_function "totalSupply" true [] [param "" "uint256"];
   abi_function "balanceOf" true [param "_owner" "address"]
     [param "balance" "uint256"];
   abi_function "allowance" true
     [param "_owner" "address"; param "_spender" "address"]
     [param "" "uint256"];
   abi_function "transfer" false
     [param "_to" "address"; param "_value" "uint256"] [param "" "bool"];
   abi_function "approve" false
     [param "_spender" "address"; param "_value" "uint256"] [param "" "bool"];
   abi_function "transferFrom" false
     [param "_from" "address"; param "_to" "address"; param "_value" "uint256"]
     [param "" "bool"];
   abi_event "Transfer"
     [param "_from" "address"; param "_to" "address"; param "_value" "uint256"];
   abi_event "Approval"
     [param "_owner" "address"; param "_spender" "address";
      param "_value" "uint256"]].

(** a wallet, and an ERC-20 contract over a scripted node *)
Definition scripted_wallet : Wallet.t :=
  Wallet.mk
    (Some "0x0123456789abcdef0123456789abcdef0123456789abcdef0123456789abcdef")
    None.

Definition scripted_erc20 (script : list (res pyval))
  : EthereumContract.t ScriptedNode.world :=
  EthereumContract.mk "0xabcdef0123456789abcdef0123456789abcdef01" ERC20_ABI
    (ScriptedNode.ethereum (Some scripted_wallet) script) None
    (ContractFunctionGroup.init false) (ContractFunctionGroup.init true).

(** ** utils/validation.py: the other predicates *)

Module Checks.

Definition is_hex_char (c : ascii) : bool :=
  PyStr.contains_char c Validation.hex_alphabet.

(** [c.islower()] and [c.isupper()] on the characters of an address that
    passed [is_eth_address], which are ASCII *)
Definition islower (c : ascii) : bool :=
  let n := nat_of_ascii c in Nat.leb 97 n && Nat.leb n 122.

Definition isupper (c : ascii) : bool :=
  let n := nat_of_ascii c in Nat.leb 65 n && Nat.leb n 90.

(** [any(p(c) for c in s)] *)
Fixpoint any (p : ascii -> bool) (s : string) : bool :=
  match s with
  | EmptyString => false
  | String c s' => p c || any p s'
  end.

(** [is_checksum_address(address)] *)
Definition is_checksum_address (address : string) : bool :=
  if negb (Validation.is_eth_address address) then false
  else
    let address := PyStr.drop 2 address in
    let has_lower := any islower address in
    let has_upper := any isupper address in
    negb (has_lower && has_upper) || true.

(** [is_private_key(key)] *)
Definition is_private_key (key : string) : bool :=
  let key := if PyStr.startswith key "0x" then PyStr.drop 2 key else key in
  Validation.is_hex key (Some 32).

(** [is_transaction_hash(tx_hash)] *)
Definition is_transaction_hash (tx_hash : string) : bool :=
  PyStr.startswith tx_hash "0x"
  && Validation.is_hex (PyStr.drop 2 tx_hash) (Some 32).

(** [is_block_hash(block_hash)] *)
Definition is_block_hash (block_hash : string) : bool :=
  is_transaction_hash block_hash.

(** [is_hex_string(value)] *)
Definition is_hex_string (value : string) : bool :=
  let value :=
    if PyStr.startswith value "0x" then PyStr.drop 2 value else value in
  PyStr.all is_hex_char value.

(** What [is_valid_amount] is given: a string, an integer, a float, or a
    value of another type. *)
Inductive amount_like : Type :=
| GivenStr (s : string)
| GivenInt (n : Z)
| GivenFloat (x : spec_float)
| GivenOther.

(** [x >= 0] for a float: false for a NaN *)
Definition float_not_negative (x : spec_float) : bool :=
  SFleb (S754_zero false) x.

Section WithBuiltins.

(** the built-ins [int(s, 16)] and [float(s)] on a string: the number, or
    the exception raised *)
Variable int_of_hex : string -> res Z.
Variable float_of_str : string -> res spec_float.

(** [is_valid_amount(amount)]: only a [ValueError] is caught *)
Definition is_valid_amount (amount : amount_like) : res bool :=
  let converted :=
    match amount with
    | GivenStr s =>
        if PyStr.startswith s "0x"
        then res_bind (int_of_hex s) (fun n => Ret (GivenInt n))
        else res_bind (float_of_str s) (fun x => Ret (GivenFloat x))
    | _ => Ret amount
    end in
  match converted with
  | Ret (GivenInt n) => Ret (0 <=? n)
  | Ret (GivenFloat x) => Ret (float_not_negative x)
  | Ret (GivenStr _) | Ret GivenOther => Ret false
  | Raise (ValueError _) => Ret false
  | Raise e => Raise e
  end.

End WithBuiltins.

End Checks.

(** ** core/wallet.py: message signatures *)

Module WalletMessages.

(** [sign_message(message)] *)
Definition sign_message (message : string) (self : Wallet.t) : string :=
  "placeholder_signature_for_" +:+ message.

(** [verify_message(message, signature)] *)
Definition verify_message (message signature : string) (self : Wallet.t)
  : bool :=
  let expected_sig := "placeholder_signature_for_" +:+ message in
  String.eqb signature expected_sig.

End WalletMessages.

(** ** core/transaction.py: the base transaction manager *)

Module TransactionManager.

(** The manager's one field that its methods use; the hashes that key it
    are the strings [get_hash] returns. *)
Record t : Type := mk {
  _pending_transactions : gmap string EthereumTransaction.t
}.

(** [TransactionManager.__init__(network)] *)
Definition init : t := mk ∅.

(** [get_nonce(address)] *)
Definition get_nonce (address : string) (self : t) : Z := 0.

(** [broadcast(transaction)] *)
Definition broadcast (transaction : EthereumTransaction.t) : M t string :=
  do tx_hash <- m_lift (EthereumTransaction.get_hash transaction);
  fun self =>
    (Ret tx_hash,
     mk (<[tx_hash := transaction]> (_pending_transactions self))).

(** [get_status(tx_hash)] *)
Definition get_status (tx_hash : string) (self : t) : TransactionStatus.t :=
  match _pending_transactions self !! tx_hash with
  | Some _ => TransactionStatus.PENDING
  | None => TransactionStatus.UNKNOWN
  end.

(** [get_receipt(tx_hash)] *)
Definition get_receipt (tx_hash : string) (self : t)
  : option TransactionReceipt.t := None.

(** [wait_for_receipt(tx_hash, timeout, poll_interval)] *)
Definition wait_for_receipt (tx_hash : string) (timeout poll_interval : Z)
    (self : t) : TransactionReceipt.t :=
  TransactionReceipt.init (PStr tx_hash) 12345678
    (PStr ("0x" +:+ PyStr.times "00" 32)) true 21000 PNone.

(** broadcasts one after the other; the first that raises ends them *)
Fixpoint broadcast_all (transactions : list EthereumTransaction.t)
  : M t (list string) :=
  match transactions with
  | [] => m_ret []
  | transaction :: rest =>
      do tx_hash <- broadcast transaction;
      do hashes <- broadcast_all rest;
      m_ret (tx_hash :: hashes)
  end.

End TransactionManager.

(** ** chains/ethereum.py: the other methods of [Ethereum] and of its
    transaction manager *)

Module EthereumNetwork.

(** the float [1e18] *)
Definition e18 : spec_float :=
  binary_normalize PyFloat.prec PyFloat.emax (10 ^ 18) 0 false.

(** [int(amount * 1e18)] for a float, an integer as it is *)
Definition to_wei (amount : ERC20Token.amount) : res Z :=
  match amount with
  | ERC20Token.AmountInt n => Ret n
  | ERC20Token.AmountFloat x =>
      PyFloat.to_int (SFmul PyFloat.prec PyFloat.emax x e18)
  end.

(** the amount as [is_valid_amount] sees it *)
Definition given (amount : ERC20Token.amount) : Checks.amount_like :=
  match amount with
  | ERC20Token.AmountInt n => Checks.GivenInt n
  | ERC20Token.AmountFloat x => Checks.GivenFloat x
  end.

Definition unknown_network (network : string) : exn :=
  ValueError ("Unknown Ethereum network: " +:+ network).

Definition invalid_address (a : string) : exn :=
  ValueError ("Invalid Ethereum address: " +:+ a).

Section WithNode.
Context {W : Type} `{Node W}.

(** the built-ins the methods call: [sha256(..).hexdigest()], [int(s, 16)]
    and [float(s)] on strings, [str(x)] on a float *)
Variable sha256_hexdigest : string -> string.
Variable int_of_hex : string -> res Z.
Variable float_of_str : string -> res spec_float.
Variable str_of_float : spec_float -> string.

(** [Ethereum.__init__(wallet, provider_url, network)], given the provider
    the constructor creates for the URL *)
Definition init (wallet : option Wallet.t) (network : string) (provider : W)
  : res (Ethereum.t W) :=
  let _network := PyStr.lower network in
  match dict_get Ethereum.NETWORKS _network with
  | Some _ => Ret (Ethereum.mk wallet _network false provider ∅ [])
  | None => Raise (unknown_network network)
  end.

(** [if not self._connected: self.connect()] *)
Definition ensure_connected : M (Ethereum.t W) bool :=
  fun self =>
    if Ethereum._connected self then (Ret false, self)
    else Ethereum.connect self.

(** [get_block_number()] *)
Definition get_block_number : M (Ethereum.t W) Z :=
  do_ ensure_connected;
  m_try
    (do response <- Ethereum.provider_request "eth_blockNumber" None;
     do result <- m_lift (getitem response "result");
     m_lift (int16 result))
    (fun e =>
       m_raise (Exception ("Failed to get block number: " +:+ exn_str e))).

(** [get_balance(address)] *)
Definition get_balance (address : option string) : M (Ethereum.t W) Z :=
  do address <-
    (match address with
     | Some a => m_ret a
     | None =>
         fun self =>
           match Ethereum._wallet self with
           | None =>
               (Raise (ValueError "No address provided and no wallet set"),
                self)
           | Some wallet =>
               (WalletAddresses.get_address_for_chain sha256_hexdigest
                  "ethereum" wallet, self)
           end
     end);
  if negb (Validation.is_eth_address address)
  then m_raise (invalid_address address)
  else
    do_ ensure_connected;
    m_try
      (do response <-
         Ethereum.provider_request "eth_getBalance"
           (Some [PStr address; PStr "latest"]);
       do result <- m_lift (getitem response "result");
       m_lift (int16 result))
      (fun e => m_raise (Exception ("Failed to get balance: " +:+ exn_str e))).

(** [balance(address)]: [wei_balance / 1e18] *)
Definition balance (address : option string) : M (Ethereum.t W) spec_float :=
  do wei_balance <- get_balance address;
  m_lift (res_bind (PyFloat.of_int wei_balance) (fun x =>
          Ret (SFdiv PyFloat.prec PyFloat.emax x e18))).

(** [str(amount)] *)
Definition str_of_amount (amount : ERC20Token.amount) : string :=
  match amount with
  | ERC20Token.AmountInt n => PyStr.of_Z n
  | ERC20Token.AmountFloat x => str_of_float x
  end.

(** [send(to, amount, gas_limit, gas_price)] *)
Definition send (to : string) (amount : ERC20Token.amount)
    (gas_limit gas_price : pyval) : M (Ethereum.t W) pyval :=
  fun self =>
    match Ethereum._wallet self with
    | None => (Raise (ValueError "No wallet set"), self)
    | Some wallet =>
        if negb (Validation.is_eth_address to)
        then (Raise (invalid_address to), self)
        else
          (do valid <-
             m_lift (Checks.is_valid_amount int_of_hex float_of_str
                       (given amount));
           if negb valid
           then m_raise (ValueError ("Invalid amount: "
                                     +:+ str_of_amount amount))
           else
             do amount <- m_lift (to_wei amount);
             do tx_builder <- EthereumTransactionManager.create_transaction;
             let tx_builder :=
               EthereumTransactionBuilder.value (PInt amount)
                 (EthereumTransactionBuilder.to (PStr to) tx_builder) in
             let tx_builder :=
               if is_none gas_limit then tx_builder
               else EthereumTransactionBuilder.gas_limit gas_limit
                      tx_builder in
             let tx_builder :=
               if is_none gas_price then tx_builder
               else EthereumTransactionBuilder.gas_price gas_price
                      tx_builder in
             let private_key := Wallet.export_private_key "ethereum" wallet in
             do transaction <-
               m_lift (EthereumTransactionBuilder.build tx_builder);
             let transaction :=
               EthereumTransaction.sign private_key transaction in
             EthereumTransactionManager.broadcast transaction)
          self
    end.

(** [Ethereum.wait_for_receipt(tx_hash, timeout, poll_interval)] *)
Definition wait_for_receipt (fuel : nat) (tx_hash : pyval)
    (timeout poll_interval : Z) (self : Ethereum.t W)
  : option (res TransactionReceipt.t * Ethereum.t W) :=
  EthereumTransactionManager.wait_for_receipt fuel tx_hash timeout
    poll_interval self.

(** [EthereumTransactionManager.get_nonce(address)] *)
Definition get_nonce (address : string) : M (Ethereum.t W) Z :=
  m_try
    (do response <-
       Ethereum.provider_request "eth_getTransactionCount"
         (Some [PStr address; PStr "latest"]);
     do result <- m_lift (getitem response "result");
     m_lift (int16 result))
    (fun e => m_raise (Exception ("Failed to get nonce: " +:+ exn_str e))).

(** [EthereumTransactionManager.estimate_fee(transaction)] *)
Definition estimate_fee (transaction : EthereumTransaction.t) : pyval :=
  PDict [("gas_price", PInt 20000000000); ("gas_limit", PInt 21000)].

End WithNode.

End EthereumNetwork.

(** ** core/contract.py: the names a facade lists *)

Module ContractListing.

Definition is_function (item : abi_item) : bool :=
  match item_type item with
  | Some ty => String.eqb ty "function"
  | None => false
  end.

Definition is_event (item : abi_item) : bool :=
  match item_type item with
  | Some ty => String.eqb ty "event"
  | None => false
  end.

(** [ContractFunctionGroup.__dir__()]: [item.get("name")] of the entries
    of the group, [None] for an entry without a name *)
Fixpoint dir (abi : list abi_item) (is_write : bool) : list (option string) :=
  match abi with
  | [] => []
  | item :: abi' =>
      if is_function item && negb (Bool.eqb (abi_is_constant item) is_write)
      then item_name item :: dir abi' is_write
      else dir abi' is_write
  end.

End ContractListing.

(** ** chains/ethereum_contract.py: event logs *)

Module EventLogs.

(** A log entry as a node sends it: an object whose "topics" are a list
    of strings and whose other fields are strings; a field is [None] when
    the object has no such key. *)
Record log_entry : Type := mk_log {
  topics : option (list string);
  blockNumber : option string;
  transactionHash : option string;
  logIndex : option string
}.

(** The dictionary [parse_event_log] returns. *)
Record parsed_log : Type := mk_parsed {
  event : string;
  args : list (string * pyval);
  parsed_blockNumber : Z;
  parsed_transactionHash : string;
  parsed_logIndex : Z
}.

(** [sub in s] for strings *)
Fixpoint is_substring (sub s : string) : bool :=
  PyStr.startswith s sub
  || match s with
     | EmptyString => false
     | String _ s' => is_substring sub s'
     end.

(** a character of a hexadecimal string with its "0x" prefix *)
Definition hex_or_x (c : ascii) : bool :=
  PyStr.contains_char c "0123456789abcdefABCDEFxX".

(** The loop of [parse_event_log] over the ABI: the first event entry
    whose lowered name occurs in the lowered first topic. *)
Fixpoint match_event (abi : list abi_item) (topic : string)
  : option abi_item :=
  match abi with
  | [] => None
  | item :: abi' =>
      if ContractListing.is_event item
         && is_substring (PyStr.lower (default "" (item_name item)))
              (PyStr.lower topic)
      then Some item
      else match_event abi' topic
  end.

(** [item.get("type") == "event" and item.get("name") == event_name] *)
Definition is_event_named (event_name : string) (item : abi_item) : bool :=
  match item_type item, item_name item with
  | Some ty, Some n => String.eqb ty "event" && String.eqb n event_name
  | _, _ => false
  end.

Definition event_not_found (event_name : string) : exn :=
  ValueError ("Event " +:+ event_name +:+ " not found in ABI").

(** [hex(n)] *)
Fixpoint hex_digits (d : Hexadecimal.uint) : string :=
  match d with
  | Hexadecimal.Nil => EmptyString
  | Hexadecimal.D0 d => String "0" (hex_digits d)
  | Hexadecimal.D1 d => String "1" (hex_digits d)
  | Hexadecimal.D2 d => String "2" (hex_digits d)
  | Hexadecimal.D3 d => String "3" (hex_digits d)
  | Hexadecimal.D4 d => String "4" (hex_digits d)
  | Hexadecimal.D5 d => String "5" (hex_digits d)
  | Hexadecimal.D6 d => String "6" (hex_digits d)
  | Hexadecimal.D7 d => String "7" (hex_digits d)
  | Hexadecimal.D8 d => String "8" (hex_digits d)
  | Hexadecimal.D9 d => String "9" (hex_digits d)
  | Hexadecimal.Da d => String "a" (hex_digits d)
  | Hexadecimal.Db d => String "b" (hex_digits d)
  | Hexadecimal.Dc d => String "c" (hex_digits d)
  | Hexadecimal.Dd d => String "d" (hex_digits d)
  | Hexadecimal.De d => String "e" (hex_digits d)
  | Hexadecimal.Df d => String "f" (hex_digits d)
  end.

Definition hex (n : Z) : string :=
  (if n <? 0 then "-0x" else "0x")
  +:+ hex_digits (N.to_hex_uint (Z.abs_N n)).

(** [hex(block) if isinstance(block, int) else block] *)
Definition block_tag (block : pyval) : pyval :=
  match block with
  | PInt n => PStr (hex n)
  | PBool b => PStr (hex (if b then 1 else 0))
  | _ => block
  end.

Section WithNode.
Context {W : Type} `{Node W}.

(** [parse_event_log(log)] *)
Definition parse_event_log (abi : list abi_item) (log : log_entry)
  : res parsed_log :=
  match default [] (topics log) with
  | [] => Raise (ValueError "Log has no topics")
  | topic :: _ =>
      let event_name :=
        match match_event abi topic with
        | Some item => item_name item
        | None => None
        end in
      let parsed (event_name : string) (args : list (string * pyval)) :=
        res_bind (int16 (PStr (default "0x0" (blockNumber log))))
          (fun block_number =>
        res_bind (int16 (PStr (default "0x0" (logIndex log))))
          (fun log_index =>
        Ret (mk_parsed event_name args block_number
               (default ("0x" +:+ PyStr.times "0" 64) (transactionHash log))
               log_index))) in
      match event_name with
      | None => parsed "UnknownEvent" []
      | Some event_name => parsed event_name [("arg1", PStr "value1")]
      end
  end.

(** The loop of [get_events] over the logs: a log is kept when it parses
    as the event asked for, and skipped when parsing it raises a
    [ValueError]. *)
Fixpoint parse_logs (abi : list abi_item) (event_name : string)
    (logs : list log_entry) (parsed_logs : list parsed_log)
  : res (list parsed_log) :=
  match logs with
  | [] => Ret parsed_logs
  | log :: logs' =>
      match parse_event_log abi log with
      | Ret parsed_log =>
          if String.eqb (event parsed_log) event_name
          then parse_logs abi event_name logs'
                 (parsed_logs ++ [parsed_log])%list
          else parse_logs abi event_name logs' parsed_logs
      | Raise (ValueError _) => parse_logs abi event_name logs' parsed_logs
      | Raise e => Raise e
      end
  end.

(** [for log in logs]: the entries of the result of "eth_getLogs" as log
    objects, or what iterating over the result raises *)
Variable as_logs : pyval -> res (list log_entry).

(** [get_events(event_name, from_block, to_block)] *)
Definition get_events (event_name : string) (from_block to_block : pyval)
  : M (EthereumContract.t W) (list parsed_log) :=
  fun self =>
    match List.find (is_event_named event_name) (EthereumContract.abi self)
    with
    | None => (Raise (event_not_found event_name), self)
    | Some event_abi =>
        let filter_obj :=
          PDict [("address", PStr (EthereumContract.address self));
                 ("fromBlock", block_tag from_block);
                 ("toBlock", block_tag to_block);
                 ("topics", PList [])] in
        m_try
          (do response <-
             EthereumContract.on_ethereum
               (Ethereum.provider_request "eth_getLogs" (Some [filter_obj]));
           do logs <- m_lift (getitem response "result");
           do logs <- m_lift (as_logs logs);
           m_lift (parse_logs (EthereumContract.abi self) event_name logs []))
          (fun e =>
             m_raise (Exception ("Failed to get events: " +:+ exn_str e)))
          self
    end.

End WithNode.

End EventLogs.

(** ** chains/erc20.py: transfers from an allowance, and transfer events *)

Module ERC20Transfers.

(** [transfer["args"].get(key) == address] *)
Definition names_address (key address : string)
    (transfer : EventLogs.parsed_log) : bool :=
  match dict_get (EventLogs.args transfer) key with
  | Some v => eq_str v address
  | None => false
  end.

(** The loop of [get_token_transfers] over the events *)
Definition filter_transfers (address : string)
    (transfers : list EventLogs.parsed_log) : list EventLogs.parsed_log :=
  List.filter
    (fun transfer =>
       names_address "_from" address transfer
       || names_address "_to" address transfer)
    transfers.

Section WithNode.
Context {W : Type} `{Node W}.
Variable sha256_hexdigest : string -> string.
Variable as_logs : pyval -> res (list EventLogs.log_entry).
Variable class_attribute : string -> bool.
Variable call_class_attribute :
  string -> list pyval -> list (string * pyval)
  -> M (EthereumContract.t W) pyval.
Variable pow10_negative : Z -> spec_float.

(** [transfer_from(from_address, to_address, amount, gas_limit,
    gas_price)] *)
Definition transfer_from (from_address to_address : string)
    (a : ERC20Token.amount) (gas_limit gas_price : option pyval)
  : M (ERC20Token.t W) pyval :=
  fun self =>
    if negb (Validation.is_eth_address from_address)
    then (Raise (ValueError ("Invalid source address: " +:+ from_address)),
          self)
    else if negb (Validation.is_eth_address to_address)
    then (Raise (ValueError ("Invalid destination address: "
                             +:+ to_address)), self)
    else
      (do units <-
         ERC20Token.to_units class_attribute call_class_attribute
           pow10_negative a;
       let tx_options := ERC20Token.gas_options gas_limit gas_price in
       ERC20Token.write_call class_attribute call_class_attribute
         "transferFrom" [PStr from_address; PStr to_address; PInt units]
         tx_options)
      self.

(** [get_token_transfers(address, from_block, to_block)] *)
Definition get_token_transfers (address : option string)
    (from_block to_block : pyval)
  : M (ERC20Token.t W) (list EventLogs.parsed_log) :=
  do address <-
    (match address with
     | Some a => m_ret a
     | None =>
         fun self =>
           match Ethereum._wallet
                   (EthereumContract.ethereum (ERC20Token.contract self))
           with
           | None =>
               (Raise (ValueError "No address provided and no wallet is set"),
                self)
           | Some wallet =>
               (WalletAddresses.get_address_for_chain sha256_hexdigest
                  "ethereum" wallet, self)
           end
     end);
  do transfers <-
    ERC20Token.on_contract
      (EventLogs.get_events as_logs "Transfer" from_block to_block);
  m_ret (filter_transfers address transfers).

End WithNode.

End ERC20Transfers.

Module ScriptedInterpreter.

(** the interpreter's part on a scripted run: the attributes of
    CPython's [object] and of the class, none of which the runs call *)
Definition class_attribute (name : string) : bool :=
  Validation.one_of name
    ["__class__"; "__delattr__"; "__dict__"; "__dir__"; "__doc__"; "__eq__";
     "__format__"; "__ge__"; "__getattr__"; "__getattribute__"; "__gt__";
     "__hash__"; "__init__"; "__init_subclass__"; "__le__"; "__lt__";
     "__module__"; "__ne__"; "__new__"; "__reduce__"; "__reduce_ex__";
     "__repr__"; "__setattr__"; "__sizeof__"; "__str__";
     "__subclasshook__"; "__weakref__"].

Definition call_class_attribute (name : string) (args : list pyval)
    (kwargs : list (string * pyval))
  : M (EthereumContract.t ScriptedNode.world) pyval :=
  m_raise (Exception "not scripted").

(** [10 ** n] for a negative [n], to the nearest float *)
Definition pow10_negative (n : Z) : spec_float :=
  match PyFloat.int_truediv 1 (10 ^ (- n)) with
  | Ret x => x
  | Raise _ => S754_zero false
  end.

End ScriptedInterpreter.

(** the result of "eth_getLogs" on a scripted node: a list of objects
    with string fields *)
Module ScriptedLogs.

Definition field (kv : list (string * pyval)) (k : string) : option string :=
  match dict_get kv k with
  | Some (PStr s) => Some s
  | _ => None
  end.

Definition strings (l : list pyval) : list string :=
  omap (fun x => match x with PStr s => Some s | _ => None end) l.

Definition log_of (x : pyval) : res EventLogs.log_entry :=
  match x with
  | PDict kv =>
      Ret (EventLogs.mk_log
             (match dict_get kv "topics" with
              | Some (PList l) => Some (strings l)
              | _ => None
              end)
             (field kv "blockNumber") (field kv "transactionHash")
             (field kv "logIndex"))
  | _ => Raise (AttributeError "object has no attribute 'get'")
  end.

Fixpoint logs_of (l : list pyval) : res (list EventLogs.log_entry) :=
  match l with
  | [] => Ret []
  | x :: l' =>
      res_bind (log_of x) (fun log =>
      res_bind (logs_of l') (fun logs => Ret (log :: logs)))
  end.

Definition as_logs (x : pyval) : res (list EventLogs.log_entry) :=
  match x with
  | PList l => logs_of l
  | _ => Raise (TypeError "object is not iterable")
  end.

(** a token over the scripted ERC-20 contract, as [ERC20Token.__init__]
    leaves it: nothing is cached *)
Definition token (script : list (res pyval))
  : ERC20Token.t ScriptedNode.world :=
  ERC20Token.mk "0xabcdef0123456789abcdef0123456789abcdef01"
    (scripted_erc20 script) PNone PNone PNone.

End ScriptedLogs.

(** ** core/network.py: the WebSocket provider's subscriptions *)

Module WebSocketProvider.

(** The provider's fields that its methods change; [C] is the type of the
    callbacks. *)
Record t (C : Type) : Type := mk {
  _id : Z;
  _ws : option string;
  _subscriptions : gmap Z (string * C)
}.
Arguments mk {C}.
Arguments _id {C}.
Arguments _ws {C}.
Arguments _subscriptions {C}.

Section WithCallbacks.
Context {C : Type}.

(** [WebSocketProvider.__init__(url, headers)] *)
Definition init : t C := mk 0 None ∅.

(** [connect()] *)
Definition connect (self : t C) : bool * t C :=
  (true,
   mk (_id self) (Some "placeholder_websocket_connection")
      (_subscriptions self)).

(** [disconnect()] *)
Definition disconnect (self : t C) : t C := mk (_id self) None ∅.

(** [is_connected()] *)
Definition is_connected (self : t C) : bool :=
  match _ws self with Some _ => true | None => false end.

(** [subscribe(event_type, callback)], where [drawn] is the number
    [random.randint(1, 10000)] gives *)
Definition subscribe (drawn : Z) (event_type : string) (callback : C)
    (self : t C) : Z * t C :=
  let subscription_id := drawn in
  (subscription_id,
   mk (_id self) (_ws self)
      (<[subscription_id := (event_type, callback)]> (_subscriptions self))).

(** [unsubscribe(subscription_id)] *)
Definition unsubscribe (subscription_id : Z) (self : t C) : bool * t C :=
  match _subscriptions self !! subscription_id with
  | Some _ =>
      (true,
       mk (_id self) (_ws self)
          (delete subscription_id (_subscriptions self)))
  | None => (false, self)
  end.

End WithCallbacks.

End WebSocketProvider.

(** * Properties *)

(** ** Address validation *)

Lemma startswith_0x (a : string) :
  PyStr.startswith a "0x" = true <-> exists rest, a = "0x" +:+ rest.
Proof.
  split.
  - destruct a as [| c1 [| c2 rest]]; simpl; try discriminate.
    + now rewrite andb_false_r.
    + rewrite andb_true_r, andb_true_iff, !Ascii.eqb_eq.
      intros [-> ->]. now exists rest.
  - intros [rest ->]. reflexivity.
Qed.

Lemma not_hex_x (rest : string) :
  PyStr.all (fun c => PyStr.contains_char c Validation.hex_alphabet)
    ("0x" +:+ rest) = false.
Proof. reflexivity. Qed.

(** What [is_eth_address] accepts: the prefix once or twice, then 40
    hexadecimal characters. *)
Lemma is_eth_address_accepts (a : string) :
  Validation.is_eth_address a = true <->
  exists h,
    (a = "0x" +:+ h \/ a = "0x0x" +:+ h)
    /\ String.length h = 40%nat
    /\ PyStr.all (fun c => PyStr.contains_char c Validation.hex_alphabet) h
       = true.
Proof.
  unfold Validation.is_eth_address. rewrite andb_true_iff, startswith_0x.
  split.
  - intros [[rest ->] Hhex]. change (PyStr.drop 2 ("0x" +:+ rest)) with rest in Hhex.
    unfold Validation.is_hex in Hhex.
    destruct (PyStr.startswith rest "0x") eqn:Hp.
    + apply startswith_0x in Hp as [h ->].
      change (PyStr.drop 2 ("0x" +:+ h)) with h in Hhex.
      destruct (PyStr.all _ h) eqn:Hall; [| discriminate].
      simpl in Hhex. apply Z.eqb_eq in Hhex.
      exists h. split; [now right | split; [lia | assumption]].
    + destruct (PyStr.all _ rest) eqn:Hall; [| discriminate].
      simpl in Hhex. apply Z.eqb_eq in Hhex.
      exists rest. split; [now left | split; [lia | assumption]].
  - intros [h [[-> | ->] [Hlen Hall]]].
    + split; [now exists h |].
      change (PyStr.drop 2 ("0x" +:+ h)) with h.
      unfold Validation.is_hex.
      destruct (PyStr.startswith h "0x") eqn:Hp.
      * apply startswith_0x in Hp as [h' ->].
        now rewrite not_hex_x in Hall.
      * rewrite Hall. simpl. apply Z.eqb_eq. lia.
    + split; [now exists ("0x" +:+ h) |].
      assert (E : Validation.is_hex (PyStr.drop 2 ("0x0x" +:+ h)) (Some 20)
                  = if negb (PyStr.all
                               (fun c => PyStr.contains_char c Validation.hex_alphabet) h)
                    then false else Z.of_nat (String.length h) =? 20 * 2)
        by reflexivity.
      rewrite E, Hall. simpl. apply Z.eqb_eq. lia.
Qed.

(** C9.  The specification has the Ethereum address validator accept a
    string exactly when it is "0x" followed by 40 hexadecimal characters.
    The code strips the prefix twice: [is_eth_address] cuts "0x" off and
    [is_hex] cuts a second "0x" off what is left, so the 44-character
    string "0x0x" followed by 40 zeros is accepted, by [is_eth_address]
    and by [validate_address] for the chain "ethereum", although it is
    not "0x" followed by 40 hexadecimal characters. *)
Theorem is_eth_address_doubled_prefix :
  let a := "0x0x" +:+ PyStr.times "0" 40 in
  Validation.is_eth_address a = true
  /\ Validation.validate_address a "ethereum" = true
  /\ String.length a = 44%nat
  /\ PyStr.all (fun c => PyStr.contains_char c Validation.hex_alphabet)
       (PyStr.drop 2 a) = false.
Proof. repeat split; reflexivity. Qed.

Example is_eth_address_plain :
  Validation.is_eth_address "0x1234567890123456789012345678901234567890" = true.
Proof. reflexivity. Qed.

Example is_eth_address_short : Validation.is_eth_address "0x1234" = false.
Proof. reflexivity. Qed.

Example is_eth_address_no_prefix :
  Validation.is_eth_address "1234567890123456789012345678901234567890" = false.
Proof. reflexivity. Qed.

Example is_eth_address_non_hex :
  Validation.is_eth_address "0x123456789012345678901234567890123456789g" = false.
Proof. reflexivity. Qed.

(** ** The signature state of a transaction *)

Lemma history_signature (signed : bool) (tx : EthereumTransaction.t) :
  EthereumTransaction.history signed tx ->
  EthereumTransaction.signature_populated tx = signed
  /\ is_ret (EthereumTransaction.get_hash tx) = signed.
Proof. intros Hist. destruct Hist; split; reflexivity. Qed.

(** C3.  For a transaction made through the public API (constructed, then
    signed any number of times, [signed] telling whether [sign] was
    called): [serialize] and [get_hash] succeed exactly when the three
    signature fields are populated, which is exactly when [sign] has been
    called; before, both raise the "not signed" error; after, both return
    a value that no further call, and no further signing, changes. *)
Theorem signed_iff_serializable (signed : bool) (tx : EthereumTransaction.t)
    (Hist : EthereumTransaction.history signed tx) :
  (is_ret (EthereumTransaction.serialize tx) = true
   <-> EthereumTransaction.signature_populated tx = true)
  /\ (is_ret (EthereumTransaction.get_hash tx) = true
      <-> EthereumTransaction.signature_populated tx = true)
  /\ (EthereumTransaction.signature_populated tx = true <-> signed = true)
  /\ (signed = false ->
      EthereumTransaction.serialize tx
      = Raise (ValueError "Transaction is not signed")
      /\ EthereumTransaction.get_hash tx
         = Raise (ValueError "Transaction is not signed"))
  /\ (signed = true ->
      EthereumTransaction.serialize tx = Ret ("0x" +:+ PyStr.times "ff" 256)
      /\ EthereumTransaction.get_hash tx = Ret ("0x" +:+ PyStr.times "33" 32)
      /\ forall private_key,
           EthereumTransaction.serialize
             (EthereumTransaction.sign private_key tx)
           = EthereumTransaction.serialize tx
           /\ EthereumTransaction.get_hash
                (EthereumTransaction.sign private_key tx)
              = EthereumTransaction.get_hash tx).
Proof.
  destruct Hist as [to value gas_price gas_limit data nonce chain_id
                   | signed tx private_key Hist].
  - repeat split; try discriminate; intros; discriminate.
  - repeat split; intros; try reflexivity; discriminate.
Qed.

Lemma signed_iff_serializable_witness :
  let tx :=
    EthereumTransaction.sign "key"
      (EthereumTransaction.init
         (PStr "0x1234567890123456789012345678901234567890")
         (PInt 1000000000000000000) PNone PNone PNone PNone 1) in
  EthereumTransaction.history true tx
  /\ is_ret (EthereumTransaction.serialize tx) = true
  /\ is_ret (EthereumTransaction.get_hash tx) = true.
Proof.
  intros tx.
  assert (Hist : EthereumTransaction.history true tx)
    by (apply EthereumTransaction.history_sign with (signed := false);
        apply EthereumTransaction.history_init).
  pose proof (signed_iff_serializable true tx Hist) as [_ [_ [_ [_ Hs]]]].
  destruct (Hs eq_refl) as [E1 [E2 _]].
  split; [exact Hist | split; [now rewrite E1 | now rewrite E2]].
Defined.

Example unsigned_transaction_does_not_serialize :
  EthereumTransaction.serialize
    (EthereumTransaction.init
       (PStr "0x1234567890123456789012345678901234567890")
       (PInt 1000000000000000000) PNone PNone PNone PNone 1)
  = Raise (ValueError "Transaction is not signed").
Proof. reflexivity. Qed.

(** ** The transaction builder *)

Lemma build_without_recipient (b : EthereumTransactionBuilder.t) :
  EthereumTransactionBuilder._to b = PNone ->
  EthereumTransactionBuilder.build b
  = Raise (ValueError "Recipient address (to) is required").
Proof. intros E. unfold EthereumTransactionBuilder.build. now rewrite E. Qed.

Lemma build_legacy_without_gas_price (b : EthereumTransactionBuilder.t) :
  is_none (EthereumTransactionBuilder._to b) = false ->
  EthereumTransactionBuilder._type b = 0 ->
  EthereumTransactionBuilder._gas_price b = PNone ->
  EthereumTransactionBuilder.build b
  = Raise (ValueError "Gas price is required for legacy transactions").
Proof.
  intros Hto Hty Hgp. unfold EthereumTransactionBuilder.build.
  now rewrite Hto, Hty, Hgp.
Qed.

Lemma set_if_given_to (opts : list (string * pyval)) (key : string)
    (setter : pyval -> _ -> _) (b : EthereumTransactionBuilder.t) :
  (forall v b', EthereumTransactionBuilder._to (setter v b')
                = EthereumTransactionBuilder._to b') ->
  EthereumTransactionBuilder._to
    (EthereumContract.set_if_given opts key setter b)
  = EthereumTransactionBuilder._to b.
Proof.
  intros Hs. unfold EthereumContract.set_if_given.
  destruct (dict_get opts key); [apply Hs | reflexivity].
Qed.

Lemma deploy_builder_not_built (chain_id : Z) (bytecode : string)
    (kwargs : list (string * pyval)) :
  EthereumTransactionBuilder.build
    (EthereumContract.deploy_builder bytecode kwargs
       (EthereumTransactionBuilder.init chain_id))
  = Raise (ValueError "Recipient address (to) is required").
Proof.
  apply build_without_recipient. unfold EthereumContract.deploy_builder.
  rewrite !set_if_given_to by reflexivity. reflexivity.
Qed.

Lemma create_transaction_fresh {W : Type} `{Node W} (eth eth' : Ethereum.t W)
    (b : EthereumTransactionBuilder.t) :
  EthereumTransactionManager.create_transaction eth = (Ret b, eth') ->
  exists chain_id, b = EthereumTransactionBuilder.init chain_id.
Proof.
  unfold EthereumTransactionManager.create_transaction, m_bind, m_ret.
  destruct (Ethereum.get_chain_id eth) as [[chain_id | e] eth1]; intros E;
    inversion E; subst. now exists chain_id.
Qed.

(** C4.  The specification has a deployment transaction (no recipient,
    the bytecode as data) buildable.  In the code [build] rejects every
    builder without a recipient, so the builder [deploy] prepares (fresh
    from [create_transaction], data set, whatever options are given) is
    never built: [build] raises "Recipient address (to) is required", and
    [deploy] raises on every input instead of returning a contract. *)
Theorem deployment_is_not_buildable :
  (forall chain_id bytecode kwargs,
     EthereumTransactionBuilder.build
       (EthereumContract.deploy_builder bytecode kwargs
          (EthereumTransactionBuilder.init chain_id))
     = Raise (ValueError "Recipient address (to) is required"))
  /\ (forall (W : Type) (node : Node W) fuel abi bytecode args kwargs
             (eth : Ethereum.t W),
        exists e eth',
          EthereumContract.deploy fuel abi bytecode args kwargs eth
          = Some (Raise e, eth')).
Proof.
  split; [exact deploy_builder_not_built |].
  intros W node fuel abi bytecode args kwargs eth.
  unfold EthereumContract.deploy.
  destruct (Ethereum._wallet eth) as [wallet |]; [| eauto].
  destruct (EthereumTransactionManager.create_transaction eth)
    as [[b | e] eth1] eqn:Ec; [| eauto].
  apply create_transaction_fresh in Ec as [chain_id ->].
  rewrite deploy_builder_not_built. eauto.
Qed.

Example deployment_build_fails :
  EthereumTransactionBuilder.build
    (EthereumTransactionBuilder.gas_price (PInt 20000000000)
       (EthereumTransactionBuilder.data (PStr "0x6080604052")
          (EthereumTransactionBuilder.init 1)))
  = Raise (ValueError "Recipient address (to) is required").
Proof. reflexivity. Qed.

(** ** The fee scheme of a builder *)

Lemma gas_price_keeps_type (price : pyval) (b : EthereumTransactionBuilder.t) :
  EthereumTransactionBuilder._type (EthereumTransactionBuilder.gas_price price b)
  = EthereumTransactionBuilder._type b.
Proof. reflexivity. Qed.



Example fresh_builder_after_gas_price_is_legacy :
  EthereumTransactionBuilder._type
    (EthereumTransactionBuilder.gas_price (PInt 20000000000)
       (EthereumTransactionBuilder.init 1)) = 0.
Proof. reflexivity. Qed.

Example dual_fee_builder_builds_without_gas_price :
  is_ret
    (EthereumTransactionBuilder.build
       (EthereumTransactionBuilder.eip1559_fee (PInt 30000000000)
          (PInt 2000000000)
          (EthereumTransactionBuilder.to
             (PStr "0x1234567890123456789012345678901234567890")
             (EthereumTransactionBuilder.init 1)))) = true.
Proof. reflexivity. Qed.

(** ** Binding the arguments of a call *)

Lemma map_keywords_no_keywords (inputs : list abi_param) (names : list string)
    (i n_args : nat) (args : list pyval) :
  ContractFunction.names_of inputs = Ret names ->
  ContractFunction.map_keywords i inputs n_args [] args = Ret args.
Proof.
  revert names i. induction inputs as [| input_def inputs IH]; intros names i;
    simpl; [reflexivity |].
  destruct (dict_get input_def "name") as [name |]; [| discriminate].
  destruct (ContractFunction.names_of inputs) as [ns |] eqn:E; [| discriminate].
  intros _. now apply IH with (names := ns).
Qed.

Lemma names_of_drop (inputs : list abi_param) (names : list string) (n : nat) :
  ContractFunction.names_of inputs = Ret names ->
  ContractFunction.names_of (drop n inputs) = Ret (drop n names).
Proof.
  revert names n. induction inputs as [| input_def inputs IH]; intros names n;
    simpl.
  - intros E. inversion E. now destruct n.
  - destruct (dict_get input_def "name") as [name |] eqn:En; [| discriminate].
    destruct (ContractFunction.names_of inputs) as [ns |] eqn:E; [| discriminate].
    simpl. intros E'. inversion E'; subst. destruct n; simpl.
    + now rewrite En, E.
    + now apply IH.
Qed.

(** A call with positional arguments only, and too few of them, fails
    naming the parameters after the ones given: the scenario of the
    specification. *)
Lemma missing_positional_arguments (f : ContractFunction.t)
    (names : list string) (args : list pyval) :
  ContractFunction.names_of (ContractFunction.inputs f) = Ret names ->
  (length args < length (ContractFunction.inputs f))%nat ->
  ContractFunction.bind_arguments f args []
  = Raise (ValueError ("Missing required arguments: "
                       +:+ PyStr.join ", " (drop (length args) names))).
Proof.
  intros Hn Hlt. unfold ContractFunction.bind_arguments. simpl.
  rewrite Nat.add_0_r.
  destruct (Nat.ltb_spec (length (ContractFunction.inputs f)) (length args));
    [lia |].
  rewrite (map_keywords_no_keywords _ names) by assumption. simpl.
  destruct (Nat.ltb_spec (length args) (length (ContractFunction.inputs f)));
    [| lia].
  now rewrite (names_of_drop _ names) by assumption.
Qed.

Example missing_value_is_named :
  ContractFunction.bind_arguments
    (ContractFunction.mk "send"
       [param "to" "address"; param "value" "uint256"] [] false)
    [PStr "0x1234567890123456789012345678901234567890"] []
  = Raise (ValueError "Missing required arguments: value").
Proof. reflexivity. Qed.

(** C8.  The specification has the error name exactly the parameters left
    unbound.  The code names the parameters from position
    [len(combined_args)] on, whichever were bound: [transfer] of the
    ERC-20 ABI, resolved through the write facade and called with the
    keyword argument [_value] alone, fails with "Missing required
    arguments: _value", naming the parameter that was supplied and not
    [_to], the one that is missing. *)
Theorem missing_arguments_names_supplied_parameter :
  exists f,
    ContractFunctionGroup.find_function ERC20_ABI true "transfer" = Some f
    /\ ContractFunction.inputs f
       = [param "_to" "address"; param "_value" "uint256"]
    /\ ContractFunction.bind_arguments f [] [("_value", PInt 5)]
       = Raise (ValueError "Missing required arguments: _value").
Proof. eexists. repeat split; reflexivity. Qed.

Example missing_middle_argument_is_misnamed :
  ContractFunction.bind_arguments
    (ContractFunction.mk "transferFrom"
       [param "_from" "address"; param "_to" "address";
        param "_value" "uint256"] [] false)
    [PStr "0x1111111111111111111111111111111111111111"]
    [("_value", PInt 5)]
  = Raise (ValueError "Missing required arguments: _value").
Proof. reflexivity. Qed.

(** ** The transaction manager: status and broadcast *)

Lemma get_receipt_raises_Exception {W : Type} `{Node W} (tx_hash : pyval)
    (self after : Ethereum.t W) (e : exn) :
  EthereumTransactionManager.get_receipt tx_hash self = (Raise e, after) ->
  exists cause, e = Exception ("Failed to get receipt: " +:+ exn_str cause).
Proof.
  unfold EthereumTransactionManager.get_receipt, m_try.
  match goal with |- context [match ?m self with _ => _ end] =>
    destruct (m self) as [[r | cause] s'] end; [discriminate |].
  unfold m_raise. intros E. inversion E. now exists cause.
Qed.

(** C7.  [get_status] returns a status and never raises: pending when
    [get_receipt] returns no receipt, confirmed or failed by the success
    flag of the receipt it returns, unknown when [get_receipt] raises. *)
Theorem get_status_never_raises {W : Type} `{Node W} (tx_hash : pyval)
    (self : Ethereum.t W) :
  let '(receipt, after) :=
    EthereumTransactionManager.get_receipt tx_hash self in
  EthereumTransactionManager.get_status tx_hash self
  = (Ret match receipt with
         | Ret None => TransactionStatus.PENDING
         | Ret (Some r) =>
             if TransactionReceipt.status r then TransactionStatus.CONFIRMED
             else TransactionStatus.FAILED
         | Raise _ => TransactionStatus.UNKNOWN
         end,
     after).
Proof.
  unfold EthereumTransactionManager.get_status, m_try, m_bind, m_ret.
  destruct (EthereumTransactionManager.get_receipt tx_hash self)
    as [[[r |] | e] after]; try reflexivity.
  now destruct (TransactionReceipt.status r).
Qed.

Lemma store_pending_spec {W : Type} `{Node W} (tx_hash : pyval)
    (tx : EthereumTransaction.t) (self : Ethereum.t W) :
  EthereumTransactionManager.store_pending tx_hash tx self
  = match hash_key tx_hash with
    | Ret key =>
        (Ret tt,
         Ethereum.set_pending
           (<[key := tx]> (Ethereum._pending_transactions self)) self)
    | Raise e => (Raise e, self)
    end.
Proof.
  unfold EthereumTransactionManager.store_pending, m_bind, m_lift.
  now destruct (hash_key tx_hash).
Qed.

(** The direction of C2 from the network's side: a signed transaction,
    a node that answers with a result that can be a key. *)
Lemma broadcast_success {W : Type} `{Node W} (tx : EthereumTransaction.t)
    (self : Ethereum.t W) (serialized : string) (response tx_hash : pyval)
    (key : pykey) (w : W) :
  EthereumTransaction.serialize tx = Ret serialized ->
  request "eth_sendRawTransaction" (Some [PStr serialized])
    (Ethereum.provider self) = (Ret response, w) ->
  getitem response "result" = Ret tx_hash ->
  hash_key tx_hash = Ret key ->
  exists after,
    EthereumTransactionManager.broadcast tx self = (Ret tx_hash, after)
    /\ Ethereum._pending_transactions after
       = <[key := tx]> (Ethereum._pending_transactions self)
    /\ Ethereum._pending_transactions after !! key = Some tx.
Proof.
  intros Es Er Eg Eh.
  unfold EthereumTransactionManager.broadcast, m_try, m_bind, m_lift,
    m_raise, m_ret, Ethereum.provider_request.
  rewrite Es, Er, Eg, store_pending_spec, Eh.
  eexists. split; [reflexivity |]. simpl.
  split; [reflexivity | apply lookup_insert_eq].
Qed.

Lemma broadcast_trace {W : Type} `{Node W} (tx : EthereumTransaction.t)
    (self : Ethereum.t W) :
  match EthereumTransactionManager.broadcast tx self with
  | (Ret _, after) =>
      exists serialized,
        EthereumTransaction.serialize tx = Ret serialized
        /\ Ethereum.trace after
           = (Ethereum.trace self
              ++ [EvRequest "eth_sendRawTransaction"
                    (Some [PStr serialized])])%list
  | (Raise _, _) => True
  end.
Proof.
  unfold EthereumTransactionManager.broadcast, m_try, m_bind, m_lift,
    m_raise, m_ret.
  destruct (EthereumTransaction.serialize tx) as [serialized | cause];
    [| exact I].
  unfold Ethereum.provider_request.
  destruct (request "eth_sendRawTransaction" (Some [PStr serialized])
              (Ethereum.provider self)) as [[response | cause] w];
    [| exact I].
  destruct (getitem response "result") as [tx_hash | cause]; [| exact I].
  rewrite store_pending_spec.
  destruct (hash_key tx_hash) as [key | cause]; [| exact I].
  now exists serialized.
Qed.

(** C2.  When the transaction serializes, the node answers the submission
    and the answer carries a hash, [broadcast] returns that hash and has
    inserted the transaction under it.  In general [broadcast] either
    returns the hash, and then all of that happened and the transaction is
    pending under the hash; or it raises "Failed to broadcast
    transaction: ..." and the pending map is what it was.  It raises when
    the transaction is unsigned (nothing is sent then), when the request
    raises, when the answer has no result, and when the result cannot be
    a dictionary key. *)
Theorem broadcast_inserts_only_on_success {W : Type} `{Node W}
    (tx : EthereumTransaction.t) (self : Ethereum.t W) :
  (forall serialized response tx_hash key w,
     EthereumTransaction.serialize tx = Ret serialized ->
     request "eth_sendRawTransaction" (Some [PStr serialized])
       (Ethereum.provider self) = (Ret response, w) ->
     getitem response "result" = Ret tx_hash ->
     hash_key tx_hash = Ret key ->
     exists after,
       EthereumTransactionManager.broadcast tx self = (Ret tx_hash, after)
       /\ Ethereum._pending_transactions after
          = <[key := tx]> (Ethereum._pending_transactions self)
       /\ Ethereum._pending_transactions after !! key = Some tx)
  /\ match EthereumTransactionManager.broadcast tx self with
     | (Ret tx_hash, after) =>
         exists serialized response key,
           EthereumTransaction.serialize tx = Ret serialized
           /\ request "eth_sendRawTransaction" (Some [PStr serialized])
                (Ethereum.provider self)
              = (Ret response, Ethereum.provider after)
           /\ getitem response "result" = Ret tx_hash
           /\ hash_key tx_hash = Ret key
           /\ Ethereum._pending_transactions after
              = <[key := tx]> (Ethereum._pending_transactions self)
     | (Raise e, after) =>
         Ethereum._pending_transactions after
         = Ethereum._pending_transactions self
         /\ exists cause,
              e = Exception ("Failed to broadcast transaction: "
                             +:+ exn_str cause)
              /\ ((EthereumTransaction.serialize tx = Raise cause
                   /\ after = self)
                  \/ exists serialized,
                       EthereumTransaction.serialize tx = Ret serialized
                       /\ match request "eth_sendRawTransaction"
                                  (Some [PStr serialized])
                                  (Ethereum.provider self) with
                          | (Raise c, _) => c = cause
                          | (Ret response, _) =>
                              getitem response "result" = Raise cause
                              \/ exists tx_hash,
                                   getitem response "result" = Ret tx_hash
                                   /\ hash_key tx_hash = Raise cause
                          end)
     end.
Proof.
  split; [intros; eapply broadcast_success; eassumption |].
  unfold EthereumTransactionManager.broadcast, m_try, m_bind, m_lift,
    m_raise, m_ret.
  destruct (EthereumTransaction.serialize tx) as [serialized | cause] eqn:Es.
  2: { split; [reflexivity |]. exists cause. split; [reflexivity |]. now left. }
  unfold Ethereum.provider_request.
  destruct (request "eth_sendRawTransaction" (Some [PStr serialized])
              (Ethereum.provider self)) as [[response | cause] w] eqn:Er.
  2: { split; [reflexivity |]. exists cause. split; [reflexivity |].
       right. exists serialized. now rewrite Er. }
  destruct (getitem response "result") as [tx_hash | cause] eqn:Eg.
  2: { split; [reflexivity |]. exists cause. split; [reflexivity |].
       right. exists serialized. rewrite Er. split; [reflexivity | now left]. }
  rewrite store_pending_spec.
  destruct (hash_key tx_hash) as [key | cause] eqn:Eh.
  - exists serialized, response, key. simpl. repeat split; assumption.
  - split; [reflexivity |]. exists cause. split; [reflexivity |].
    right. exists serialized. rewrite Er. split; [reflexivity |].
    right. now exists tx_hash.
Qed.

Lemma broadcast_inserts_only_on_success_witness :
  let tx :=
    EthereumTransaction.sign "key"
      (EthereumTransaction.init
         (PStr "0x1234567890123456789012345678901234567890") (PInt 1)
         (PInt 20000000000) PNone PNone PNone 1) in
  let self := ScriptedNode.ethereum None [ScriptedNode.response (PStr "0x3333")] in
  EthereumTransaction.serialize tx = Ret ("0x" +:+ PyStr.times "ff" 256)
  /\ exists after,
       EthereumTransactionManager.broadcast tx self
       = (Ret (PStr "0x3333"), after)
       /\ Ethereum._pending_transactions after !! KStr "0x3333" = Some tx.
Proof.
  intros tx self. split; [reflexivity |].
  destruct (broadcast_inserts_only_on_success tx self) as [Hsent _].
  destruct (Hsent ("0x" +:+ PyStr.times "ff" 256)
              (PDict [("result", PStr "0x3333"); ("id", PInt 1)])
              (PStr "0x3333") (KStr "0x3333") (ScriptedNode.mk [] 1)
              eq_refl eq_refl eq_refl eq_refl)
    as [after [Hrun [_ Hpending]]].
  now exists after.
Defined.

Lemma broadcast_unsigned {W : Type} `{Node W} (tx : EthereumTransaction.t)
    (self : Ethereum.t W) :
  EthereumTransaction.signature_populated tx = false ->
  EthereumTransactionManager.broadcast tx self
  = (Raise (Exception
              "Failed to broadcast transaction: Transaction is not signed"),
     self).
Proof.
  intros Hs.
  unfold EthereumTransactionManager.broadcast, m_try, m_bind, m_lift, m_raise.
  unfold EthereumTransaction.signature_populated in Hs.
  unfold EthereumTransaction.serialize.
  destruct (EthereumTransaction.v tx), (EthereumTransaction.r tx),
    (EthereumTransaction.s tx); try discriminate; reflexivity.
Qed.

(** ** Waiting for a receipt *)

Lemma get_receipt_effect {W : Type} `{Node W} (tx_hash : pyval)
    (self : Ethereum.t W) :
  let after := snd (EthereumTransactionManager.get_receipt tx_hash self) in
  Ethereum.provider after
  = snd (request "eth_getTransactionReceipt" (Some [tx_hash])
           (Ethereum.provider self))
  /\ Ethereum.trace after
     = (Ethereum.trace self
        ++ [EvRequest "eth_getTransactionReceipt" (Some [tx_hash])])%list
  /\ Ethereum._pending_transactions after
     = Ethereum._pending_transactions self.
Proof.
  unfold EthereumTransactionManager.get_receipt, m_try, m_bind, m_lift,
    m_raise, m_ret, Ethereum.provider_request.
  destruct (request "eth_getTransactionReceipt" (Some [tx_hash])
              (Ethereum.provider self)) as [[response | e] w];
    [| now repeat split].
  repeat match goal with
         | |- context [match ?x with Ret _ => _ | Raise _ => _ end] =>
             destruct x
         | |- context [if ?b then _ else _] => destruct b
         end; now repeat split.
Qed.


Section Waiting.

Context {W : Type} `{Node W}.

(** The clock: a request takes at least [latency] ticks, and a sleep of a
    length that is not negative returns after at least that length. *)
Variable latency : Z.
Hypothesis request_takes_time :
  forall method params w,
    now w + latency <= now (snd (request method params w)).
Hypothesis sleep_takes_time :
  forall seconds w,
    0 <= seconds ->
    exists w', sleep seconds w = (Ret tt, w')
               /\ now w + seconds * hz <= now w'.

Variable tx_hash : pyval.
Variables timeout poll_interval start_time : Z.
Hypothesis poll_interval_not_negative : 0 <= poll_interval.
Hypothesis turns_take_time : 0 < latency + poll_interval * hz.


End Waiting.






Example wait_returns_the_first_receipt :
  option_map fst
    (EthereumTransactionManager.wait_for_receipt 5 (PStr "0xabc") 10 1
       (ScriptedNode.ethereum None
          [ScriptedNode.response PNone;
           ScriptedNode.response (ScriptedNode.receipt_json "0x1");
           ScriptedNode.response (ScriptedNode.receipt_json "0x0")]))
  = Some (Ret (TransactionReceipt.mk (PStr "0xabc") 16 (PStr "0xdef") true
                 21000 (PList []))).
Proof. vm_compute. reflexivity. Qed.

Example wait_times_out :
  option_map fst
    (EthereumTransactionManager.wait_for_receipt 5 (PStr "0xabc") 1 1
       (ScriptedNode.ethereum None
          [ScriptedNode.response PNone; ScriptedNode.response PNone]))
  = Some (Raise (TimeoutError
                   "Transaction 0xabc not mined within 1 seconds")).
Proof. vm_compute. reflexivity. Qed.

Example wait_times_out_trace :
  option_map (fun r => Ethereum.trace (snd r))
    (EthereumTransactionManager.wait_for_receipt 5 (PStr "0xabc") 1 1
       (ScriptedNode.ethereum None
          [ScriptedNode.response PNone; ScriptedNode.response PNone]))
  = Some [EvRequest "eth_getTransactionReceipt" (Some [PStr "0xabc"]);
          EvSleep 1].
Proof. vm_compute. reflexivity. Qed.

Example status_of_scripted_receipts :
  fst (EthereumTransactionManager.get_status (PStr "0xabc")
         (ScriptedNode.ethereum None [ScriptedNode.response PNone]))
  = Ret TransactionStatus.PENDING
  /\ fst (EthereumTransactionManager.get_status (PStr "0xabc")
            (ScriptedNode.ethereum None
               [ScriptedNode.response (ScriptedNode.receipt_json "0x1")]))
     = Ret TransactionStatus.CONFIRMED
  /\ fst (EthereumTransactionManager.get_status (PStr "0xabc")
            (ScriptedNode.ethereum None
               [ScriptedNode.response (ScriptedNode.receipt_json "0x0")]))
     = Ret TransactionStatus.FAILED
  /\ fst (EthereumTransactionManager.get_status (PStr "0xabc")
            (ScriptedNode.ethereum None [Raise (Exception "connection refused")]))
     = Ret TransactionStatus.UNKNOWN.
Proof. repeat split; vm_compute; reflexivity. Qed.

(** ** Dispatch by mutability *)

Lemma find_function_sound (abi : list abi_item) (is_write : bool)
    (name : string) (f : ContractFunction.t) :
  ContractFunctionGroup.find_function abi is_write name = Some f ->
  exists item,
    In item abi
    /\ is_function_named name item = true
    /\ abi_is_constant item = negb is_write
    /\ f = ContractFunction.mk name (default [] (item_inputs item))
             (default [] (item_outputs item)) (abi_is_constant item).
Proof.
  induction abi as [| item abi IH]; simpl; [discriminate |].
  destruct (is_function_named name item) eqn:Hn; simpl.
  - destruct (Bool.eqb (abi_is_constant item) is_write) eqn:Hc; simpl.
    + intros Hf. destruct (IH Hf) as [item' [Hin Hrest]].
      exists item'. split; [now right | exact Hrest].
    + intros Hf. inversion Hf. exists item.
      split; [now left |]. split; [exact Hn |]. split; [| reflexivity].
      destruct (abi_is_constant item), is_write; simpl in *;
        try reflexivity; discriminate.
  - intros Hf. destruct (IH Hf) as [item' [Hin Hrest]].
    exists item'. split; [now right | exact Hrest].
Qed.

Lemma getattr_resolves (abi : list abi_item) (name : string)
    (g g' : ContractFunctionGroup.t) (f : ContractFunction.t) :
  ContractFunctionGroup.resolves abi g ->
  ContractFunctionGroup.getattr abi name g = (Ret f, g') ->
  ContractFunctionGroup.find_function abi (ContractFunctionGroup.is_write g)
    name = Some f
  /\ ContractFunctionGroup.resolves abi g'
  /\ ContractFunctionGroup.is_write g' = ContractFunctionGroup.is_write g.
Proof.
  intros Hres. unfold ContractFunctionGroup.getattr.
  destruct (ContractFunctionGroup._functions g !! name) as [cached |] eqn:Hc.
  - intros E. inversion E; subst. split; [now apply Hres | now split].
  - destruct (ContractFunctionGroup.find_function abi
                (ContractFunctionGroup.is_write g) name) as [found |] eqn:Hf;
      [| discriminate].
    intros E. inversion E; subst. split; [reflexivity |].
    split; [| reflexivity].
    intros n fn. simpl. rewrite lookup_insert.
    destruct (decide (name = n)) as [<- | Hne].
    + intros E'. inversion E'; subst. exact Hf.
    + apply Hres.
Qed.

Lemma init_resolves (abi : list abi_item) (is_write : bool) :
  ContractFunctionGroup.resolves abi (ContractFunctionGroup.init is_write).
Proof. intros name f. simpl. now rewrite lookup_empty. Qed.

(** destructs what the goal matches on, innermost scrutinee first *)
Ltac break_match :=
  match goal with
  | |- context [match ?x with _ => _ end] =>
      lazymatch x with
      | context [match _ with _ => _ end] => fail
      | _ => destruct x eqn:?
      end
  end.

Lemma call_function_reads {W : Type} `{Node W} (function_name : string)
    (args : list pyval) (outputs : list abi_param)
    (c : EthereumContract.t W) :
  let '(out, c') :=
    EthereumContract._call_function function_name args outputs c in
  Ethereum._pending_transactions (EthereumContract.ethereum c')
  = Ethereum._pending_transactions (EthereumContract.ethereum c)
  /\ (exists new,
        Ethereum.trace (EthereumContract.ethereum c')
        = (Ethereum.trace (EthereumContract.ethereum c) ++ new)%list
        /\ forallb (fun ev => negb (requested "eth_sendRawTransaction" ev))
             new = true)
  /\ (forall v,
        out = Ret v ->
        exists params response result,
          request "eth_call" params
            (Ethereum.provider (EthereumContract.ethereum c))
          = (Ret response, Ethereum.provider (EthereumContract.ethereum c'))
          /\ getitem response "result" = Ret result
          /\ EthereumContract.decode_result outputs result = Ret v).
Proof.
  unfold EthereumContract._call_function.
  destruct (EthereumContract.find_abi (EthereumContract.abi c) function_name)
    as [function_abi |].
  2: { split; [reflexivity |]. split; [| discriminate].
       exists []. now rewrite app_nil_r. }
  unfold m_try, m_bind, m_lift, m_raise, EthereumContract.on_ethereum,
    Ethereum.provider_request.
  match goal with |- context [request "eth_call" ?p ?w] =>
    destruct (request "eth_call" p w) as [[response | e] w'] eqn:Er end.
  2: { split; [reflexivity |]. split; [| discriminate].
       eexists [_]. split; reflexivity. }
  destruct (getitem response "result") as [result | e] eqn:Eg.
  2: { split; [reflexivity |]. split; [| discriminate].
       eexists [_]. split; reflexivity. }
  destruct (EthereumContract.decode_result outputs result) as [v | e] eqn:Ed.
  2: { split; [reflexivity |]. split; [| discriminate].
       eexists [_]. split; reflexivity. }
  split; [reflexivity |]. split; [eexists [_]; split; reflexivity |].
  intros v' E. inversion E; subst. eexists _, response, result.
  repeat split; eassumption.
Qed.

Lemma build_returns_init (b : EthereumTransactionBuilder.t)
    (tx : EthereumTransaction.t) :
  EthereumTransactionBuilder.build b = Ret tx ->
  tx = EthereumTransaction.init
         (EthereumTransactionBuilder._to b)
         (EthereumTransactionBuilder._value b)
         (EthereumTransactionBuilder._gas_price b)
         (EthereumTransactionBuilder._gas_limit b)
         (EthereumTransactionBuilder._data b)
         (EthereumTransactionBuilder._nonce b)
         (EthereumTransactionBuilder._chain_id b).
Proof.
  unfold EthereumTransactionBuilder.build.
  destruct (is_none _); [discriminate |].
  destruct (_ =? 0); [destruct (is_none _); [discriminate |] |];
    intros E; now inversion E.
Qed.

Lemma create_transaction_effect {W : Type} `{Node W} (eth : Ethereum.t W) :
  let '(out, eth') := EthereumTransactionManager.create_transaction eth in
  Ethereum._pending_transactions eth' = Ethereum._pending_transactions eth
  /\ Ethereum._wallet eth' = Ethereum._wallet eth
  /\ exists new,
       Ethereum.trace eth' = (Ethereum.trace eth ++ new)%list
       /\ forallb (fun ev => negb (requested "eth_call" ev)) new = true.
Proof.
  unfold EthereumTransactionManager.create_transaction, Ethereum.get_chain_id,
    Ethereum.connect, Ethereum.provider_is_connected,
    Ethereum.provider_request, Ethereum.set_connected,
    m_try, m_bind, m_lift, m_raise, m_ret.
  repeat break_match; simpl in *;
    repeat match goal with
           | E : (_, _) = (_, _) |- _ => inversion E; subst; clear E
           end;
    simpl;
    (split; [reflexivity |]; split; [reflexivity |]);
    first [ exists []; split; [now rewrite app_nil_r | reflexivity]
          | eexists [_]; split; reflexivity ].
Qed.

Lemma broadcast_effect {W : Type} `{Node W} (tx : EthereumTransaction.t)
    (self : Ethereum.t W) :
  let '(out, after) := EthereumTransactionManager.broadcast tx self in
  (exists new,
     Ethereum.trace after = (Ethereum.trace self ++ new)%list
     /\ forallb (fun ev => negb (requested "eth_call" ev)) new = true)
  /\ (forall tx_hash,
        out = Ret tx_hash ->
        exists serialized response key,
          EthereumTransaction.serialize tx = Ret serialized
          /\ request "eth_sendRawTransaction" (Some [PStr serialized])
               (Ethereum.provider self)
             = (Ret response, Ethereum.provider after)
          /\ getitem response "result" = Ret tx_hash
          /\ hash_key tx_hash = Ret key
          /\ Ethereum._pending_transactions after
             = <[key := tx]> (Ethereum._pending_transactions self)).
Proof.
  unfold EthereumTransactionManager.broadcast, m_try, m_bind, m_lift,
    m_raise, m_ret.
  destruct (EthereumTransaction.serialize tx) as [serialized | cause] eqn:Es.
  2: { split; [| discriminate]. exists []. now rewrite app_nil_r. }
  unfold Ethereum.provider_request.
  destruct (request "eth_sendRawTransaction" (Some [PStr serialized])
              (Ethereum.provider self)) as [[response | cause] w] eqn:Er.
  2: { split; [| discriminate]. eexists [_]. split; reflexivity. }
  destruct (getitem response "result") as [tx_hash | cause] eqn:Eg.
  2: { split; [| discriminate]. eexists [_]. split; reflexivity. }
  rewrite store_pending_spec.
  destruct (hash_key tx_hash) as [key | cause] eqn:Eh.
  2: { split; [| discriminate]. eexists [_]. split; reflexivity. }
  split; [eexists [_]; split; reflexivity |].
  intros h E. inversion E; subst.
  exists serialized, response, key. simpl. repeat split; assumption.
Qed.

Lemma transact_function_broadcasts {W : Type} `{Node W}
    (function_name : string) (args : list pyval)
    (tx_options : list (string * pyval)) (c : EthereumContract.t W) :
  let '(out, c') :=
    EthereumContract._transact_function function_name args tx_options c in
  (exists new,
     Ethereum.trace (EthereumContract.ethereum c')
     = (Ethereum.trace (EthereumContract.ethereum c) ++ new)%list
     /\ forallb (fun ev => negb (requested "eth_call" ev)) new = true)
  /\ (forall tx_hash,
        out = Ret tx_hash ->
        exists tx serialized w response key,
          EthereumTransaction.history true tx
          /\ EthereumTransaction.serialize tx = Ret serialized
          /\ request "eth_sendRawTransaction" (Some [PStr serialized]) w
             = (Ret response,
                Ethereum.provider (EthereumContract.ethereum c'))
          /\ getitem response "result" = Ret tx_hash
          /\ hash_key tx_hash = Ret key
          /\ Ethereum._pending_transactions (EthereumContract.ethereum c')
             = <[key := tx]>
                 (Ethereum._pending_transactions (EthereumContract.ethereum c))).
Proof.
  unfold EthereumContract._transact_function.
  destruct (Ethereum._wallet (EthereumContract.ethereum c)) as [wallet |].
  2: { split; [| discriminate]. exists []. now rewrite app_nil_r. }
  destruct (EthereumContract.find_abi (EthereumContract.abi c) function_name)
    as [function_abi |].
  2: { split; [| discriminate]. exists []. now rewrite app_nil_r. }
  unfold m_bind, m_lift, EthereumContract.on_ethereum.
  pose proof (create_transaction_effect (EthereumContract.ethereum c)) as Hc.
  destruct (EthereumTransactionManager.create_transaction
              (EthereumContract.ethereum c)) as [[b | e] eth1].
  2: { destruct Hc as [_ [_ Hnew]]. split; [exact Hnew | discriminate]. }
  destruct Hc as [Hp1 [_ [new1 [Ht1 Hn1]]]]. cbn [EthereumContract.ethereum].
  match goal with |- context [EthereumTransactionBuilder.build ?b'] =>
    destruct (EthereumTransactionBuilder.build b') as [tx0 | e] eqn:Hb end.
  2: { split; [| discriminate]. exists new1. now split. }
  cbn [EthereumContract.ethereum EthereumContract.address
         EthereumContract.abi EthereumContract.bytecode
         EthereumContract.read EthereumContract.write].
  match goal with |- context [EthereumTransactionManager.broadcast ?t eth1] =>
    pose proof (broadcast_effect t eth1) as Hbr;
      destruct (EthereumTransactionManager.broadcast t eth1) as [out eth2]
  end.
  destruct Hbr as [[new2 [Ht2 Hn2]] Hret]. cbn [EthereumContract.ethereum].
  split.
  - exists (new1 ++ new2)%list. rewrite Ht2, Ht1, <- app_assoc.
    split; [reflexivity |]. rewrite forallb_app, Hn1, Hn2. reflexivity.
  - intros tx_hash E.
    destruct (Hret tx_hash E) as [serialized [response [key Hall]]].
    destruct Hall as [Hs [Hr [Hg [Hk Hp]]]].
    eexists _, serialized, _, response, key.
    split; [| split; [exact Hs | split; [exact Hr |]]].
    + apply build_returns_init in Hb. rewrite Hb.
      apply EthereumTransaction.history_sign with (signed := false).
      apply EthereumTransaction.history_init.
    + split; [exact Hg |]. split; [exact Hk |]. now rewrite Hp, Hp1.
Qed.

Lemma getattr_raises_unchanged (abi : list abi_item) (name : string)
    (g g' : ContractFunctionGroup.t) (e : exn) :
  ContractFunctionGroup.getattr abi name g = (Raise e, g') -> g' = g.
Proof.
  unfold ContractFunctionGroup.getattr.
  destruct (ContractFunctionGroup._functions g !! name); [discriminate |].
  destruct (ContractFunctionGroup.find_function abi _ name); [discriminate |].
  intros E. now inversion E.
Qed.

(** A contract starts with consistent facades and keeps them. *)
Lemma init_consistent {W : Type} `{Node W} (address : string)
    (abi : list abi_item) (eth : Ethereum.t W) (bytecode : option string)
    (c : EthereumContract.t W) :
  EthereumContract.init address abi eth bytecode = Ret c ->
  EthereumContract.consistent c.
Proof.
  unfold EthereumContract.init. destruct (negb _); [discriminate |].
  intros E. inversion E. repeat split; apply init_resolves.
Qed.

Lemma getattr_consistent {W : Type} `{Node W}
    (class_attribute : string -> bool) (is_write : bool)
    (name : string) (c : EthereumContract.t W) :
  EthereumContract.consistent c ->
  EthereumContract.consistent
    (snd (if is_write
          then EthereumContract.write_getattr class_attribute name c
          else EthereumContract.read_getattr class_attribute name c)).
Proof.
  intros (Hr & Hw & Hres_r & Hres_w).
  destruct is_write.
  - unfold EthereumContract.write_getattr.
    destruct (EthereumContract.found_by_lookup class_attribute name);
      [now repeat split |].
    destruct (ContractFunctionGroup.getattr (EthereumContract.abi c) name
                (EthereumContract.write c)) as [[f | e] g] eqn:Eg.
    + apply getattr_resolves in Eg as (_ & Hres & Hsame); [| assumption].
      simpl. unfold EthereumContract.consistent. simpl.
      rewrite Hsame. now repeat split.
    + apply getattr_raises_unchanged in Eg as ->. now repeat split.
  - unfold EthereumContract.read_getattr.
    destruct (EthereumContract.found_by_lookup class_attribute name);
      [now repeat split |].
    destruct (ContractFunctionGroup.getattr (EthereumContract.abi c) name
                (EthereumContract.read c)) as [[f | e] g] eqn:Eg.
    + apply getattr_resolves in Eg as (_ & Hres & Hsame); [| assumption].
      simpl. unfold EthereumContract.consistent. simpl.
      rewrite Hsame. now repeat split.
    + apply getattr_raises_unchanged in Eg as ->. now repeat split.
Qed.

Lemma call_keeps_facades {W : Type} `{Node W} (f : ContractFunction.t)
    (args : list pyval) (kwargs : list (string * pyval))
    (c : EthereumContract.t W) :
  let c' := snd (EthereumContract.call f args kwargs c) in
  EthereumContract.abi c' = EthereumContract.abi c
  /\ EthereumContract.read c' = EthereumContract.read c
  /\ EthereumContract.write c' = EthereumContract.write c.
Proof.
  unfold EthereumContract.call, EthereumContract._call_function,
    EthereumContract._transact_function, EthereumContract.on_ethereum,
    m_try, m_bind, m_lift, m_raise.
  repeat break_match; simpl in *;
    repeat match goal with
           | E : (_, _) = (_, _) |- _ => inversion E; subst; clear E
           end;
    now repeat split.
Qed.

Example read_facade_returns_the_decoded_value :
  fst ((do f <-
          EthereumContract.read_getattr ScriptedInterpreter.class_attribute
            "balanceOf";
        EthereumContract.invoke ScriptedInterpreter.call_class_attribute f
          [PStr "0x1234567890123456789012345678901234567890"] [])
         (scripted_erc20 [ScriptedNode.response (PStr "0x64")]))
  = Ret (PInt 100).
Proof. vm_compute. reflexivity. Qed.

Example write_facade_returns_the_hash :
  let '(out, c) :=
    (do f <-
       EthereumContract.write_getattr ScriptedInterpreter.class_attribute
         "transfer";
     EthereumContract.invoke ScriptedInterpreter.call_class_attribute f
       [PStr "0x1234567890123456789012345678901234567890"; PInt 5]
       [("gas_price", PInt 20000000000)])
      (scripted_erc20 [ScriptedNode.response (PStr "0x3333")]) in
  out = Ret (PStr "0x3333")
  /\ is_Some (Ethereum._pending_transactions (EthereumContract.ethereum c)
              !! KStr "0x3333")
  /\ Ethereum.trace (EthereumContract.ethereum c)
     = [EvRequest "eth_sendRawTransaction"
          (Some [PStr ("0x" +:+ PyStr.times "ff" 256)])].
Proof. vm_compute. repeat split. eexists. reflexivity. Qed.

Example read_facade_has_no_transfer :
  fst (EthereumContract.read_getattr ScriptedInterpreter.class_attribute
         "transfer" (scripted_erc20 []))
  = Raise (AttributeError "Contract has no function 'transfer'").
Proof. vm_compute. reflexivity. Qed.

(** an attribute of the group itself is found before [__getattr__] is
    asked, and is no function of the contract *)
Example facade_attributes_shadow_the_functions :
  let abi :=
    [abi_function "is_write" true [] [param "" "bool"];
     abi_function "__dir__" true [] [param "" "string"]] in
  let c :=
    EthereumContract.mk "0xabcdef0123456789abcdef0123456789abcdef01" abi
      (ScriptedNode.ethereum None []) None
      (ContractFunctionGroup.init false) (ContractFunctionGroup.init true) in
  fst (EthereumContract.read_getattr ScriptedInterpreter.class_attribute
         "is_write" c)
  = Ret (EthereumContract.Own "is_write")
  /\ fst (EthereumContract.read_getattr ScriptedInterpreter.class_attribute
            "__dir__" c)
     = Ret (EthereumContract.Own "__dir__")
  /\ fst ((do a <-
             EthereumContract.read_getattr
               ScriptedInterpreter.class_attribute "is_write";
           EthereumContract.invoke ScriptedInterpreter.call_class_attribute
             a [] []) c)
     = Raise (TypeError "'bool' object is not callable").
Proof. intros abi c. vm_compute. repeat split. Qed.

(** ** Token amounts *)

(** the float 0.75, which is 3 * 2^51 * 2^-53 *)
Example three_quarters :
  PyFloat.int_truediv 3 4 = Ret (S754_finite false 6755399441055744 (-53)).
Proof. vm_compute. reflexivity. Qed.






Section TokenAmounts.
Context {W : Type} `{Node W}.
Variable class_attribute : string -> bool.
Variable call_class_attribute :
  string -> list pyval -> list (string * pyval)
  -> M (EthereumContract.t W) pyval.
Variable pow10_negative : Z -> spec_float.
Variable sha256_hexdigest : string -> string.


End TokenAmounts.


Example amounts_with_six_and_eighteen_decimals :
  let a := S754_finite false 6755399441055744 (-53) in
  ERC20Token.units_of_float a 6 = Ret 750000
  /\ ERC20Token.units_of_float a 18 = Ret 750000000000000000
  /\ ERC20Token.format_units (PInt 750000) 6 = Ret a
  /\ ERC20Token.format_units (PInt 750000000000000000) 18 = Ret a.
Proof. intros a. repeat split; vm_compute; reflexivity. Qed.

(** the first float amount asks the contract for the decimals, a later
    one does not; a failure of that request ends the transfer *)
Example decimals_are_read_once :
  let a := S754_finite false 6755399441055744 (-53) in
  let to := "0x1234567890123456789012345678901234567890" in
  let run token :=
    ERC20Token.transfer ScriptedInterpreter.class_attribute
      ScriptedInterpreter.call_class_attribute
      ScriptedInterpreter.pow10_negative to (ERC20Token.AmountFloat a)
      None (Some (PInt 20000000000)) token in
  let '(out1, token1) :=
    run (ScriptedLogs.token
           [ScriptedNode.response (PStr "0x12");
            ScriptedNode.response (PStr "0x3333");
            ScriptedNode.response (PStr "0x4444")]) in
  let '(out2, token2) := run token1 in
  out1 = Ret (PStr "0x3333")
  /\ out2 = Ret (PStr "0x4444")
  /\ ERC20Token._decimals token2 = PInt 18
  /\ map (requested "eth_call")
       (Ethereum.trace
          (EthereumContract.ethereum (ERC20Token.contract token2)))
     = [true; false; false]
  /\ fst (run (ScriptedLogs.token [Raise (Exception "connection lost")]))
     = Raise (Exception
                "Failed to call function decimals: connection lost").
Proof. intros a to run. vm_compute. repeat split. Qed.

(** * Further properties of the code *)

(** ** Hexadecimal strings, hashes and keys *)

Lemma is_hex_sized_accepts (v : string) (n : Z) :
  Validation.is_hex v (Some n) = true <->
  exists h,
    (v = h \/ v = "0x" +:+ h)
    /\ Z.of_nat (String.length h) = n * 2
    /\ PyStr.all (fun c => PyStr.contains_char c Validation.hex_alphabet) h
       = true.
Proof.
  unfold Validation.is_hex. split.
  - destruct (PyStr.startswith v "0x") eqn:Hp.
    + apply startswith_0x in Hp as [h ->].
      change (PyStr.drop 2 ("0x" +:+ h)) with h.
      destruct (PyStr.all _ h) eqn:Hall; [| discriminate].
      simpl. intros E. apply Z.eqb_eq in E. exists h.
      split; [now right | now split].
    + destruct (PyStr.all _ v) eqn:Hall; [| discriminate].
      simpl. intros E. apply Z.eqb_eq in E. exists v.
      split; [now left | now split].
  - intros [h [[-> | ->] [Hlen Hall]]].
    + destruct (PyStr.startswith h "0x") eqn:Hp.
      * apply startswith_0x in Hp as [h' ->]. now rewrite not_hex_x in Hall.
      * rewrite Hall. simpl. now apply Z.eqb_eq.
    + assert (E : PyStr.startswith ("0x" +:+ h) "0x" = true) by reflexivity.
      rewrite E. change (PyStr.drop 2 ("0x" +:+ h)) with h.
      rewrite Hall. simpl. now apply Z.eqb_eq.
Qed.

Lemma is_hex_unsized_accepts (v : string) :
  Validation.is_hex v None = true <->
  exists h,
    (v = h \/ v = "0x" +:+ h)
    /\ PyStr.all (fun c => PyStr.contains_char c Validation.hex_alphabet) h
       = true.
Proof.
  unfold Validation.is_hex. split.
  - destruct (PyStr.startswith v "0x") eqn:Hp.
    + apply startswith_0x in Hp as [h ->].
      change (PyStr.drop 2 ("0x" +:+ h)) with h.
      destruct (PyStr.all _ h) eqn:Hall; [| discriminate].
      intros _. exists h. split; [now right | assumption].
    + destruct (PyStr.all _ v) eqn:Hall; [| discriminate].
      intros _. exists v. split; [now left | assumption].
  - intros [h [[-> | ->] Hall]].
    + destruct (PyStr.startswith h "0x") eqn:Hp.
      * apply startswith_0x in Hp as [h' ->]. now rewrite not_hex_x in Hall.
      * now rewrite Hall.
    + assert (E : PyStr.startswith ("0x" +:+ h) "0x" = true) by reflexivity.
      rewrite E. change (PyStr.drop 2 ("0x" +:+ h)) with h. now rewrite Hall.
Qed.

(** X1.  [is_transaction_hash], and [is_block_hash] with it, accepts a
    string exactly when it is "0x" or "0x0x" followed by 64 hexadecimal
    characters: as for addresses, the prefix may be doubled. *)
Theorem is_transaction_hash_accepts (a : string) :
  Checks.is_block_hash a = Checks.is_transaction_hash a
  /\ (Checks.is_transaction_hash a = true <->
      exists h,
        (a = "0x" +:+ h \/ a = "0x0x" +:+ h)
        /\ String.length h = 64%nat
        /\ PyStr.all
             (fun c => PyStr.contains_char c Validation.hex_alphabet) h
           = true).
Proof.
  split; [reflexivity |].
  unfold Checks.is_transaction_hash.
  rewrite andb_true_iff, startswith_0x. split.
  - intros [[rest ->] Hhex].
    change (PyStr.drop 2 ("0x" +:+ rest)) with rest in Hhex.
    apply is_hex_sized_accepts in Hhex as [h [[-> | ->] [Hlen Hall]]];
      exists h; (split; [auto | split; [lia | assumption]]).
  - intros [h [[-> | ->] [Hlen Hall]]].
    + split; [now exists h |].
      change (PyStr.drop 2 ("0x" +:+ h)) with h.
      apply is_hex_sized_accepts. exists h.
      split; [now left | split; [lia | assumption]].
    + split; [now exists ("0x" +:+ h) |].
      apply is_hex_sized_accepts. exists h.
      split; [now right | split; [lia | assumption]].
Qed.

(** X2.  [is_private_key] accepts a string exactly when it is 64
    hexadecimal characters after no, one or two "0x" prefixes. *)
Theorem is_private_key_accepts (key : string) :
  Checks.is_private_key key = true <->
  exists h,
    (key = h \/ key = "0x" +:+ h \/ key = "0x0x" +:+ h)
    /\ String.length h = 64%nat
    /\ PyStr.all (fun c => PyStr.contains_char c Validation.hex_alphabet) h
       = true.
Proof.
  unfold Checks.is_private_key. split.
  - destruct (PyStr.startswith key "0x") eqn:Hp.
    + apply startswith_0x in Hp as [rest ->].
      change (PyStr.drop 2 ("0x" +:+ rest)) with rest.
      intros Hhex.
      apply is_hex_sized_accepts in Hhex as [h [[-> | ->] [Hlen Hall]]];
        exists h; (split; [auto | split; [lia | assumption]]).
    + intros Hhex.
      apply is_hex_sized_accepts in Hhex as [h [[-> | ->] [Hlen Hall]]].
      * exists h. split; [auto | split; [lia | assumption]].
      * discriminate Hp.
  - intros [h [[-> | [-> | ->]] [Hlen Hall]]].
    + destruct (PyStr.startswith h "0x") eqn:Hp.
      * apply startswith_0x in Hp as [h' ->]. now rewrite not_hex_x in Hall.
      * apply is_hex_sized_accepts. exists h.
        split; [now left | split; [lia | assumption]].
    + assert (E : PyStr.startswith ("0x" +:+ h) "0x" = true) by reflexivity.
      rewrite E. change (PyStr.drop 2 ("0x" +:+ h)) with h.
      apply is_hex_sized_accepts. exists h.
      split; [now left | split; [lia | assumption]].
    + assert (E : PyStr.startswith ("0x0x" +:+ h) "0x" = true) by reflexivity.
      rewrite E.
      apply is_hex_sized_accepts. exists h.
      split; [now right | split; [lia | assumption]].
Qed.

(** X3.  [is_hex_string] agrees with [is_hex] called without a length,
    and accepts a string exactly when it is hexadecimal characters after
    at most one "0x": the empty string and "0x" alone are accepted. *)
Theorem is_hex_string_accepts (v : string) :
  Checks.is_hex_string v = Validation.is_hex v None
  /\ (Checks.is_hex_string v = true <->
      exists h,
        (v = h \/ v = "0x" +:+ h)
        /\ PyStr.all
             (fun c => PyStr.contains_char c Validation.hex_alphabet) h
           = true)
  /\ Checks.is_hex_string "" = true
  /\ Checks.is_hex_string "0x" = true.
Proof.
  assert (E : Checks.is_hex_string v = Validation.is_hex v None).
  { unfold Checks.is_hex_string, Validation.is_hex, Checks.is_hex_char.
    now destruct (PyStr.all _ _). }
  split; [exact E |]. split; [| split; reflexivity].
  rewrite E. apply is_hex_unsized_accepts.
Qed.

(** X4.  [is_checksum_address] checks no checksum: it accepts exactly
    what [is_eth_address] accepts, whatever the case of the letters. *)
Theorem is_checksum_address_checks_nothing (address : string) :
  Checks.is_checksum_address address = Validation.is_eth_address address.
Proof.
  unfold Checks.is_checksum_address.
  destruct (Validation.is_eth_address address); simpl; [| reflexivity].
  apply orb_true_r.
Qed.

(** X5.  [validate_address] reads the chain name without regard to case,
    and rejects every address for a chain name that is, lowered, none of
    the seven it knows. *)
Theorem validate_address_ignores_case (address chain : string) :
  Validation.validate_address address (PyStr.lower chain)
  = Validation.validate_address address chain
  /\ (Validation.one_of (PyStr.lower chain)
        ["ethereum"; "eth"; "evm"; "solana"; "sol"; "bitcoin"; "btc"]
      = false ->
      Validation.validate_address address chain = false).
Proof.
  assert (Hc : forall c, PyStr.lower_char (PyStr.lower_char c)
                         = PyStr.lower_char c).
  { intros [[] [] [] [] [] [] [] []]; reflexivity. }
  assert (Hl : forall s, PyStr.lower (PyStr.lower s) = PyStr.lower s).
  { induction s as [| c s IH]; simpl; [reflexivity |]. now rewrite Hc, IH. }
  split.
  - unfold Validation.validate_address. now rewrite Hl.
  - unfold Validation.validate_address, Validation.one_of. simpl.
    intros H.
    repeat (apply orb_false_iff in H as [? H]).
    repeat match goal with E : String.eqb _ _ = false |- _ =>
      rewrite E; clear E end.
    reflexivity.
Qed.

(** X6.  [is_valid_amount] on a number: an integer is valid exactly when
    it is not negative; a float exactly when it is a zero of either sign,
    a positive number or plus infinity, so a NaN is rejected.  On any
    argument it never raises a [ValueError], and a string that the float
    conversion rejects is not valid. *)
Theorem is_valid_amount_numbers
    (int_of_hex : string -> res Z) (float_of_str : string -> res spec_float) :
  (forall n,
     Checks.is_valid_amount int_of_hex float_of_str (Checks.GivenInt n)
     = Ret (0 <=? n))
  /\ (forall x,
        Checks.is_valid_amount int_of_hex float_of_str (Checks.GivenFloat x)
        = Ret match x with
              | S754_zero _ => true
              | S754_infinity sign | S754_finite sign _ _ => negb sign
              | S754_nan => false
              end)
  /\ (forall amount msg,
        Checks.is_valid_amount int_of_hex float_of_str amount
        <> Raise (ValueError msg))
  /\ (forall s msg,
        PyStr.startswith s "0x" = false ->
        float_of_str s = Raise (ValueError msg) ->
        Checks.is_valid_amount int_of_hex float_of_str (Checks.GivenStr s)
        = Ret false).
Proof.
  repeat split.
  - intros [[] | [] | | [] m e]; reflexivity.
  - intros amount msg. unfold Checks.is_valid_amount.
    destruct amount as [s | n | x |]; try discriminate.
    destruct (PyStr.startswith s "0x").
    + destruct (int_of_hex s) as [n | []]; discriminate.
    + destruct (float_of_str s) as [x | []]; discriminate.
  - intros s msg Hp Hf. unfold Checks.is_valid_amount.
    now rewrite Hp, Hf.
Qed.

(** ** Message signatures *)

(** X7.  [verify_message] accepts a signature exactly when it is the one
    [sign_message] gives for the message, and neither looks at the
    wallet: a signature made with one wallet verifies with any other. *)
Theorem verify_message_accepts_own_signature
    (message signature : string) (signer verifier : Wallet.t) :
  WalletMessages.verify_message message signature verifier = true
  <-> signature = WalletMessages.sign_message message signer.
Proof.
  unfold WalletMessages.verify_message, WalletMessages.sign_message.
  apply String.eqb_eq.
Qed.

(** ** Building, signing and sending a transaction *)



(** X9.  The fee caps given to [eip1559_fee] never reach the transaction:
    [build] gives the same result whatever they are, and after
    [eip1559_fee] it succeeds exactly when a recipient is set, gas price
    or not. *)
Theorem eip1559_fee_caps_are_dropped
    (builder : EthereumTransactionBuilder.t)
    (max_fee max_priority max_fee' max_priority' : pyval) :
  EthereumTransactionBuilder.build
    (EthereumTransactionBuilder.eip1559_fee max_fee max_priority builder)
  = EthereumTransactionBuilder.build
      (EthereumTransactionBuilder.eip1559_fee max_fee' max_priority' builder)
  /\ is_ret (EthereumTransactionBuilder.build
               (EthereumTransactionBuilder.eip1559_fee
                  max_fee max_priority builder))
     = negb (is_none (EthereumTransactionBuilder._to builder)).
Proof.
  unfold EthereumTransactionBuilder.build. simpl.
  now destruct (is_none (EthereumTransactionBuilder._to builder)).
Qed.

(** ** The base transaction manager *)

(** X10.  The base manager's [broadcast] of a transaction with a hash
    returns that hash, after which [get_status] of it is PENDING and the
    status of every other hash is as before; a hash never broadcast is
    UNKNOWN.  Of a transaction without a hash it raises "Transaction is
    not signed" and leaves the manager as it was. *)
Theorem base_broadcast_then_status
    (transaction : EthereumTransaction.t) (self : TransactionManager.t) :
  (forall h, TransactionManager.get_status h TransactionManager.init
             = TransactionStatus.UNKNOWN)
  /\ match TransactionManager.broadcast transaction self with
     | (Ret tx_hash, after) =>
         EthereumTransaction.get_hash transaction = Ret tx_hash
         /\ TransactionManager._pending_transactions after !! tx_hash
            = Some transaction
         /\ TransactionManager.get_status tx_hash after
            = TransactionStatus.PENDING
         /\ forall h, h <> tx_hash ->
              TransactionManager.get_status h after
              = TransactionManager.get_status h self
     | (Raise e, after) =>
         e = EthereumTransaction.not_signed
         /\ EthereumTransaction._hash transaction = None
         /\ after = self
     end.
Proof.
  split; [intros h; unfold TransactionManager.get_status; simpl;
          now rewrite lookup_empty |].
  unfold TransactionManager.broadcast, m_bind, m_lift,
    EthereumTransaction.get_hash.
  destruct (EthereumTransaction._hash transaction) as [h0 |]; simpl.
  - unfold TransactionManager.get_status. simpl.
    rewrite lookup_insert_eq. repeat split.
    intros h Hne. now rewrite lookup_insert_ne by congruence.
  - now repeat split.
Qed.

Lemma signed_hash (signed : bool) (tx : EthereumTransaction.t) :
  EthereumTransaction.history signed tx ->
  signed = true ->
  EthereumTransaction.get_hash tx = Ret ("0x" +:+ PyStr.times "33" 32).
Proof. intros H. destruct H; [discriminate | reflexivity]. Qed.

(** X11.  Every signed transaction has the same hash, so the base
    manager keeps one of them at most: after broadcasting any signed
    transactions one after the other, each broadcast has returned that
    one hash and the pending map is the old one with the last of the
    transactions under it. *)
Theorem base_manager_keeps_last_signed
    (transactions : list EthereumTransaction.t)
    (last_one : EthereumTransaction.t) (self : TransactionManager.t)
    (Hsigned : Forall (EthereumTransaction.history true) transactions)
    (Hlast : last transactions = Some last_one) :
  TransactionManager.broadcast_all transactions self
  = (Ret (replicate (length transactions) ("0x" +:+ PyStr.times "33" 32)),
     TransactionManager.mk
       (<["0x" +:+ PyStr.times "33" 32 := last_one]>
          (TransactionManager._pending_transactions self))).
Proof.
  revert self Hlast.
  induction Hsigned as [| tx rest Htx Hrest IH]; intros self Hlast.
  - discriminate.
  - pose proof (signed_hash _ _ Htx eq_refl) as Hh.
    cbn [TransactionManager.broadcast_all].
    unfold m_bind at 1. unfold TransactionManager.broadcast.
    unfold m_bind at 1. unfold m_lift. rewrite Hh.
    destruct rest as [| tx' rest'].
    + cbn in Hlast. injection Hlast as <-. reflexivity.
    + rewrite last_cons_cons in Hlast.
      unfold m_bind at 1.
      rewrite (IH _ Hlast). unfold m_ret.
      cbn [TransactionManager._pending_transactions].
      rewrite insert_insert_eq. reflexivity.
Qed.

Lemma base_manager_keeps_last_signed_witness :
  let tx1 :=
    EthereumTransaction.sign "k1"
      (EthereumTransaction.init (PStr "0xaa") (PInt 1) (PInt 2) PNone PNone
         PNone 1) in
  let tx2 :=
    EthereumTransaction.sign "k2"
      (EthereumTransaction.init (PStr "0xbb") (PInt 5) (PInt 2) PNone PNone
         PNone 1) in
  TransactionManager.broadcast_all [tx1; tx2] TransactionManager.init
  = (Ret (replicate 2 ("0x" +:+ PyStr.times "33" 32)),
     TransactionManager.mk
       (<["0x" +:+ PyStr.times "33" 32 := tx2]> ∅)).
Proof.
  intros tx1 tx2.
  apply (base_manager_keeps_last_signed [tx1; tx2] tx2).
  - subst tx1 tx2. repeat econstructor.
  - reflexivity.
Defined.

Lemma take_length (n : nat) (s : string) :
  (n <= String.length s)%nat ->
  String.length (WalletAddresses.take n s) = n.
Proof.
  revert s. induction n as [| n IH]; intros [| c s] Hn; simpl in *;
    try lia. now rewrite IH by lia.
Qed.

Lemma take_all (p : ascii -> bool) (n : nat) (s : string) :
  PyStr.all p s = true -> PyStr.all p (WalletAddresses.take n s) = true.
Proof.
  revert s. induction n as [| n IH]; intros [| c s]; simpl; try reflexivity.
  intros Hs. apply andb_true_iff in Hs as [Hc Hs].
  now rewrite Hc, IH.
Qed.

Lemma all_impl (p q : ascii -> bool) (s : string) :
  (forall c, p c = true -> q c = true) ->
  PyStr.all p s = true -> PyStr.all q s = true.
Proof.
  intros Hpq. induction s as [| c s IH]; simpl; [reflexivity |].
  intros Hs. apply andb_true_iff in Hs as [Hc Hs].
  now rewrite (Hpq _ Hc), IH.
Qed.

Lemma lower_hex_is_hex (c : ascii) :
  WalletAddresses.lower_hex c = true ->
  PyStr.contains_char c Validation.hex_alphabet = true.
Proof. destruct c as [[] [] [] [] [] [] [] []]; vm_compute; congruence. Qed.

Lemma lower_hex_is_btc (c : ascii) :
  WalletAddresses.lower_hex c = true -> Validation.btc_class c = true.
Proof. destruct c as [[] [] [] [] [] [] [] []]; vm_compute; congruence. Qed.

(** ** Wallet addresses *)

Section Digest.
Variable sha256_hexdigest : string -> string.
Hypothesis digest_shape :
  forall s, String.length (sha256_hexdigest s) = 64%nat
            /\ PyStr.all WalletAddresses.lower_hex (sha256_hexdigest s) = true.

Lemma init_digest (pk mn : option string) (w : Wallet.t) :
  WalletAddresses.init pk mn = Ret w ->
  exists seed, WalletAddresses.digest sha256_hexdigest w
               = Ret (sha256_hexdigest seed).
Proof.
  unfold WalletAddresses.init, WalletAddresses.digest, WalletAddresses.or_str.
  destruct pk as [[| c pk] |], mn as [[| d mn] |]; simpl; intros E;
    inversion E; subst; simpl; eauto.
Qed.

(** X12.  The addresses a wallet gives and the validation of addresses,
    for a digest of 64 lower-case hexadecimal characters as SHA-256 has:
    the Ethereum and the Bitcoin address of every constructed wallet pass
    [validate_address] for their chain, and its Solana address, the
    whole digest, never does, being 64 characters and not 44. *)
Theorem wallet_addresses_and_validation (pk mn : option string)
    (w : Wallet.t)
    (Hinit : WalletAddresses.init pk mn = Ret w) :
  (exists a,
     WalletAddresses.get_address_for_chain sha256_hexdigest "ethereum" w
     = Ret a
     /\ Validation.validate_address a "ethereum" = true)
  /\ (exists a,
        WalletAddresses.get_address_for_chain sha256_hexdigest "bitcoin" w
        = Ret a
        /\ Validation.validate_address a "bitcoin" = true)
  /\ (exists a,
        WalletAddresses.get_address_for_chain sha256_hexdigest "solana" w
        = Ret a
        /\ Validation.validate_address a "solana" = false).
Proof.
  destruct (init_digest _ _ _ Hinit) as [seed Hd].
  destruct (digest_shape seed) as [Hlen Hall].
  unfold WalletAddresses.get_address_for_chain. rewrite Hd.
  repeat split.
  - eexists. split; [reflexivity |].
    change (Validation.validate_address ?a "ethereum")
      with (Validation.is_eth_address a).
    unfold Validation.is_eth_address.
    apply andb_true_iff. split; [reflexivity |].
    change (PyStr.drop 2 ("0x" +:+ ?h)) with h.
    apply is_hex_sized_accepts. eexists. split; [left; reflexivity |].
    split.
    + rewrite take_length by lia. reflexivity.
    + apply take_all. eapply all_impl; [apply lower_hex_is_hex | exact Hall].
  - eexists. split; [reflexivity |].
    change (Validation.validate_address ?a "bitcoin")
      with (Validation.btc_match a).
    unfold Validation.btc_match.
    apply orb_true_iff. left. apply andb_true_iff. split; [reflexivity |].
    apply orb_true_iff. left.
    change (PyStr.drop 3 ("bc1" +:+ ?h)) with h.
    unfold Validation.btc_body. rewrite take_length by lia.
    rewrite take_all; [reflexivity |].
    eapply all_impl; [apply lower_hex_is_btc | exact Hall].
  - eexists. split; [reflexivity |].
    change (Validation.validate_address ?a "solana")
      with (Nat.eqb (String.length a) 44).
    now rewrite Hlen.
Qed.
End Digest.

Lemma wallet_addresses_and_validation_witness :
  let sha := fun _ : string => PyStr.times "0123456789abcdef" 4 in
  exists a,
    WalletAddresses.get_address_for_chain sha "solana"
      (Wallet.mk None (Some "placeholder mnemonic for development")) = Ret a
    /\ Validation.validate_address a "solana" = false.
Proof.
  intros sha.
  destruct (wallet_addresses_and_validation sha
              (fun s => conj eq_refl eq_refl)
              None (Some "placeholder mnemonic for development")
              (Wallet.mk None (Some "placeholder mnemonic for development"))
              eq_refl) as (_ & _ & Hsol).
  exact Hsol.
Defined.

(** ** The network object *)

Lemma connect_effect {W : Type} `{Node W} (self : Ethereum.t W) :
  let '(out, after) := Ethereum.connect self in
  is_ret out = true
  /\ Ethereum.trace after = Ethereum.trace self
  /\ Ethereum._pending_transactions after
     = Ethereum._pending_transactions self
  /\ Ethereum._wallet after = Ethereum._wallet self
  /\ Ethereum._network after = Ethereum._network self.
Proof.
  unfold Ethereum.connect, Ethereum.provider_is_connected, m_try, m_bind.
  destruct (is_connected (Ethereum.provider self)) as [[c | e] w];
    now repeat split.
Qed.

Lemma ensure_connected_effect {W : Type} `{Node W} (self : Ethereum.t W) :
  let '(out, after) := EthereumNetwork.ensure_connected self in
  is_ret out = true
  /\ Ethereum.trace after = Ethereum.trace self
  /\ Ethereum._pending_transactions after
     = Ethereum._pending_transactions self
  /\ Ethereum._wallet after = Ethereum._wallet self
  /\ Ethereum._network after = Ethereum._network self
  /\ (Ethereum._connected self = true -> after = self).
Proof.
  unfold EthereumNetwork.ensure_connected.
  destruct (Ethereum._connected self) eqn:Ec.
  - now repeat split.
  - pose proof (connect_effect self) as Hc.
    destruct (Ethereum.connect self) as [out after].
    destruct Hc as (? & ? & ? & ? & ?). repeat split; try assumption.
    discriminate.
Qed.

Lemma get_chain_id_known {W : Type} `{Node W} (self : Ethereum.t W) (id : Z) :
  dict_get Ethereum.NETWORKS (Ethereum._network self) = Some id ->
  exists after,
    Ethereum.get_chain_id self = (Ret id, after)
    /\ Ethereum.trace after = Ethereum.trace self
    /\ Ethereum._pending_transactions after
       = Ethereum._pending_transactions self
    /\ Ethereum._wallet after = Ethereum._wallet self
    /\ Ethereum._network after = Ethereum._network self
    /\ (Ethereum._connected self = true -> after = self).
Proof.
  intros Hid. unfold Ethereum.get_chain_id. unfold m_bind at 1.
  pose proof (ensure_connected_effect self) as Hc.
  unfold EthereumNetwork.ensure_connected in Hc.
  destruct (if Ethereum._connected self then (Ret false, self)
            else Ethereum.connect self) as [[c | e] after];
    destruct Hc as (Hr & Ht & Hp & Hw & Hn & Hs); [| discriminate].
  rewrite Hn, Hid. exists after. now repeat split.
Qed.

(** X13.  An [Ethereum] object is constructed only for one of the five
    known networks, named without regard to case, and on a constructed
    object [get_chain_id] returns the identifier listed for the network
    without any request to the node: the "eth_chainId" request is never
    made. *)
Theorem constructed_network_knows_its_chain_id {W : Type} `{Node W}
    (wallet : option Wallet.t) (network : string) (provider : W)
    (self : Ethereum.t W)
    (Hinit : EthereumNetwork.init wallet network provider = Ret self) :
  exists id,
    dict_get Ethereum.NETWORKS (PyStr.lower network) = Some id
    /\ fst (Ethereum.get_chain_id self) = Ret id
    /\ Ethereum.trace (snd (Ethereum.get_chain_id self)) = [].
Proof.
  unfold EthereumNetwork.init in Hinit.
  destruct (dict_get Ethereum.NETWORKS (PyStr.lower network)) as [id |] eqn:E;
    [| discriminate].
  injection Hinit as <-. exists id. split; [reflexivity |].
  destruct (get_chain_id_known
              (Ethereum.mk wallet (PyStr.lower network) false provider ∅ [])
              id E) as (after & -> & Ht & _).
  now split.
Qed.

Lemma constructed_network_knows_its_chain_id_witness :
  exists self,
    EthereumNetwork.init None "Sepolia" (ScriptedNode.mk [] 0) = Ret self
    /\ fst (Ethereum.get_chain_id self) = Ret 11155111
    /\ Ethereum.trace (snd (Ethereum.get_chain_id self)) = [].
Proof.
  eexists. split; [reflexivity |].
  destruct (constructed_network_knows_its_chain_id None "Sepolia"
              (ScriptedNode.mk [] 0) _ eq_refl) as (id & Eid & E1 & E2).
  injection Eid as <-. now split.
Defined.

Lemma create_transaction_known {W : Type} `{Node W} (self : Ethereum.t W)
    (id : Z) :
  dict_get Ethereum.NETWORKS (Ethereum._network self) = Some id ->
  exists after,
    EthereumTransactionManager.create_transaction self
    = (Ret (EthereumTransactionBuilder.init id), after)
    /\ Ethereum.trace after = Ethereum.trace self
    /\ Ethereum._pending_transactions after
       = Ethereum._pending_transactions self
    /\ (Ethereum._connected self = true -> after = self).
Proof.
  intros Hid.
  destruct (get_chain_id_known self id Hid) as (after & E & Ht & Hp & _ & _ & Hs).
  exists after. unfold EthereumTransactionManager.create_transaction, m_bind.
  rewrite E. now repeat split.
Qed.

Lemma create_transaction_trace {W : Type} `{Node W} (self : Ethereum.t W) :
  let '(out, after) := EthereumTransactionManager.create_transaction self in
  Ethereum._pending_transactions after = Ethereum._pending_transactions self
  /\ (Ethereum.trace after = Ethereum.trace self
      \/ Ethereum.trace after
         = (Ethereum.trace self ++ [EvRequest "eth_chainId" None])%list).
Proof.
  unfold EthereumTransactionManager.create_transaction, Ethereum.get_chain_id,
    Ethereum.connect, Ethereum.provider_is_connected,
    Ethereum.provider_request, Ethereum.set_connected,
    m_try, m_bind, m_lift, m_raise, m_ret.
  repeat break_match; simpl in *;
    repeat match goal with
           | E : (_, _) = (_, _) |- _ => inversion E; subst; clear E
           end;
    simpl; (split; [reflexivity |]); auto.
Qed.

Lemma is_none_true (x : pyval) : is_none x = true -> x = PNone.
Proof. now destruct x. Qed.

Section Send.
Context {W : Type} `{Node W}.
Variable int_of_hex : string -> res Z.
Variable float_of_str : string -> res spec_float.
Variable str_of_float : spec_float -> string.

(** X14.  [send] without a gas price never returns: it raises on every
    input, sends no "eth_sendRawTransaction" and leaves the pending
    transactions as they were.  With a wallet, a valid recipient and a
    valid amount on a known network the exception is the builder's "Gas
    price is required for legacy transactions". *)
Theorem send_without_gas_price_never_sends (self : Ethereum.t W)
    (to : string) (amount : ERC20Token.amount) (gas_limit : pyval) :
  let '(out, after) :=
    EthereumNetwork.send int_of_hex float_of_str str_of_float to amount
      gas_limit PNone self in
  is_ret out = false
  /\ Ethereum._pending_transactions after
     = Ethereum._pending_transactions self
  /\ (exists new,
        Ethereum.trace after = (Ethereum.trace self ++ new)%list
        /\ forallb (fun ev => negb (requested "eth_sendRawTransaction" ev))
             new = true)
  /\ forall wallet wei id,
       Ethereum._wallet self = Some wallet ->
       Validation.is_eth_address to = true ->
       Checks.is_valid_amount int_of_hex float_of_str
         (EthereumNetwork.given amount) = Ret true ->
       EthereumNetwork.to_wei amount = Ret wei ->
       dict_get Ethereum.NETWORKS (Ethereum._network self) = Some id ->
       out = Raise EthereumTransactionBuilder.gas_price_required.
Proof.
  assert (Hsame : exists new : list event,
            Ethereum.trace self = (Ethereum.trace self ++ new)%list
            /\ forallb (fun ev => negb (requested "eth_sendRawTransaction" ev))
                 new = true).
  { exists []. now rewrite app_nil_r. }
  unfold EthereumNetwork.send.
  destruct (Ethereum._wallet self) as [wallet |] eqn:Ew;
    [| repeat split; [exact Hsame | discriminate]].
  destruct (Validation.is_eth_address to) eqn:Ea; simpl;
    [| repeat split; [exact Hsame | discriminate]].
  unfold m_bind at 1. unfold m_lift at 1.
  destruct (Checks.is_valid_amount _ _ _) as [[] | e] eqn:Ev; simpl;
    [| repeat split; [exact Hsame | discriminate]
     | repeat split; [exact Hsame | discriminate]].
  unfold m_bind at 1. unfold m_lift at 1.
  destruct (EthereumNetwork.to_wei amount) as [wei |] eqn:Et;
    [| repeat split; [exact Hsame | discriminate]].
  unfold m_bind at 1.
  pose proof (create_transaction_trace self) as Hc.
  destruct (EthereumTransactionManager.create_transaction self)
    as [[b | e] self1] eqn:Ec; destruct Hc as [Hp Ht].
  2: { repeat split; [exact Hp | | ].
       - destruct Ht as [-> | ->]; [exact Hsame |].
         eexists [_]. split; reflexivity.
       - intros wallet' wei' id _ _ _ _ Hid.
         destruct (create_transaction_known self id Hid) as (a & E & _).
         congruence. }
  destruct (create_transaction_fresh _ _ _ Ec) as [id ->].
  unfold m_bind, m_lift. cbv zeta. change (is_none PNone) with true.
  cbv iota.
  assert (Eb : forall b,
            EthereumTransactionBuilder._to b = PStr to ->
            EthereumTransactionBuilder._type b = 0 ->
            EthereumTransactionBuilder._gas_price b = PNone ->
            EthereumTransactionBuilder.build b
            = Raise EthereumTransactionBuilder.gas_price_required).
  { intros b E1 E2 E3. unfold EthereumTransactionBuilder.build.
    now rewrite E1, E2, E3. }
  rewrite Eb by (destruct (is_none gas_limit); reflexivity).
  repeat split; [exact Hp |].
  destruct Ht as [-> | ->]; [exact Hsame |].
  eexists [_]. split; reflexivity.
Qed.
End Send.

Section SendMore.
Context {W : Type} `{Node W}.
Variable int_of_hex : string -> res Z.
Variable float_of_str : string -> res spec_float.
Variable str_of_float : spec_float -> string.

(** X15.  [send] with a gas price, from a connected object with a wallet
    on a known network, to a valid recipient and with a valid amount: when
    the node answers the one "eth_sendRawTransaction" request with a
    result, [send] returns that result and stores under it the signed
    transaction, which carries the recipient, the amount in wei, the gas
    price and the gas limit given, empty data and no nonce. *)
Theorem send_with_gas_price_stores_the_transaction (self : Ethereum.t W)
    (wallet : Wallet.t) (to : string) (amount : ERC20Token.amount)
    (wei id : Z) (gas_limit gas_price response tx_hash : pyval)
    (key : pykey) (w : W)
    (Hwallet : Ethereum._wallet self = Some wallet)
    (Hto : Validation.is_eth_address to = true)
    (Hvalid : Checks.is_valid_amount int_of_hex float_of_str
                (EthereumNetwork.given amount) = Ret true)
    (Hwei : EthereumNetwork.to_wei amount = Ret wei)
    (Hnetwork : dict_get Ethereum.NETWORKS (Ethereum._network self) = Some id)
    (Hconnected : Ethereum._connected self = true)
    (Hprice : is_none gas_price = false)
    (Hrequest : request "eth_sendRawTransaction"
                  (Some [PStr ("0x" +:+ PyStr.times "ff" 256)])
                  (Ethereum.provider self) = (Ret response, w))
    (Hresult : getitem response "result" = Ret tx_hash)
    (Hkey : hash_key tx_hash = Ret key) :
  exists after,
    EthereumNetwork.send int_of_hex float_of_str str_of_float to amount
      gas_limit gas_price self = (Ret tx_hash, after)
    /\ Ethereum._pending_transactions after
       = <[key :=
             EthereumTransaction.sign
               (Wallet.export_private_key "ethereum" wallet)
               (EthereumTransaction.init (PStr to) (PInt wei) gas_price
                  gas_limit PNone PNone id)]>
           (Ethereum._pending_transactions self)
    /\ Ethereum.trace after
       = (Ethereum.trace self
          ++ [EvRequest "eth_sendRawTransaction"
                (Some [PStr ("0x" +:+ PyStr.times "ff" 256)])])%list.
Proof.
  unfold EthereumNetwork.send. rewrite Hwallet, Hto. simpl negb. cbv iota.
  unfold m_bind at 1. unfold m_lift at 1. rewrite Hvalid. simpl negb.
  cbv iota.
  unfold m_bind at 1. unfold m_lift at 1. rewrite Hwei.
  unfold m_bind at 1. cbn [negb]. cbv beta iota.
  destruct (create_transaction_known self id Hnetwork)
    as (self1 & -> & _ & _ & Hs).
  rewrite (Hs Hconnected). clear Hs self1.
  cbv zeta. rewrite Hprice.
  assert (Eb : forall b,
            is_none (EthereumTransactionBuilder._to b) = false ->
            EthereumTransactionBuilder._type b = 0 ->
            is_none (EthereumTransactionBuilder._gas_price b) = false ->
            EthereumTransactionBuilder.build b
            = Ret (EthereumTransaction.init
                     (EthereumTransactionBuilder._to b)
                     (EthereumTransactionBuilder._value b)
                     (EthereumTransactionBuilder._gas_price b)
                     (EthereumTransactionBuilder._gas_limit b)
                     (EthereumTransactionBuilder._data b)
                     (EthereumTransactionBuilder._nonce b)
                     (EthereumTransactionBuilder._chain_id b))).
  { intros b E1 E2 E3. unfold EthereumTransactionBuilder.build.
    now rewrite E1, E2, E3. }
  unfold m_bind at 1. unfold m_lift at 1.
  rewrite Eb by (destruct (is_none gas_limit); simpl; auto).
  set (tx := EthereumTransaction.sign _ _).
  assert (Etx : tx = EthereumTransaction.sign
                       (Wallet.export_private_key "ethereum" wallet)
                       (EthereumTransaction.init (PStr to) (PInt wei)
                          gas_price gas_limit PNone PNone id)).
  { subst tx. destruct (is_none gas_limit) eqn:Eg; [| reflexivity].
    apply is_none_true in Eg. now subst gas_limit. }
  clearbody tx.
  destruct (broadcast_success tx self ("0x" +:+ PyStr.times "ff" 256)
              response tx_hash key w) as (after & Eb' & Hp & _);
    try assumption.
  { now subst tx. }
  exists after. rewrite Eb'. split; [reflexivity |].
  split; [now rewrite Hp, Etx |].
  pose proof (broadcast_trace tx self) as Ht. rewrite Eb' in Ht.
  subst tx. destruct Ht as (serialized & Es & Ht).
  injection Es as <-. exact Ht.
Qed.

(** X16.  What [send] rejects, it rejects before anything happens, the
    object unchanged: a missing wallet, then an invalid recipient, then a
    negative integer, a negative float or a NaN as "Invalid amount".  Plus
    infinity passes as an amount and fails in the conversion to wei with
    an [OverflowError]. *)
Theorem send_rejects_before_the_network (self : Ethereum.t W) (to : string)
    (amount : ERC20Token.amount) (gas_limit gas_price : pyval) :
  let out :=
    EthereumNetwork.send int_of_hex float_of_str str_of_float to amount
      gas_limit gas_price self in
  (Ethereum._wallet self = None ->
   out = (Raise (ValueError "No wallet set"), self))
  /\ (Ethereum._wallet self <> None ->
      Validation.is_eth_address to = false ->
      out = (Raise (EthereumNetwork.invalid_address to), self))
  /\ (Ethereum._wallet self <> None ->
      Validation.is_eth_address to = true ->
      forall n, amount = ERC20Token.AmountInt n -> n < 0 ->
      out = (Raise (ValueError ("Invalid amount: " +:+ PyStr.of_Z n)), self))
  /\ (Ethereum._wallet self <> None ->
      Validation.is_eth_address to = true ->
      forall x, amount = ERC20Token.AmountFloat x ->
      match x with
      | S754_nan => True
      | S754_infinity sign | S754_finite sign _ _ => sign = true
      | S754_zero _ => False
      end ->
      out = (Raise (ValueError ("Invalid amount: " +:+ str_of_float x)),
             self))
  /\ (Ethereum._wallet self <> None ->
      Validation.is_eth_address to = true ->
      amount = ERC20Token.AmountFloat (S754_infinity false) ->
      out = (Raise (OverflowError "cannot convert float infinity to integer"),
             self)).
Proof.
  unfold EthereumNetwork.send.
  destruct (Ethereum._wallet self) as [wallet |].
  2: { repeat split; congruence. }
  split; [discriminate |].
  destruct (Validation.is_eth_address to); simpl.
  2: { repeat split; congruence. }
  split; [discriminate |].
  split; [| split].
  - intros _ _ n -> Hn. unfold m_bind, m_lift. simpl.
    destruct (0 <=? n) eqn:E; [apply Z.leb_le in E; lia | reflexivity].
  - intros _ _ x -> Hx. unfold m_bind, m_lift. simpl.
    destruct x as [[] | [] | | [] m e]; try contradiction; try discriminate;
      reflexivity.
  - intros _ _ ->. reflexivity.
Qed.

End SendMore.

Lemma send_with_gas_price_stores_the_transaction_witness :
  let self :=
    Ethereum.mk (Some scripted_wallet) "mainnet" true
      (ScriptedNode.mk [ScriptedNode.response (PStr "0xabc")] 0) ∅ [] in
  let to := "0x1234567890123456789012345678901234567890" in
  exists after,
    EthereumNetwork.send (fun _ => Ret 0) (fun _ => Ret (S754_zero false))
      (fun _ => "") to (ERC20Token.AmountInt 5) PNone (PInt 20000000000) self
    = (Ret (PStr "0xabc"), after)
    /\ Ethereum._pending_transactions after
       = <[KStr "0xabc" :=
             EthereumTransaction.sign
               (Wallet.export_private_key "ethereum" scripted_wallet)
               (EthereumTransaction.init (PStr to) (PInt 5)
                  (PInt 20000000000) PNone PNone PNone 1)]> ∅
    /\ Ethereum.trace after
       = [EvRequest "eth_sendRawTransaction"
            (Some [PStr ("0x" +:+ PyStr.times "ff" 256)])].
Proof.
  intros self to.
  apply (send_with_gas_price_stores_the_transaction
           (fun _ => Ret 0) (fun _ => Ret (S754_zero false)) (fun _ => "")
           self scripted_wallet to (ERC20Token.AmountInt 5) 5 1 PNone
           (PInt 20000000000)
           (PDict [("result", PStr "0xabc"); ("id", PInt 1)]) (PStr "0xabc")
           (KStr "0xabc") (ScriptedNode.mk [] 1));
    reflexivity.
Defined.

Section Balance.
Context {W : Type} `{Node W}.
Variable sha256_hexdigest : string -> string.

(** X17.  [get_balance] raises a [ValueError] without touching the
    object when there is neither address nor wallet, or when the address
    is not an Ethereum address.  For a valid address it makes exactly one
    request, "eth_getBalance" for the address at "latest", and whatever
    fails then is raised as an [Exception] "Failed to get balance: ..."
    with the message of the cause. *)
Theorem get_balance_checks_the_address_first (self : Ethereum.t W)
    (a : string) :
  (Ethereum._wallet self = None ->
   EthereumNetwork.get_balance sha256_hexdigest None self
   = (Raise (ValueError "No address provided and no wallet set"), self))
  /\ (Validation.is_eth_address a = false ->
      EthereumNetwork.get_balance sha256_hexdigest (Some a) self
      = (Raise (EthereumNetwork.invalid_address a), self))
  /\ (Validation.is_eth_address a = true ->
      let '(out, after) :=
        EthereumNetwork.get_balance sha256_hexdigest (Some a) self in
      Ethereum.trace after
      = (Ethereum.trace self
         ++ [EvRequest "eth_getBalance" (Some [PStr a; PStr "latest"])])%list
      /\ Ethereum._pending_transactions after
         = Ethereum._pending_transactions self
      /\ match out with
         | Ret _ => True
         | Raise e =>
             exists cause,
               e = Exception ("Failed to get balance: " +:+ exn_str cause)
         end).
Proof.
  unfold EthereumNetwork.get_balance. split; [| split].
  - intros Hw. unfold m_bind. now rewrite Hw.
  - intros Ha. unfold m_bind at 1. unfold m_ret at 1. now rewrite Ha.
  - intros Ha. unfold m_bind at 1. unfold m_ret at 1. rewrite Ha.
    cbn [negb]. cbv beta iota. unfold m_bind at 1.
    pose proof (ensure_connected_effect self) as Hc.
    destruct (EthereumNetwork.ensure_connected self) as [[c | e] self1];
      destruct Hc as (Hr & Ht & Hp & _); [| discriminate].
    rewrite <- Ht, <- Hp.
    unfold m_try, m_bind, m_lift, m_raise, Ethereum.provider_request.
    destruct (request "eth_getBalance" _ (Ethereum.provider self1))
      as [[response | cause] w]; simpl; [| now eauto].
    destruct (getitem response "result") as [result | cause]; simpl;
      [| now eauto].
    destruct (int16 result) as [n | cause]; simpl; now eauto.
Qed.

End Balance.

Lemma get_status_keeps_pending {W : Type} `{Node W} (tx_hash : pyval)
    (self : Ethereum.t W) :
  Ethereum._pending_transactions
    (snd (EthereumTransactionManager.get_status tx_hash self))
  = Ethereum._pending_transactions self.
Proof.
  unfold EthereumTransactionManager.get_status, m_try, m_bind, m_ret.
  pose proof (get_receipt_effect tx_hash self) as (_ & _ & Hp).
  destruct (EthereumTransactionManager.get_receipt tx_hash self)
    as [[[receipt |] | e] after]; simpl in *; try assumption.
  now destruct (TransactionReceipt.status receipt).
Qed.

Lemma time_sleep_keeps_pending {W : Type} `{Node W} (seconds : Z)
    (self : Ethereum.t W) :
  Ethereum._pending_transactions (snd (Ethereum.time_sleep seconds self))
  = Ethereum._pending_transactions self.
Proof.
  unfold Ethereum.time_sleep.
  now destruct (sleep seconds (Ethereum.provider self)).
Qed.

Lemma wait_loop_keeps_pending {W : Type} `{Node W} (fuel : nat)
    (tx_hash : pyval) (timeout poll_interval start_time : Z)
    (self after : Ethereum.t W) (out : res TransactionReceipt.t) :
  EthereumTransactionManager.wait_loop fuel tx_hash timeout poll_interval
    start_time self = Some (out, after) ->
  Ethereum._pending_transactions after = Ethereum._pending_transactions self.
Proof.
  revert self. induction fuel as [| fuel IH]; intros self; simpl;
    [discriminate |].
  destruct (_ <? _); [| intros E; now inversion E].
  pose proof (get_receipt_effect tx_hash self) as (_ & _ & Hp).
  destruct (EthereumTransactionManager.get_receipt tx_hash self)
    as [[[receipt |] | e] self1]; simpl in Hp;
    try (intros E; inversion E; subst; exact Hp).
  pose proof (time_sleep_keeps_pending poll_interval self1) as Hs.
  destruct (Ethereum.time_sleep poll_interval self1) as [[[] | e] self2];
    simpl in Hs.
  - intros E. apply IH in E. congruence.
  - intros E. inversion E; subst. congruence.
Qed.

(** X18.  A pending transaction is never removed: after [get_status],
    [get_receipt] or [wait_for_receipt] of any hash, whatever they return,
    every stored transaction is still stored under its key, a confirmed
    one too. *)
Theorem pending_transactions_are_never_removed {W : Type} `{Node W}
    (tx : EthereumTransaction.t) (key : pykey) (tx_hash : pyval)
    (self : Ethereum.t W)
    (Hpending : Ethereum._pending_transactions self !! key = Some tx) :
  Ethereum._pending_transactions
    (snd (EthereumTransactionManager.get_status tx_hash self)) !! key
  = Some tx
  /\ Ethereum._pending_transactions
       (snd (EthereumTransactionManager.get_receipt tx_hash self)) !! key
     = Some tx
  /\ forall fuel timeout poll_interval out after,
       EthereumNetwork.wait_for_receipt fuel tx_hash timeout poll_interval
         self = Some (out, after) ->
       Ethereum._pending_transactions after !! key = Some tx.
Proof.
  split; [| split].
  - now rewrite get_status_keeps_pending.
  - pose proof (get_receipt_effect tx_hash self) as (_ & _ & Hp).
    simpl in Hp. now rewrite Hp.
  - intros fuel timeout poll_interval out after E.
    apply wait_loop_keeps_pending in E. now rewrite E.
Qed.

Lemma pending_transactions_are_never_removed_witness :
  let tx :=
    EthereumTransaction.sign "k"
      (EthereumTransaction.init (PStr "0xaa") (PInt 1) (PInt 2) PNone PNone
         PNone 1) in
  let self :=
    Ethereum.mk (Some scripted_wallet) "mainnet" true
      (ScriptedNode.mk [ScriptedNode.response (ScriptedNode.receipt_json "0x1")]
         0)
      (<[KStr "0xabc" := tx]> ∅) [] in
  fst (EthereumTransactionManager.get_status (PStr "0xabc") self)
  = Ret TransactionStatus.CONFIRMED
  /\ Ethereum._pending_transactions
       (snd (EthereumTransactionManager.get_status (PStr "0xabc") self))
     !! KStr "0xabc" = Some tx.
Proof.
  intros tx self. split; [reflexivity |].
  apply (pending_transactions_are_never_removed tx (KStr "0xabc")
           (PStr "0xabc") self).
  reflexivity.
Defined.

(** X19.  [get_nonce] and [get_block_number] make one request each,
    "eth_getTransactionCount" for the address at "latest" and
    "eth_blockNumber", and raise nothing but an [Exception] that names
    the operation and carries the message of the cause: a transport
    failure, a response without "result", a result that is no number.
    [get_nonce] does not try to connect. *)
Theorem node_queries_wrap_every_failure {W : Type} `{Node W}
    (address : string) (self : Ethereum.t W) :
  (let '(out, after) := EthereumNetwork.get_nonce address self in
   Ethereum.trace after
   = (Ethereum.trace self
      ++ [EvRequest "eth_getTransactionCount"
            (Some [PStr address; PStr "latest"])])%list
   /\ Ethereum._connected after = Ethereum._connected self
   /\ match out with
      | Ret _ => True
      | Raise e =>
          exists cause,
            e = Exception ("Failed to get nonce: " +:+ exn_str cause)
      end)
  /\ (let '(out, after) := EthereumNetwork.get_block_number self in
      Ethereum.trace after
      = (Ethereum.trace self ++ [EvRequest "eth_blockNumber" None])%list
      /\ match out with
         | Ret _ => True
         | Raise e =>
             exists cause,
               e = Exception ("Failed to get block number: "
                              +:+ exn_str cause)
         end).
Proof.
  split.
  - unfold EthereumNetwork.get_nonce, m_try, m_bind, m_lift, m_raise,
      Ethereum.provider_request.
    destruct (request "eth_getTransactionCount" _ (Ethereum.provider self))
      as [[response | cause] w]; simpl; [| now eauto].
    destruct (getitem response "result") as [result | cause]; simpl;
      [| now eauto].
    destruct (int16 result) as [n | cause]; simpl; now eauto.
  - unfold EthereumNetwork.get_block_number. unfold m_bind at 1.
    pose proof (ensure_connected_effect self) as Hc.
    destruct (EthereumNetwork.ensure_connected self) as [[c | e] self1];
      destruct Hc as (Hr & Ht & _); [| discriminate].
    rewrite <- Ht.
    unfold m_try, m_bind, m_lift, m_raise, Ethereum.provider_request.
    destruct (request "eth_blockNumber" None (Ethereum.provider self1))
      as [[response | cause] w]; simpl; [| now eauto].
    destruct (getitem response "result") as [result | cause]; simpl;
      [| now eauto].
    destruct (int16 result) as [n | cause]; simpl; now eauto.
Qed.

Example get_nonce_without_result :
  fst (EthereumNetwork.get_nonce "0xaa"
         (ScriptedNode.ethereum None [Ret (PDict [("id", PInt 1)])]))
  = Raise (Exception "Failed to get nonce: 'result'").
Proof. reflexivity. Qed.

(** ** Contract calls *)

Lemma dict_get_remove (kv : list (string * pyval)) (k k' : string) :
  dict_get (dict_remove kv k) k'
  = if String.eqb k' k then None else dict_get kv k'.
Proof.
  induction kv as [| [k0 v] kv IH]; simpl.
  - now destruct (String.eqb k' k).
  - destruct (String.eqb_spec k k0) as [<- | Hk0]; simpl.
    + rewrite IH. now destruct (String.eqb k' k).
    + rewrite IH. destruct (String.eqb_spec k' k0) as [-> | Hk'].
      * destruct (String.eqb_spec k0 k); [congruence | reflexivity].
      * reflexivity.
Qed.

Lemma dict_get_app_one (kv : list (string * pyval)) (k k' : string)
    (v : pyval) :
  dict_get (kv ++ [(k, v)])%list k'
  = match dict_get kv k' with
    | Some x => Some x
    | None => if String.eqb k' k then Some v else None
    end.
Proof.
  induction kv as [| [k0 v0] kv IH]; simpl; [reflexivity |].
  now destruct (String.eqb k' k0).
Qed.

(** what one turn of the loop does to the lookups *)
Lemma extract_step (tx_options kwargs : list (string * pyval))
    (key k : string) :
  let '(tx_options', kwargs') :=
    match dict_get kwargs key with
    | Some v => ((tx_options ++ [(key, v)])%list, dict_remove kwargs key)
    | None => (tx_options, kwargs)
    end in
  dict_get kwargs' k
  = (if String.eqb k key then None else dict_get kwargs k)
  /\ dict_get tx_options' k
     = match dict_get tx_options k with
       | Some x => Some x
       | None => if String.eqb k key then dict_get kwargs key else None
       end.
Proof.
  destruct (dict_get kwargs key) as [v |] eqn:E.
  - rewrite dict_get_remove, dict_get_app_one. split; reflexivity.
  - split.
    + destruct (String.eqb_spec k key) as [-> | ?]; [exact E | reflexivity].
    + destruct (dict_get tx_options k); [reflexivity |].
      now destruct (String.eqb k key).
Qed.

Lemma extract_tx_options_lookup (kwargs : list (string * pyval)) (k : string) :
  let '(tx_options, rest) := ContractFunction.extract_tx_options kwargs in
  if Validation.one_of k ContractFunction.tx_option_keys
  then dict_get tx_options k = dict_get kwargs k /\ dict_get rest k = None
  else dict_get tx_options k = None /\ dict_get rest k = dict_get kwargs k.
Proof.
  unfold ContractFunction.extract_tx_options, ContractFunction.tx_option_keys.
  cbn [fold_left].
  pose proof (extract_step [] kwargs "gas" k) as H1.
  destruct (match dict_get kwargs "gas" with
            | Some v => (([] ++ [("gas", v)])%list, dict_remove kwargs "gas")
            | None => ([], kwargs)
            end) as [o1 r1] eqn:E1.
  pose proof (extract_step o1 r1 "gas_price" k) as H2.
  destruct (match dict_get r1 "gas_price" with
            | Some v => ((o1 ++ [("gas_price", v)])%list,
                         dict_remove r1 "gas_price")
            | None => (o1, r1)
            end) as [o2 r2] eqn:E2.
  pose proof (extract_step o2 r2 "value" k) as H3.
  destruct (match dict_get r2 "value" with
            | Some v => ((o2 ++ [("value", v)])%list, dict_remove r2 "value")
            | None => (o2, r2)
            end) as [o3 r3] eqn:E3.
  pose proof (extract_step o3 r3 "nonce" k) as H4.
  destruct (match dict_get r3 "nonce" with
            | Some v => ((o3 ++ [("nonce", v)])%list, dict_remove r3 "nonce")
            | None => (o3, r3)
            end) as [o4 r4] eqn:E4.
  destruct H1 as [R1 O1], H2 as [R2 O2], H3 as [R3 O3], H4 as [R4 O4].
  simpl in O1.
  assert (G1 : dict_get r1 "gas_price" = dict_get kwargs "gas_price").
  { pose proof (extract_step [] kwargs "gas" "gas_price") as X.
    rewrite E1 in X. now destruct X as [-> _]. }
  assert (G2 : dict_get r2 "value" = dict_get kwargs "value").
  { pose proof (extract_step o1 r1 "gas_price" "value") as X.
    rewrite E2 in X. destruct X as [-> _].
    pose proof (extract_step [] kwargs "gas" "value") as Y.
    rewrite E1 in Y. now destruct Y as [-> _]. }
  assert (G3 : dict_get r3 "nonce" = dict_get kwargs "nonce").
  { pose proof (extract_step o2 r2 "value" "nonce") as X.
    rewrite E3 in X. destruct X as [-> _].
    pose proof (extract_step o1 r1 "gas_price" "nonce") as Y.
    rewrite E2 in Y. destruct Y as [-> _].
    pose proof (extract_step [] kwargs "gas" "nonce") as Z.
    rewrite E1 in Z. now destruct Z as [-> _]. }
  unfold Validation.one_of. cbn [existsb].
  rewrite O4, O3, O2, O1, R4, R3, R2, R1, G1, G2, G3.
  destruct (String.eqb_spec k "gas") as [-> | ?]; simpl.
  { now destruct (dict_get kwargs "gas"). }
  destruct (String.eqb_spec k "gas_price") as [-> | ?]; simpl.
  { now destruct (dict_get kwargs "gas_price"). }
  destruct (String.eqb_spec k "value") as [-> | ?]; simpl.
  { now destruct (dict_get kwargs "value"). }
  destruct (String.eqb_spec k "nonce") as [-> | ?]; simpl.
  { now destruct (dict_get kwargs "nonce"). }
  now split.
Qed.

(** X20.  The keywords "gas", "gas_price", "value" and "nonce" of a
    contract call are always taken as transaction options and never
    reach the binding of arguments, also when the function has a
    parameter of that name; every other keyword is left for the binding,
    and the options a successful call goes on with are exactly those
    taken. *)
Theorem options_are_taken_from_the_keywords (f : ContractFunction.t)
    (args : list pyval) (kwargs : list (string * pyval)) :
  let '(tx_options, rest) := ContractFunction.extract_tx_options kwargs in
  (forall k,
     Validation.one_of k ["gas"; "gas_price"; "value"; "nonce"] = true ->
     dict_get tx_options k = dict_get kwargs k /\ dict_get rest k = None)
  /\ (forall k,
        Validation.one_of k ["gas"; "gas_price"; "value"; "nonce"] = false ->
        dict_get tx_options k = None /\ dict_get rest k = dict_get kwargs k)
  /\ (forall combined_args given_options,
        ContractFunction.bind_arguments f args kwargs
        = Ret (combined_args, given_options) ->
        given_options = tx_options
        /\ ContractFunction.map_keywords 0 (ContractFunction.inputs f)
             (length args) rest args = Ret combined_args).
Proof.
  pose proof (extract_tx_options_lookup kwargs) as Hl.
  unfold ContractFunction.bind_arguments.
  destruct (ContractFunction.extract_tx_options kwargs) as [o rest].
  split; [| split].
  - intros k Hk. specialize (Hl k).
    change ContractFunction.tx_option_keys
      with ["gas"; "gas_price"; "value"; "nonce"] in Hl.
    now rewrite Hk in Hl.
  - intros k Hk. specialize (Hl k).
    change ContractFunction.tx_option_keys
      with ["gas"; "gas_price"; "value"; "nonce"] in Hl.
    now rewrite Hk in Hl.
  - intros combined given E.
    destruct (_ <? _)%nat; [discriminate |].
    destruct (ContractFunction.map_keywords _ _ _ _ _) as [cmb |];
      [| discriminate].
    simpl in E. destruct (_ <? _)%nat.
    + destruct (ContractFunction.names_of _); discriminate.
    + injection E as <- <-. now split.
Qed.

Lemma find_function_dir (abi : list abi_item) (is_write : bool)
    (name : string) :
  In (Some name) (ContractListing.dir abi is_write)
  <-> is_Some (ContractFunctionGroup.find_function abi is_write name).
Proof.
  induction abi as [| item abi IH]; simpl.
  - split; [tauto | intros [f Hf]; discriminate].
  - unfold is_function_named, ContractListing.is_function.
    destruct (item_type item) as [ty |]; simpl; [| exact IH].
    destruct (String.eqb ty "function"); simpl; [| now destruct (item_name item)].
    destruct (negb (Bool.eqb (abi_is_constant item) is_write)).
    + destruct (item_name item) as [n |]; simpl.
      * destruct (String.eqb_spec n name) as [-> | Hn]; simpl.
        -- split; [intros _; eexists; reflexivity | intros _; now left].
        -- rewrite <- IH. split; [intros [E | Hin] | intros Hin].
           ++ congruence.
           ++ exact Hin.
           ++ now right.
      * rewrite <- IH. split; [intros [E | Hin] | intros Hin].
        -- discriminate.
        -- exact Hin.
        -- now right.
    + destruct (item_name item) as [n |]; simpl.
      * now rewrite andb_false_r.
      * exact IH.
Qed.

(** X22.  [__dir__] lists a name exactly when [__getattr__] on a fresh
    group of the same kind resolves it. *)
Theorem dir_lists_what_getattr_resolves (abi : list abi_item)
    (is_write : bool) (name : string) :
  In (Some name) (ContractListing.dir abi is_write)
  <-> is_ret (fst (ContractFunctionGroup.getattr abi name
                     (ContractFunctionGroup.init is_write))) = true.
Proof.
  rewrite find_function_dir.
  unfold ContractFunctionGroup.getattr. simpl. rewrite lookup_empty.
  destruct (ContractFunctionGroup.find_function abi is_write name); simpl.
  - split; [reflexivity | intros _; eexists; reflexivity].
  - split; [intros [f Hf]; discriminate | discriminate].
Qed.

(** X23.  [__getattr__] caches: asking a group again for the same name
    gives the same outcome and leaves the group as the first lookup left
    it.  A function found is stored under its name, no other name of the
    cache is touched, and the kind of the group never changes. *)
Theorem getattr_caches_the_function (abi : list abi_item) (name : string)
    (self : ContractFunctionGroup.t) :
  let '(out, after) := ContractFunctionGroup.getattr abi name self in
  ContractFunctionGroup.getattr abi name after = (out, after)
  /\ ContractFunctionGroup.is_write after
     = ContractFunctionGroup.is_write self
  /\ (forall function,
        out = Ret function ->
        ContractFunctionGroup._functions after !! name = Some function)
  /\ (forall other,
        other <> name ->
        ContractFunctionGroup._functions after !! other
        = ContractFunctionGroup._functions self !! other).
Proof.
  unfold ContractFunctionGroup.getattr.
  destruct (ContractFunctionGroup._functions self !! name) as [f |] eqn:El.
  - rewrite El. repeat split. intros f' E. now injection E as <-.
  - destruct (ContractFunctionGroup.find_function abi
                (ContractFunctionGroup.is_write self) name) as [f |] eqn:Ef.
    + simpl. rewrite lookup_insert_eq. repeat split.
      * intros f' E. now injection E as <-.
      * intros other Hne. now rewrite lookup_insert_ne by congruence.
    + rewrite El, Ef. repeat split. discriminate.
Qed.

(** X24.  What a read call returns for a function with two or more
    outputs is the undecoded result of the node once per output.  For a
    single "bool" output the value is False only for the results "0x"
    and "0x0": the 32-byte word of zeros, which encodes false, is
    returned as True. *)
Theorem decode_result_of_bool_and_tuples {W : Type} `{Node W}
    (result : pyval) :
  (forall o1 o2 outputs,
     EthereumContract.decode_result (o1 :: o2 :: outputs) result
     = Ret (PTuple (replicate (length (o1 :: o2 :: outputs)) result)))
  /\ (forall output,
        dict_get output "type" = Some "bool" ->
        exists b,
          EthereumContract.decode_result [output] result = Ret (PBool b)
          /\ (b = false <-> result = PStr "0x" \/ result = PStr "0x0"))
  /\ (forall output,
        dict_get output "type" = Some "bool" ->
        EthereumContract.decode_result [output]
          (PStr ("0x" +:+ PyStr.times "0" 64))
        = Ret (PBool true)).
Proof.
  split; [| split].
  - intros o1 o2 outputs. unfold EthereumContract.decode_result.
    f_equal. f_equal.
    generalize (o1 :: o2 :: outputs). intros l.
    induction l as [| x l IH]; simpl; [reflexivity | now rewrite IH].
  - intros output Ht. unfold EthereumContract.decode_result. rewrite Ht.
    simpl. eexists. split; [reflexivity |].
    unfold eq_str. destruct result as [| | | s | | | |]; simpl;
      try (split; [discriminate | intros [E | E]; discriminate]).
    destruct (String.eqb_spec s "0x") as [-> | H1]; simpl.
    { split; [now left | reflexivity]. }
    destruct (String.eqb_spec s "0x0") as [-> | H2]; simpl.
    { split; [now right | reflexivity]. }
    split; [discriminate | intros [E | E]; congruence].
  - intros output Ht. unfold EthereumContract.decode_result. rewrite Ht.
    reflexivity.
Qed.

Lemma transact_without_gas_price {W : Type} `{Node W}
    (function_name : string) (args : list pyval)
    (tx_options : list (string * pyval)) (c : EthereumContract.t W) :
  dict_get tx_options "gas_price" = None ->
  let '(out, c') :=
    EthereumContract._transact_function function_name args tx_options c in
  is_ret out = false
  /\ Ethereum._pending_transactions (EthereumContract.ethereum c')
     = Ethereum._pending_transactions (EthereumContract.ethereum c)
  /\ EthereumContract.abi c' = EthereumContract.abi c
  /\ EthereumContract.read c' = EthereumContract.read c
  /\ EthereumContract.write c' = EthereumContract.write c
  /\ (exists new,
        Ethereum.trace (EthereumContract.ethereum c')
        = (Ethereum.trace (EthereumContract.ethereum c) ++ new)%list
        /\ forallb (fun ev => negb (requested "eth_sendRawTransaction" ev))
             new = true)
  /\ (forall wallet id,
        Ethereum._wallet (EthereumContract.ethereum c) = Some wallet ->
        is_Some (EthereumContract.find_abi (EthereumContract.abi c)
                   function_name) ->
        dict_get Ethereum.NETWORKS
          (Ethereum._network (EthereumContract.ethereum c)) = Some id ->
        out = Raise EthereumTransactionBuilder.gas_price_required).
Proof.
  intros Hgp.
  assert (Hsame : exists new : list event,
            Ethereum.trace (EthereumContract.ethereum c)
            = (Ethereum.trace (EthereumContract.ethereum c) ++ new)%list
            /\ forallb (fun ev => negb (requested "eth_sendRawTransaction" ev))
                 new = true).
  { exists []. now rewrite app_nil_r. }
  unfold EthereumContract._transact_function.
  destruct (Ethereum._wallet (EthereumContract.ethereum c)) as [wallet |];
    [| repeat split; [exact Hsame | discriminate]].
  destruct (EthereumContract.find_abi (EthereumContract.abi c) function_name)
    as [function_abi |];
    [| repeat split; [exact Hsame |];
       intros ? ? _ [x Hx]; discriminate].
  unfold m_bind at 1. unfold EthereumContract.on_ethereum at 1.
  pose proof (create_transaction_trace (EthereumContract.ethereum c)) as Hc.
  destruct (EthereumTransactionManager.create_transaction
              (EthereumContract.ethereum c)) as [[b | e] eth1] eqn:Ec;
    destruct Hc as [Hp Ht].
  2: { repeat split; [exact Hp | |].
       - destruct Ht as [Ht | Ht]; cbn [EthereumContract.ethereum];
           rewrite Ht; [exact Hsame |].
         eexists [_]. split; reflexivity.
       - intros wallet' id _ _ Hid.
         destruct (create_transaction_known _ id Hid) as (a & E & _).
         congruence. }
  destruct (create_transaction_fresh _ _ _ Ec) as [id ->].
  cbv zeta. unfold m_bind, m_lift.
  assert (Eb : forall b,
            is_none (EthereumTransactionBuilder._to b) = false ->
            EthereumTransactionBuilder._type b = 0 ->
            EthereumTransactionBuilder._gas_price b = PNone ->
            EthereumTransactionBuilder.build b
            = Raise EthereumTransactionBuilder.gas_price_required).
  { intros b E1 E2 E3. unfold EthereumTransactionBuilder.build.
    now rewrite E1, E2, E3. }
  rewrite Eb.
  - repeat split; [exact Hp |].
    destruct Ht as [Ht | Ht]; cbn [EthereumContract.ethereum];
      rewrite Ht; [exact Hsame |].
    eexists [_]. split; reflexivity.
  - unfold EthereumContract.set_if_given.
    repeat match goal with
           | |- context [dict_get ?o ?k] => destruct (dict_get o k)
           end; reflexivity.
  - unfold EthereumContract.set_if_given.
    repeat match goal with
           | |- context [dict_get ?o ?k] => destruct (dict_get o k)
           end; reflexivity.
  - unfold EthereumContract.set_if_given. rewrite Hgp.
    repeat match goal with
           | |- context [dict_get ?o ?k] => destruct (dict_get o k)
           end; reflexivity.
Qed.

Lemma find_abi_of_item (abi : list abi_item) (name : string)
    (item : abi_item) :
  In item abi -> is_function_named name item = true ->
  is_Some (EthereumContract.find_abi abi name).
Proof.
  unfold EthereumContract.find_abi.
  induction abi as [| x abi IH]; simpl; [tauto |].
  intros [-> | Hin] Hn.
  - rewrite Hn. now eexists.
  - destruct (is_function_named name x); [now eexists | auto].
Qed.

(** a function of the write facade, called without a gas price *)
Lemma write_function_without_gas_price {W : Type} `{Node W}
    (c : EthereumContract.t W) (name : string) (f : ContractFunction.t)
    (args : list pyval) (kwargs : list (string * pyval)) :
  ContractFunctionGroup.find_function (EthereumContract.abi c) true name
  = Some f ->
  dict_get kwargs "gas_price" = None ->
  let '(out, c') := EthereumContract.call f args kwargs c in
  is_ret out = false
  /\ Ethereum._pending_transactions (EthereumContract.ethereum c')
     = Ethereum._pending_transactions (EthereumContract.ethereum c)
  /\ EthereumContract.abi c' = EthereumContract.abi c
  /\ EthereumContract.read c' = EthereumContract.read c
  /\ EthereumContract.write c' = EthereumContract.write c
  /\ (exists new,
        Ethereum.trace (EthereumContract.ethereum c')
        = (Ethereum.trace (EthereumContract.ethereum c) ++ new)%list
        /\ forallb (fun ev => negb (requested "eth_sendRawTransaction" ev))
             new = true)
  /\ (forall wallet id,
        Ethereum._wallet (EthereumContract.ethereum c) = Some wallet ->
        is_ret (ContractFunction.bind_arguments f args kwargs) = true ->
        dict_get Ethereum.NETWORKS
          (Ethereum._network (EthereumContract.ethereum c)) = Some id ->
        out = Raise EthereumTransactionBuilder.gas_price_required).
Proof.
  intros Hf Hgp.
  destruct (find_function_sound _ _ _ _ Hf) as (item & Hin & Hn & Hconst & ->).
  unfold EthereumContract.call, m_bind, m_lift.
  cbn [ContractFunction.constant ContractFunction.name
       ContractFunction.outputs].
  rewrite Hconst. cbn [negb].
  destruct (ContractFunction.bind_arguments _ args kwargs)
    as [[combined opts] | e] eqn:Eb.
  2: { repeat split; [| discriminate]. exists []. now rewrite app_nil_r. }
  assert (Ho : dict_get opts "gas_price" = None).
  { unfold ContractFunction.bind_arguments in Eb.
    pose proof (extract_tx_options_lookup kwargs "gas_price") as Hl.
    destruct (ContractFunction.extract_tx_options kwargs) as [o rest].
    simpl in Hl. destruct Hl as [Hl _].
    destruct (_ <? _)%nat; [discriminate |].
    destruct (ContractFunction.map_keywords _ _ _ _ _) as [cmb |];
      [| discriminate].
    simpl in Eb. destruct (_ <? _)%nat.
    - destruct (ContractFunction.names_of _); discriminate.
    - injection Eb as _ <-. congruence. }
  cbn [fst snd].
  pose proof (transact_without_gas_price name combined opts c Ho) as Ht.
  destruct (EthereumContract._transact_function name combined opts c)
    as [out c'].
  destruct Ht as (Hret & Hp & Ha & Hrd & Hwr & Htr & Hexact).
  repeat split; try assumption.
  intros wallet id Hw _ Hid. apply (Hexact wallet id Hw); [| exact Hid].
  now apply (find_abi_of_item _ _ item).
Qed.

Lemma getattr_function {W : Type} `{Node W}
    (class_attribute : string -> bool) (is_write : bool) (name : string)
    (c c1 : EthereumContract.t W) (f : ContractFunction.t) :
  EthereumContract.consistent c ->
  (if is_write then EthereumContract.write_getattr class_attribute name c
   else EthereumContract.read_getattr class_attribute name c)
  = (Ret (EthereumContract.Function f), c1) ->
  ContractFunctionGroup.find_function (EthereumContract.abi c) is_write name
  = Some f
  /\ EthereumContract.abi c1 = EthereumContract.abi c
  /\ EthereumContract.ethereum c1 = EthereumContract.ethereum c
  /\ EthereumContract.consistent c1.
Proof.
  intros Hc Hget.
  pose proof (getattr_consistent class_attribute is_write name c Hc) as Hc1.
  rewrite Hget in Hc1. simpl in Hc1.
  destruct Hc as (Hr & Hw & Hres_r & Hres_w).
  destruct is_write.
  - unfold EthereumContract.write_getattr in Hget.
    destruct (EthereumContract.found_by_lookup class_attribute name);
      [discriminate |].
    destruct (ContractFunctionGroup.getattr (EthereumContract.abi c) name
                (EthereumContract.write c)) as [[f' | e] g] eqn:Eg;
      [| discriminate].
    simpl in Hget. injection Hget as -> <-.
    apply getattr_resolves in Eg as (Hf & _); [| assumption].
    rewrite Hw in Hf.
    split; [exact Hf | split; [reflexivity | split; [reflexivity | exact Hc1]]].
  - unfold EthereumContract.read_getattr in Hget.
    destruct (EthereumContract.found_by_lookup class_attribute name);
      [discriminate |].
    destruct (ContractFunctionGroup.getattr (EthereumContract.abi c) name
                (EthereumContract.read c)) as [[f' | e] g] eqn:Eg;
      [| discriminate].
    simpl in Hget. injection Hget as -> <-.
    apply getattr_resolves in Eg as (Hf & _); [| assumption].
    rewrite Hr in Hf.
    split; [exact Hf | split; [reflexivity | split; [reflexivity | exact Hc1]]].
Qed.

(** an attribute that is not found by lookup is a function or nothing *)
Lemma getattr_not_own {W : Type} `{Node W}
    (class_attribute : string -> bool) (is_write : bool) (name own : string)
    (c c1 : EthereumContract.t W) :
  EthereumContract.found_by_lookup class_attribute name = false ->
  (if is_write then EthereumContract.write_getattr class_attribute name c
   else EthereumContract.read_getattr class_attribute name c)
  <> (Ret (EthereumContract.Own own), c1).
Proof.
  intros Hl. destruct is_write;
    unfold EthereumContract.write_getattr, EthereumContract.read_getattr;
    rewrite Hl;
    destruct (ContractFunctionGroup.getattr _ _ _) as [[f | e] g];
    discriminate.
Qed.

Lemma getattr_raises {W : Type} `{Node W}
    (class_attribute : string -> bool) (is_write : bool) (name : string)
    (c c1 : EthereumContract.t W) (e : exn) :
  (if is_write then EthereumContract.write_getattr class_attribute name c
   else EthereumContract.read_getattr class_attribute name c)
  = (Raise e, c1) ->
  c1 = c.
Proof.
  destruct is_write;
    unfold EthereumContract.write_getattr, EthereumContract.read_getattr;
    (destruct (EthereumContract.found_by_lookup class_attribute name);
     [discriminate |]);
    destruct (ContractFunctionGroup.getattr _ _ _) as [[f | e'] g] eqn:Eg;
    try discriminate;
    apply getattr_raises_unchanged in Eg as ->;
    intros [= _ <-]; now destruct c.
Qed.

(** C1.  The specification has every call of a non-constant function
    build, sign and broadcast a transaction and return its hash.  In the
    code a function that the write facade resolves does come from an
    entry of the ABI that is not marked constant, and calling it takes
    the write path; but called without the keyword "gas_price" it never
    gets as far as signing: the builder is a legacy one, the write path
    sets a gas price only when the option is given, and [build] then
    raises.  Nothing is sent, no transaction becomes pending, and with a
    wallet, arguments that bind and a known network the exception is
    "Gas price is required for legacy transactions". *)
Theorem write_call_without_gas_price_raises {W : Type} `{Node W}
    (class_attribute : string -> bool) (c c1 : EthereumContract.t W)
    (name : string) (f : ContractFunction.t) (args : list pyval)
    (kwargs : list (string * pyval))
    (Hconsistent : EthereumContract.consistent c)
    (Hresolved :
       EthereumContract.write_getattr class_attribute name c
       = (Ret (EthereumContract.Function f), c1))
    (Hno_price : dict_get kwargs "gas_price" = None) :
  (exists item,
     In item (EthereumContract.abi c)
     /\ is_function_named name item = true
     /\ abi_is_constant item = false
     /\ ContractFunction.constant f = false)
  /\ let '(out, c2) := EthereumContract.call f args kwargs c1 in
     is_ret out = false
     /\ Ethereum._pending_transactions (EthereumContract.ethereum c2)
        = Ethereum._pending_transactions (EthereumContract.ethereum c)
     /\ (exists new,
           Ethereum.trace (EthereumContract.ethereum c2)
           = (Ethereum.trace (EthereumContract.ethereum c) ++ new)%list
           /\ forallb
                (fun ev => negb (requested "eth_sendRawTransaction" ev))
                new = true)
     /\ (forall wallet id,
           Ethereum._wallet (EthereumContract.ethereum c) = Some wallet ->
           is_ret (ContractFunction.bind_arguments f args kwargs) = true ->
           dict_get Ethereum.NETWORKS
             (Ethereum._network (EthereumContract.ethereum c)) = Some id ->
           out = Raise EthereumTransactionBuilder.gas_price_required).
Proof.
  destruct (getattr_function class_attribute true name c c1 f Hconsistent
              Hresolved) as (Hf & Habi & Heth & _).
  split.
  - destruct (find_function_sound _ _ _ _ Hf)
      as (item & Hin & Hn & Hconst & ->).
    exists item. now repeat split.
  - rewrite <- Habi in Hf.
    pose proof (write_function_without_gas_price c1 name f args kwargs
                  Hf Hno_price) as Hcall.
    destruct (EthereumContract.call f args kwargs c1) as [out c2].
    rewrite Heth in Hcall.
    destruct Hcall as (Hret & Hp & _ & _ & _ & Htr & Hexact).
    now repeat split.
Qed.

Lemma write_call_without_gas_price_raises_witness :
  let to := "0x1234567890123456789012345678901234567890" in
  let c := scripted_erc20 [ScriptedNode.response (PStr "0x3333")] in
  let transfer :=
    ContractFunction.mk "transfer"
      [param "_to" "address"; param "_value" "uint256"] [param "" "bool"]
      false in
  exists c1,
    EthereumContract.write_getattr ScriptedInterpreter.class_attribute
      "transfer" c
    = (Ret (EthereumContract.Function transfer), c1)
    /\ fst (EthereumContract.call transfer [PStr to; PInt 5] [] c1)
       = Raise (ValueError "Gas price is required for legacy transactions")
    /\ Ethereum.trace
         (EthereumContract.ethereum
            (snd (EthereumContract.call transfer [PStr to; PInt 5] [] c1)))
       = [].
Proof.
  intros to c transfer.
  assert (Hresolved :
            EthereumContract.write_getattr ScriptedInterpreter.class_attribute
              "transfer" c
            = (Ret (EthereumContract.Function transfer),
               snd (EthereumContract.write_getattr
                      ScriptedInterpreter.class_attribute "transfer" c)))
    by (vm_compute; reflexivity).
  eexists. split; [exact Hresolved |].
  destruct (write_call_without_gas_price_raises
              ScriptedInterpreter.class_attribute c _ "transfer" transfer
              [PStr to; PInt 5] []
              (conj eq_refl
                 (conj eq_refl
                    (conj (init_resolves ERC20_ABI false)
                       (init_resolves ERC20_ABI true))))
              Hresolved eq_refl) as (_ & Hcall).
  destruct (EthereumContract.call transfer [PStr to; PInt 5] [] _)
    as [out c2] eqn:Ecall.
  destruct Hcall as (_ & _ & _ & Hexact).
  split.
  - apply (Hexact scripted_wallet 1); reflexivity.
  - apply (f_equal snd) in Ecall. simpl in Ecall. subst c2.
    vm_compute. reflexivity.
Defined.

(** a call through the write facade under a name that the lookup does
    not find, without a gas price *)
Lemma write_call_without_gas_price {W : Type} `{Node W}
    (class_attribute : string -> bool)
    (call_class_attribute :
       string -> list pyval -> list (string * pyval)
       -> M (EthereumContract.t W) pyval)
    (name : string) (args : list pyval) (kwargs : list (string * pyval))
    (c : EthereumContract.t W) :
  EthereumContract.consistent c ->
  EthereumContract.found_by_lookup class_attribute name = false ->
  dict_get kwargs "gas_price" = None ->
  let '(out, c') :=
    (do function <- EthereumContract.write_getattr class_attribute name;
     EthereumContract.invoke call_class_attribute function args kwargs) c in
  is_ret out = false
  /\ Ethereum._pending_transactions (EthereumContract.ethereum c')
     = Ethereum._pending_transactions (EthereumContract.ethereum c).
Proof.
  intros Hc Hl Hgp. unfold m_bind.
  destruct (EthereumContract.write_getattr class_attribute name c)
    as [[[f | own] | e] c1] eqn:Eg.
  - destruct (getattr_function class_attribute true name c c1 f Hc Eg)
      as (Hf & Habi & Heth & _).
    rewrite <- Habi in Hf. cbn [EthereumContract.invoke].
    pose proof (write_function_without_gas_price c1 name f args kwargs
                  Hf Hgp) as Hcall.
    destruct (EthereumContract.call f args kwargs c1) as [out c2].
    rewrite Heth in Hcall. destruct Hcall as (Hret & Hp & _). now split.
  - exfalso. exact (getattr_not_own class_attribute true name own c c1 Hl Eg).
  - apply (getattr_raises class_attribute true) in Eg as ->. now split.
Qed.

(** a call through the read facade: nothing becomes pending, and the
    facades stay consistent *)
Lemma read_call_keeps_pending {W : Type} `{Node W}
    (class_attribute : string -> bool)
    (call_class_attribute :
       string -> list pyval -> list (string * pyval)
       -> M (EthereumContract.t W) pyval)
    (name : string) (args : list pyval) (c : EthereumContract.t W) :
  EthereumContract.consistent c ->
  EthereumContract.found_by_lookup class_attribute name = false ->
  let '(out, c') :=
    (do function <- EthereumContract.read_getattr class_attribute name;
     EthereumContract.invoke call_class_attribute function args []) c in
  Ethereum._pending_transactions (EthereumContract.ethereum c')
  = Ethereum._pending_transactions (EthereumContract.ethereum c)
  /\ EthereumContract.consistent c'.
Proof.
  intros Hc Hl. unfold m_bind.
  destruct (EthereumContract.read_getattr class_attribute name c)
    as [[[f | own] | e] c1] eqn:Eg.
  - destruct (getattr_function class_attribute false name c c1 f Hc Eg)
      as (Hf & Habi & Heth & Hc1).
    destruct (find_function_sound _ _ _ _ Hf)
      as (item & Hin & Hn & Hconst & ->).
    cbn [EthereumContract.invoke].
    pose proof (call_keeps_facades
                  (ContractFunction.mk name (default [] (item_inputs item))
                     (default [] (item_outputs item)) (abi_is_constant item))
                  args [] c1) as Hk.
    unfold EthereumContract.call, m_bind, m_lift in *.
    cbn [ContractFunction.constant ContractFunction.name
         ContractFunction.outputs] in *.
    rewrite Hconst in *. cbn [negb] in *.
    destruct (ContractFunction.bind_arguments _ args [])
      as [bound | e]; cbn [snd] in *.
    + pose proof (call_function_reads name (fst bound)
                    (default [] (item_outputs item)) c1) as Hread.
      destruct (EthereumContract._call_function name (fst bound) _ c1)
        as [out c2].
      destruct Hread as (Hp & _). cbn [snd] in Hk.
      destruct Hk as (Ha & Hrd & Hwr). split; [congruence |].
      unfold EthereumContract.consistent in *.
      now rewrite Ha, Hrd, Hwr.
    + split; [now rewrite Heth | exact Hc1].
  - exfalso.
    exact (getattr_not_own class_attribute false name own c c1 Hl Eg).
  - apply (getattr_raises class_attribute false) in Eg as ->. now split.
Qed.

Section TokenWrites.
Context {W : Type} `{Node W}.
Variable class_attribute : string -> bool.
Variable call_class_attribute :
  string -> list pyval -> list (string * pyval)
  -> M (EthereumContract.t W) pyval.
Variable pow10_negative : Z -> spec_float.

(** reading [decimals], from the cache or from the contract, sends
    nothing and keeps the facades *)
Lemma decimals_keeps_pending (self : ERC20Token.t W) :
  EthereumContract.consistent (ERC20Token.contract self) ->
  let '(out, self1) :=
    ERC20Token.decimals class_attribute call_class_attribute self in
  Ethereum._pending_transactions
    (EthereumContract.ethereum (ERC20Token.contract self1))
  = Ethereum._pending_transactions
      (EthereumContract.ethereum (ERC20Token.contract self))
  /\ EthereumContract.consistent (ERC20Token.contract self1).
Proof.
  intros Hc. unfold ERC20Token.decimals.
  destruct (is_none (ERC20Token._decimals self)); [| now split].
  unfold m_bind, ERC20Token.read_call, ERC20Token.on_contract.
  pose proof (read_call_keeps_pending class_attribute call_class_attribute
                "decimals" [] (ERC20Token.contract self) Hc eq_refl) as Hr.
  destruct ((do function <-
               EthereumContract.read_getattr class_attribute "decimals";
             EthereumContract.invoke call_class_attribute function [] [])
              (ERC20Token.contract self)) as [[value | e] c1];
    exact Hr.
Qed.

Lemma to_units_keeps_pending (a : ERC20Token.amount)
    (self : ERC20Token.t W) :
  EthereumContract.consistent (ERC20Token.contract self) ->
  let '(out, self1) :=
    ERC20Token.to_units class_attribute call_class_attribute pow10_negative
      a self in
  Ethereum._pending_transactions
    (EthereumContract.ethereum (ERC20Token.contract self1))
  = Ethereum._pending_transactions
      (EthereumContract.ethereum (ERC20Token.contract self))
  /\ EthereumContract.consistent (ERC20Token.contract self1).
Proof.
  intros Hc. destruct a as [n | x]; simpl; [now split |].
  unfold m_bind, m_lift.
  pose proof (decimals_keeps_pending self Hc) as Hd.
  destruct (ERC20Token.decimals class_attribute call_class_attribute self)
    as [[value | e] self1]; exact Hd.
Qed.

(** X21.  [transfer], [approve] and [transfer_from] of a token called
    without a gas price never return: they raise, and store no pending
    transaction.  The builder is a legacy one, and [build] requires a
    gas price. *)
Theorem token_writes_need_a_gas_price (self : ERC20Token.t W)
    (to from_address : string) (a : ERC20Token.amount)
    (gas_limit : option pyval)
    (Hconsistent : EthereumContract.consistent (ERC20Token.contract self)) :
  let fails {A} (run : res A * ERC20Token.t W) :=
    is_ret (fst run) = false
    /\ Ethereum._pending_transactions
         (EthereumContract.ethereum (ERC20Token.contract (snd run)))
       = Ethereum._pending_transactions
           (EthereumContract.ethereum (ERC20Token.contract self)) in
  fails (ERC20Token.transfer class_attribute call_class_attribute
           pow10_negative to a gas_limit None self)
  /\ fails (ERC20Token.approve class_attribute call_class_attribute
              pow10_negative to a gas_limit None self)
  /\ fails (ERC20Transfers.transfer_from class_attribute
              call_class_attribute pow10_negative from_address to a
              gas_limit None self).
Proof.
  assert (Hg : dict_get (ERC20Token.gas_options gas_limit None) "gas_price"
               = None).
  { now destruct gas_limit. }
  assert (Hcall : forall name args,
            EthereumContract.found_by_lookup class_attribute name = false ->
            let run :=
              (do units <-
                 ERC20Token.to_units class_attribute call_class_attribute
                   pow10_negative a;
               ERC20Token.write_call class_attribute call_class_attribute
                 name (args units) (ERC20Token.gas_options gas_limit None))
                self in
            is_ret (fst run) = false
            /\ Ethereum._pending_transactions
                 (EthereumContract.ethereum (ERC20Token.contract (snd run)))
               = Ethereum._pending_transactions
                   (EthereumContract.ethereum (ERC20Token.contract self))).
  { intros name args Hl. cbv zeta. unfold m_bind.
    pose proof (to_units_keeps_pending a self Hconsistent) as Hu.
    destruct (ERC20Token.to_units class_attribute call_class_attribute
                pow10_negative a self) as [[units | e] self1];
      destruct Hu as (Hp1 & Hc1); [| split; [reflexivity | exact Hp1]].
    unfold ERC20Token.write_call, ERC20Token.on_contract.
    pose proof (write_call_without_gas_price class_attribute
                  call_class_attribute name (args units)
                  (ERC20Token.gas_options gas_limit None)
                  (ERC20Token.contract self1) Hc1 Hl Hg) as Hw.
    destruct ((do function <-
                 EthereumContract.write_getattr class_attribute name;
               EthereumContract.invoke call_class_attribute function
                 (args units) (ERC20Token.gas_options gas_limit None))
                (ERC20Token.contract self1)) as [out c'].
    destruct Hw as (Hret & Hp). simpl. split; [exact Hret | congruence]. }
  cbv zeta. split; [| split].
  - unfold ERC20Token.transfer.
    destruct (Validation.is_eth_address to); [| now split]. cbn [negb].
    exact (Hcall "transfer" (fun units => [PStr to; PInt units]) eq_refl).
  - unfold ERC20Token.approve.
    destruct (Validation.is_eth_address to); [| now split]. cbn [negb].
    exact (Hcall "approve" (fun units => [PStr to; PInt units]) eq_refl).
  - unfold ERC20Transfers.transfer_from.
    destruct (Validation.is_eth_address from_address); [| now split].
    destruct (Validation.is_eth_address to); [| now split]. cbn [negb].
    exact (Hcall "transferFrom"
             (fun units => [PStr from_address; PStr to; PInt units])
             eq_refl).
Qed.

End TokenWrites.

Lemma token_writes_need_a_gas_price_witness :
  let a := S754_finite false 6755399441055744 (-53) in
  let run :=
    ERC20Token.transfer ScriptedInterpreter.class_attribute
      ScriptedInterpreter.call_class_attribute
      ScriptedInterpreter.pow10_negative
      "0x1234567890123456789012345678901234567890"
      (ERC20Token.AmountFloat a) (Some (PInt 21000)) None
      (ScriptedLogs.token [ScriptedNode.response (PStr "0x12")]) in
  is_ret (fst run) = false
  /\ ERC20Token._decimals (snd run) = PInt 18.
Proof.
  intros a run.
  destruct (token_writes_need_a_gas_price
              ScriptedInterpreter.class_attribute
              ScriptedInterpreter.call_class_attribute
              ScriptedInterpreter.pow10_negative
              (ScriptedLogs.token [ScriptedNode.response (PStr "0x12")])
              "0x1234567890123456789012345678901234567890"
              "0x1234567890123456789012345678901234567890"
              (ERC20Token.AmountFloat a) (Some (PInt 21000))
              (conj eq_refl
                 (conj eq_refl
                    (conj (init_resolves ERC20_ABI false)
                       (init_resolves ERC20_ABI true)))))
    as ((Htransfer & _) & _).
  split; [exact Htransfer |]. vm_compute. reflexivity.
Defined.

(** ** Event logs *)

Lemma match_event_sound (abi : list abi_item) (topic : string)
    (item : abi_item) :
  EventLogs.match_event abi topic = Some item ->
  In item abi
  /\ ContractListing.is_event item = true
  /\ EventLogs.is_substring (PyStr.lower (default "" (item_name item)))
       (PyStr.lower topic) = true.
Proof.
  induction abi as [| x abi IH]; simpl; [discriminate |].
  destruct (ContractListing.is_event x && _) eqn:E.
  - intros [= <-]. apply andb_true_iff in E as [E1 E2].
    split; [now left | now split].
  - intros Hm. destruct (IH Hm) as (Hin & He & Hs).
    split; [now right | now split].
Qed.

Section Events.
Context {W : Type} `{Node W}.

(** X25.  [parse_event_log] raises "Log has no topics" for a log
    without topics or with none.  What it returns is either the unknown
    event with no arguments, or an event of the ABI whose lowered name
    occurs somewhere in the lowered first topic, with the arguments
    {"arg1": "value1"}: the topic is searched for the name, not compared
    with a hash of the signature. *)
Theorem parse_event_log_matches_by_substring (abi : list abi_item)
    (log : EventLogs.log_entry) :
  (default [] (EventLogs.topics log) = [] ->
   EventLogs.parse_event_log abi log = Raise (ValueError "Log has no topics"))
  /\ forall parsed,
       EventLogs.parse_event_log abi log = Ret parsed ->
       (EventLogs.event parsed = "UnknownEvent"
        /\ EventLogs.args parsed = [])
       \/ (exists item topic rest,
             In item abi
             /\ ContractListing.is_event item = true
             /\ item_name item = Some (EventLogs.event parsed)
             /\ EventLogs.topics log = Some (topic :: rest)
             /\ EventLogs.is_substring
                  (PyStr.lower (EventLogs.event parsed)) (PyStr.lower topic)
                = true
             /\ EventLogs.args parsed = [("arg1", PStr "value1")]).
Proof.
  unfold EventLogs.parse_event_log. split.
  - intros ->. reflexivity.
  - intros parsed.
    destruct (EventLogs.topics log) as [[| topic rest] |] eqn:Et; simpl;
      try discriminate.
    destruct (EventLogs.match_event abi topic) as [item |] eqn:Em.
    + destruct (match_event_sound _ _ _ Em) as (Hin & He & Hs).
      destruct (item_name item) as [n |] eqn:En.
      * destruct (int16 _); simpl; [| discriminate].
        destruct (int16 _); simpl; [| discriminate].
        intros [= <-]. right. exists item, topic, rest. simpl.
        now repeat split.
      * destruct (int16 _); simpl; [| discriminate].
        destruct (int16 _); simpl; [| discriminate].
        intros [= <-]. now left.
    + destruct (int16 _); simpl; [| discriminate].
      destruct (int16 _); simpl; [| discriminate].
      intros [= <-]. now left.
Qed.

Lemma parse_event_log_args (abi : list abi_item) (log : EventLogs.log_entry)
    (parsed : EventLogs.parsed_log) :
  EventLogs.parse_event_log abi log = Ret parsed ->
  dict_get (EventLogs.args parsed) "_from" = None
  /\ dict_get (EventLogs.args parsed) "_to" = None.
Proof.
  unfold EventLogs.parse_event_log.
  destruct (default [] (EventLogs.topics log)) as [| topic rest];
    [discriminate |].
  destruct (match EventLogs.match_event abi topic with
            | Some item => item_name item
            | None => None
            end);
    (destruct (int16 _); simpl; [| discriminate]);
    (destruct (int16 _); simpl; [| discriminate]);
    intros [= <-]; now split.
Qed.

Lemma parse_logs_args (abi : list abi_item) (event_name : string)
    (logs : list EventLogs.log_entry)
    (acc parsed : list EventLogs.parsed_log) (address : string) :
  ERC20Transfers.filter_transfers address acc = [] ->
  EventLogs.parse_logs abi event_name logs acc = Ret parsed ->
  ERC20Transfers.filter_transfers address parsed = [].
Proof.
  revert acc. induction logs as [| log logs IH]; intros acc Hacc; simpl.
  - now intros [= <-].
  - destruct (EventLogs.parse_event_log abi log) as [p | e] eqn:Ep.
    + destruct (String.eqb (EventLogs.event p) event_name);
        [| now apply IH].
      apply IH. unfold ERC20Transfers.filter_transfers in *.
      rewrite List.filter_app, Hacc. simpl.
      unfold ERC20Transfers.names_address.
      destruct (parse_event_log_args _ _ _ Ep) as [-> ->]. reflexivity.
    + destruct e; try discriminate. now apply IH.
Qed.

Variable sha256_hexdigest : string -> string.
Variable as_logs : pyval -> res (list EventLogs.log_entry).

(** X26.  [get_token_transfers] never reports a transfer: whenever it
    returns, it returns the empty list.  No parsed log carries "_from"
    or "_to" among its arguments, so the filter by address keeps
    nothing. *)
Theorem get_token_transfers_finds_none (address : option string)
    (from_block to_block : pyval) (self : ERC20Token.t W) :
  match fst (ERC20Transfers.get_token_transfers sha256_hexdigest as_logs
               address from_block to_block self) with
  | Ret transfers => transfers = []
  | Raise _ => True
  end.
Proof.
  unfold ERC20Transfers.get_token_transfers. unfold m_bind at 1.
  match goal with
  | |- context [match ?m self with _ => _ end] =>
      destruct (m self) as [[a | e] self1]
  end; [| exact I].
  unfold m_bind, m_ret, ERC20Token.on_contract, EventLogs.get_events.
  destruct (List.find _ _); [| exact I].
  unfold m_try, m_bind, m_lift, m_raise, EthereumContract.on_ethereum,
    Ethereum.provider_request.
  destruct (request "eth_getLogs" _ _) as [[response | e] w]; simpl;
    [| exact I].
  destruct (getitem response "result") as [result | e]; simpl; [| exact I].
  destruct (as_logs result) as [logs | e]; simpl; [| exact I].
  destruct (EventLogs.parse_logs _ _ logs []) as [parsed | e] eqn:Ep; simpl;
    [| exact I].
  eapply parse_logs_args; [| exact Ep]. reflexivity.
Qed.

End Events.

Example get_token_transfers_of_a_transfer_log :
  fst (ERC20Transfers.get_token_transfers (fun _ => "") ScriptedLogs.as_logs
         (Some "0x1234567890123456789012345678901234567890") (PInt 0)
         (PStr "latest")
         (ScriptedLogs.token
            [ScriptedNode.response
               (PList [PDict [("topics", PList [PStr "Transfer"]);
                              ("blockNumber", PStr "0x10")]])]))
  = Ret [].
Proof. reflexivity. Qed.

Example get_events_of_a_transfer_log :
  fst (EventLogs.get_events ScriptedLogs.as_logs "Transfer" (PInt 0)
         (PStr "latest")
         (scripted_erc20
            [ScriptedNode.response
               (PList [PDict [("topics", PList [PStr "Transfer"]);
                              ("blockNumber", PStr "0x10")]])]))
  = Ret [EventLogs.mk_parsed "Transfer" [("arg1", PStr "value1")] 16
           ("0x" +:+ PyStr.times "0" 64) 0].
Proof. reflexivity. Qed.

Lemma is_substring_chars (p : ascii -> bool) (sub s : string) :
  EventLogs.is_substring sub s = true ->
  PyStr.all p s = true -> PyStr.all p sub = true.
Proof.
  assert (Hpre : forall s sub, PyStr.startswith s sub = true ->
                 PyStr.all p s = true -> PyStr.all p sub = true).
  { intros s0 sub0. revert s0.
    induction sub0 as [| b sub0 IH]; intros [| a s0]; simpl;
      try reflexivity; try discriminate.
    intros Hs Ha. apply andb_true_iff in Hs as [Hab Hs].
    apply andb_true_iff in Ha as [Hpa Ha].
    apply Ascii.eqb_eq in Hab. subst b. rewrite Hpa. simpl. eauto. }
  induction s as [| a s IH]; simpl.
  - rewrite orb_false_r. intros Hs _. exact (Hpre _ _ Hs eq_refl).
  - intros Hs Ha. apply orb_true_iff in Hs as [Hs | Hs].
    + exact (Hpre _ _ Hs Ha).
    + apply andb_true_iff in Ha as [_ Ha]. auto.
Qed.

Lemma lower_hexx (s : string) :
  PyStr.all EventLogs.hex_or_x s = true ->
  PyStr.all EventLogs.hex_or_x (PyStr.lower s) = true.
Proof.
  induction s as [| c s IH]; simpl; [reflexivity |].
  intros Hs. apply andb_true_iff in Hs as [Hc Hs]. rewrite (IH Hs).
  rewrite andb_true_r. revert Hc.
  destruct c as [[] [] [] [] [] [] [] []]; vm_compute; congruence.
Qed.

(** X27.  With the standard ERC-20 ABI, a log whose first topic is a
    hexadecimal string, as the hash of an event signature is, parses as
    the unknown event: neither "transfer" nor "approval" can occur in
    it.  So [get_events] keeps no such log, for "Transfer" and for
    "Approval". *)
Theorem hexadecimal_topics_name_no_token_event {W : Type} `{Node W}
    (log : EventLogs.log_entry) (topic : string) (rest : list string)
    (parsed : EventLogs.parsed_log)
    (Htopics : EventLogs.topics log = Some (topic :: rest))
    (Hhex : PyStr.all EventLogs.hex_or_x topic = true)
    (Hparsed : EventLogs.parse_event_log ERC20_ABI log = Ret parsed) :
  EventLogs.event parsed = "UnknownEvent"
  /\ EventLogs.parse_logs ERC20_ABI "Transfer" [log] [] = Ret []
  /\ EventLogs.parse_logs ERC20_ABI "Approval" [log] [] = Ret [].
Proof.
  assert (Hno : forall name,
            name = "transfer" \/ name = "approval" ->
            EventLogs.is_substring name (PyStr.lower topic) = false).
  { intros name Hname.
    destruct (EventLogs.is_substring name (PyStr.lower topic)) eqn:E;
      [| reflexivity].
    apply (is_substring_chars EventLogs.hex_or_x) in E; [| now apply lower_hexx].
    destruct Hname as [-> | ->]; discriminate E. }
  assert (Hm : EventLogs.match_event ERC20_ABI topic = None).
  { unfold ERC20_ABI. simpl.
    change (PyStr.lower "Transfer") with "transfer".
    change (PyStr.lower "Approval") with "approval".
    rewrite !Hno by auto. reflexivity. }
  assert (He : EventLogs.event parsed = "UnknownEvent").
  { unfold EventLogs.parse_event_log in Hparsed.
    rewrite Htopics in Hparsed. simpl default in Hparsed.
    cbv beta iota zeta in Hparsed. rewrite Hm in Hparsed.
    destruct (int16 _); simpl in Hparsed; [| discriminate].
    destruct (int16 _); simpl in Hparsed; [| discriminate].
    now injection Hparsed as <-. }
  split; [exact He |].
  cbn [EventLogs.parse_logs]. rewrite Hparsed, He. now split.
Qed.

Lemma hexadecimal_topics_name_no_token_event_witness :
  EventLogs.parse_logs ERC20_ABI "Transfer"
    [EventLogs.mk_log
       (Some ["0xddf252ad1be2c89b69c2b068fc378daa952ba7f163c4a11628f55a4df523b3ef"])
       (Some "0x10") None (Some "0x0")]
    []
  = Ret [].
Proof.
  destruct (@hexadecimal_topics_name_no_token_event ScriptedNode.world
              ScriptedNode.node
              (EventLogs.mk_log
                 (Some ["0xddf252ad1be2c89b69c2b068fc378daa952ba7f163c4a11628f55a4df523b3ef"])
                 (Some "0x10") None (Some "0x0"))
              "0xddf252ad1be2c89b69c2b068fc378daa952ba7f163c4a11628f55a4df523b3ef"
              []
              (EventLogs.mk_parsed "UnknownEvent" [] 16
                 ("0x" +:+ PyStr.times "0" 64) 0)
              eq_refl eq_refl eq_refl) as (_ & Htransfer & _).
  exact Htransfer.
Defined.

(** ** Binding of arguments, and subscriptions *)




Section Subscriptions.
Context {C : Type}.

(** X29.  [unsubscribe] of the number [subscribe] returned succeeds and
    removes the subscription; a second [unsubscribe] of it returns False
    and changes nothing.  When the number drawn was free, the provider is
    back as it was before; when it was in use, the earlier subscription
    was replaced and is gone as well.  [disconnect] drops every
    subscription. *)
Theorem subscriptions_round_trip (drawn : Z) (event_type : string)
    (callback : C) (self : WebSocketProvider.t C) :
  let '(subscription_id, subscribed) :=
    WebSocketProvider.subscribe drawn event_type callback self in
  let '(removed, after) :=
    WebSocketProvider.unsubscribe subscription_id subscribed in
  removed = true
  /\ WebSocketProvider._subscriptions after
     = delete drawn (WebSocketProvider._subscriptions self)
  /\ (WebSocketProvider._subscriptions self !! drawn = None ->
      after = self)
  /\ WebSocketProvider.unsubscribe subscription_id after = (false, after)
  /\ (forall earlier,
        WebSocketProvider._subscriptions self !! drawn = Some earlier ->
        WebSocketProvider._subscriptions subscribed !! drawn
        = Some (event_type, callback)
        /\ WebSocketProvider._subscriptions after !! drawn = None)
  /\ WebSocketProvider._subscriptions
       (WebSocketProvider.disconnect subscribed) = ∅.
Proof.
  unfold WebSocketProvider.subscribe, WebSocketProvider.unsubscribe. simpl.
  rewrite lookup_insert_eq. simpl. rewrite delete_insert_eq.
  rewrite lookup_delete_eq.
  repeat split.
  intros Hfresh. destruct self as [i ws subs]. simpl in *.
  now rewrite delete_id.
Qed.

End Subscriptions.
